(** * Credential and session state management of google_workspace_mcp

    A shallow embedding of [auth/redis_state_store.py], [auth/scopes.py] and
    the credential functions of [auth/google_auth.py], followed by the
    properties of the specification that are about them.

    The Python process is a state: its module globals, the objects on its
    heap, the Redis server it talks to and the answers of the outside world
    (clock, token endpoint, file system).  Functions that touch any of these
    are written in a state-and-exception monad over that state. *)

From Stdlib Require Import ZArith Ascii String List Bool Lia.
From stdpp Require Import base option gmap strings list fin_maps.

Set Warnings "-register-all".

Local Open Scope string_scope.
Local Open Scope Z_scope.

(** ** Python values *)

(** Truthiness of an [Optional[str]]: [None] and the empty string are false. *)
Definition truthy (o : option string) : bool :=
  match o with
  | Some s => negb (String.eqb s "")
  | None => false
  end.

(** [s.endswith(suffix)]. *)
Definition endswith (s suffix : string) : bool :=
  let n := String.length s in
  let k := String.length suffix in
  (k <=? n)%nat && String.eqb (substring (n - k) k s) suffix.

(** *** Naive datetimes, [isoformat] and [fromisoformat] *)

Record datetime := mk_datetime {
  year : Z; month : Z; day : Z;
  hour : Z; minute : Z; second : Z; microsecond : Z
}.

Definition is_leap (y : Z) : bool :=
  ((y mod 4 =? 0) && negb (y mod 100 =? 0)) || (y mod 400 =? 0).

Definition days_in_month (y m : Z) : Z :=
  if m =? 2 then (if is_leap y then 29 else 28)
  else if (m =? 4) || (m =? 6) || (m =? 9) || (m =? 11) then 30
  else 31.

(** The range checks of the [datetime] constructor. *)
Definition valid_datetime (d : datetime) : bool :=
  (1 <=? year d) && (year d <=? 9999) &&
  (1 <=? month d) && (month d <=? 12) &&
  (1 <=? day d) && (day d <=? days_in_month (year d) (month d)) &&
  (0 <=? hour d) && (hour d <? 24) &&
  (0 <=? minute d) && (minute d <? 60) &&
  (0 <=? second d) && (second d <? 60) &&
  (0 <=? microsecond d) && (microsecond d <? 1000000).

(** Days between 1970-01-01 and the given civil date. *)
Definition days_from_civil (y m d : Z) : Z :=
  let y' := if m <=? 2 then y - 1 else y in
  let era := y' / 400 in
  let yoe := y' - era * 400 in
  let mp := if m <=? 2 then m + 9 else m - 3 in
  let doy := (153 * mp + 2) / 5 + d - 1 in
  let doe := yoe * 365 + yoe / 4 - yoe / 100 + doy in
  era * 146097 + doe - 719468.

(** Microseconds since the epoch; naive datetimes are ordered by this number. *)
Definition to_micros (d : datetime) : Z :=
  (((days_from_civil (year d) (month d) (day d) * 24 + hour d) * 60
    + minute d) * 60 + second d) * 1000000 + microsecond d.

Definition digit_char (d : Z) : ascii := ascii_of_nat (48 + Z.to_nat d).

Definition digit_val (c : ascii) : option Z :=
  let n := Z.of_nat (nat_of_ascii c) in
  if (48 <=? n) && (n <=? 57) then Some (n - 48) else None.

(** [width] decimal digits of [n], zero padded, written in front of [tail]. *)
Fixpoint zfill (width : nat) (n : Z) (tail : string) : string :=
  match width with
  | O => tail
  | S w => zfill w (n / 10) (String (digit_char (n mod 10)) tail)
  end.

(** [d.isoformat()]: [YYYY-MM-DDTHH:MM:SS], with [.ffffff] when the
    microsecond is not zero. *)
Definition isoformat (d : datetime) : string :=
  zfill 4 (year d) (String "-" (zfill 2 (month d) (String "-" (zfill 2 (day d)
    (String "T" (zfill 2 (hour d) (String ":" (zfill 2 (minute d)
      (String ":" (zfill 2 (second d)
        (if microsecond d =? 0 then ""
         else String "." (zfill 6 (microsecond d) "")))))))))))).

Fixpoint read_digits (width : nat) (acc : Z) (s : string) : option (Z * string) :=
  match width with
  | O => Some (acc, s)
  | S w =>
      match s with
      | String c s' =>
          match digit_val c with
          | Some d => read_digits w (acc * 10 + d) s'
          | None => None
          end
      | EmptyString => None
      end
  end.

Definition expect (c : ascii) (s : string) : option string :=
  match s with
  | String c' s' => if Ascii.eqb c c' then Some s' else None
  | EmptyString => None
  end.

Definition read_fraction (s : string) : option Z :=
  match s with
  | EmptyString => Some 0
  | String c s' =>
      if Ascii.eqb c "." then
        match read_digits 6 0 s' with
        | Some (us, EmptyString) => Some us
        | _ => None
        end
      else None
  end.

(** [datetime.fromisoformat(s)] on the two layouts [isoformat] writes,
    which are the ones this program stores; [None] stands for the
    [ValueError] of a text that is not a date or of a field out of range.
    Python reads further layouts (another separator, no seconds, a UTC
    offset, which gives an aware datetime): they are outside the
    embedding, which takes them for unreadable. *)
Definition fromisoformat (s : string) : option datetime :=
  '(y, s) ← read_digits 4 0 s;
  s ← expect "-" s;
  '(m, s) ← read_digits 2 0 s;
  s ← expect "-" s;
  '(d, s) ← read_digits 2 0 s;
  s ← expect "T" s;
  '(h, s) ← read_digits 2 0 s;
  s ← expect ":" s;
  '(mi, s) ← read_digits 2 0 s;
  s ← expect ":" s;
  '(sec, s) ← read_digits 2 0 s;
  us ← read_fraction s;
  let dt := mk_datetime y m d h mi sec us in
  if valid_datetime dt then Some dt else None.

(** *** JSON *)

(** The values [json.loads] produces.  An object is kept as the list of its
    items; a decoded dict has each key once. *)
Inductive json :=
  | JNull
  | JBool (b : bool)
  | JNum (n : Z)
  | JStr (s : string)
  | JArr (items : list json)
  | JObj (items : list (string * json)).

(** A Python [str] as Redis and the files hold it, seen through the [json]
    module, which is all this program does with such a value: it is either
    the text [json.dumps] writes for a value, which [json.loads] decodes to
    that value, or a text [json.loads] rejects with [JSONDecodeError]. *)
Inductive text :=
  | Document (j : json)
  | Malformed (s : string).

Definition json_dumps (j : json) : text := Document j.

(** [json.loads]; [None] is [JSONDecodeError]. *)
Definition json_loads (t : text) : option json :=
  match t with
  | Document j => Some j
  | Malformed _ => None
  end.

(** Truthiness of a [str]: only the empty string is false, and no JSON
    document is empty. *)
Definition truthy_text (t : text) : bool :=
  match t with
  | Document _ => true
  | Malformed s => negb (String.eqb s "")
  end.

(** Truthiness of a decoded JSON value. *)
Definition truthy_json (j : json) : bool :=
  match j with
  | JNull => false
  | JBool b => b
  | JNum n => negb (n =? 0)
  | JStr s => negb (String.eqb s "")
  | JArr items => negb (Nat.eqb (List.length items) 0)
  | JObj items => negb (Nat.eqb (List.length items) 0)
  end.

Fixpoint assoc (key : string) (items : list (string * json)) : option json :=
  match items with
  | [] => None
  | (k, v) :: rest => if String.eqb k key then Some v else assoc key rest
  end.

(** [d.get(key)] on a decoded value: the item, [None] (here [JNull]) when
    the key is missing; a value that is not a dict has no [get]
    ([AttributeError], here the outer [None]). *)
Definition dict_get (j : json) (key : string) : option json :=
  match j with
  | JObj items => Some (default JNull (assoc key items))
  | _ => None
  end.

(** ** Credentials *)

(** [google.oauth2.credentials.Credentials], with the attributes this
    program reads and writes. *)
Record Credentials := mk_credentials {
  token : option string;
  refresh_token : option string;
  token_uri : option string;
  client_id : option string;
  client_secret : option string;
  scopes : option (list string);
  expiry : option datetime
}.

(** google-auth treats a token as expired this long before its expiry
    (3 minutes 45 seconds), in microseconds. *)
Definition REFRESH_THRESHOLD : Z := 225 * 1000000.

(** [credentials.expired] at clock reading [now]: a credential without
    expiry never expires. *)
Definition expired (now : Z) (c : Credentials) : bool :=
  match expiry c with
  | Some e => to_micros e - REFRESH_THRESHOLD <=? now
  | None => false
  end.

(** [credentials.valid]: [token is not None and not expired]. *)
Definition valid (now : Z) (c : Credentials) : bool :=
  match token c with
  | Some _ => negb (expired now c)
  | None => false
  end.

(** [scopes.OAuthStateInfo]. *)
Record OAuthStateInfo := mk_state_info {
  st_session_id : option string;
  st_client_id : option string;
  st_client_secret : option string
}.

(** ** The process and its surroundings *)

Inductive exn :=
  | RedisError
  | OSError
  | JSONDecodeError
  | KeyError
  | ValueError
  | TypeError
  | AttributeError
  | RefreshError
  | TransportError.

(** What a call produces.  [IllTyped] marks a run in which Python goes on
    with a value outside the declared type of an attribute (a number where
    [Optional[str]] is declared); the typed embedding follows it no
    further, and no handler catches it. *)
Inductive outcome (A : Type) :=
  | Ret (a : A)
  | Raise (e : exn)
  | IllTyped.
Arguments Ret {A} a.
Arguments Raise {A} e.
Arguments IllTyped {A}.

(** The client object [redis.from_url] builds.  It holds a connection pool
    and connects when a command is sent, not when it is built.  The URL is
    taken to be well formed: on one that is not, [redis.from_url] raises
    [ValueError], which the embedding does not follow. *)
Inductive RedisClient := from_url.

(** The token endpoint's answer to [credentials.refresh(Request())]: new
    token, expiry and refresh token, or an exception. *)
Inductive refresh_response :=
  | Refreshed (tok : string) (exp : option datetime) (rt : option string)
  | RefreshRaises (e : exn).

(** What the program reads but never writes. *)
Record Outside := mk_outside {
  clock : Z;                      (* microseconds since the epoch *)
  redis_up : bool;                (* the Redis server answers *)
  _redis_available : bool;        (* scopes.py could import the store *)
  MCP_SINGLE_USER_MODE : option string;
  listdir : string -> option (list (string * option text));
  token_endpoint : Credentials -> refresh_response;
  userinfo_email : Credentials -> option string
}.

Definition loc := nat.

(** The fields of a [RedisStateStore] that change; [redis_url] and [ttl]
    are fixed by [__init__]. *)
Record RedisStateStore := mk_store {
  _client : option RedisClient;
  enabled : bool
}.

Record World := mk_world {
  outside : Outside;
  (* the Redis server: key to value and the clock reading at which it expires *)
  redis_db : gmap string (text * Z);
  (* redis_state_store._redis_store *)
  _redis_store : option RedisStateStore;
  (* scopes.py *)
  OAUTH_STATE_TO_SESSION_INFO_MAP : gmap string OAuthStateInfo;
  OAUTH_STATE_TO_SESSION_ID_MAP : gmap string string;
  (* google_auth.py *)
  _SESSION_CREDENTIALS_CACHE : gmap string loc;
  (* the Credentials objects, by address *)
  heap : list Credentials
}.

Definition set_outside (o : Outside) (w : World) : World :=
  mk_world o (redis_db w) (_redis_store w) (OAUTH_STATE_TO_SESSION_INFO_MAP w)
    (OAUTH_STATE_TO_SESSION_ID_MAP w) (_SESSION_CREDENTIALS_CACHE w) (heap w).
Definition set_redis_db (db : gmap string (text * Z)) (w : World) : World :=
  mk_world (outside w) db (_redis_store w) (OAUTH_STATE_TO_SESSION_INFO_MAP w)
    (OAUTH_STATE_TO_SESSION_ID_MAP w) (_SESSION_CREDENTIALS_CACHE w) (heap w).
Definition set_redis_store (s : option RedisStateStore) (w : World) : World :=
  mk_world (outside w) (redis_db w) s (OAUTH_STATE_TO_SESSION_INFO_MAP w)
    (OAUTH_STATE_TO_SESSION_ID_MAP w) (_SESSION_CREDENTIALS_CACHE w) (heap w).
Definition set_info_map (m : gmap string OAuthStateInfo) (w : World) : World :=
  mk_world (outside w) (redis_db w) (_redis_store w) m
    (OAUTH_STATE_TO_SESSION_ID_MAP w) (_SESSION_CREDENTIALS_CACHE w) (heap w).
Definition set_id_map (m : gmap string string) (w : World) : World :=
  mk_world (outside w) (redis_db w) (_redis_store w) (OAUTH_STATE_TO_SESSION_INFO_MAP w)
    m (_SESSION_CREDENTIALS_CACHE w) (heap w).
Definition set_session_cache (m : gmap string loc) (w : World) : World :=
  mk_world (outside w) (redis_db w) (_redis_store w) (OAUTH_STATE_TO_SESSION_INFO_MAP w)
    (OAUTH_STATE_TO_SESSION_ID_MAP w) m (heap w).
Definition set_heap (h : list Credentials) (w : World) : World :=
  mk_world (outside w) (redis_db w) (_redis_store w) (OAUTH_STATE_TO_SESSION_INFO_MAP w)
    (OAUTH_STATE_TO_SESSION_ID_MAP w) (_SESSION_CREDENTIALS_CACHE w) h.

(** The server going down or coming back, seen from the process. *)
Definition set_redis_up (b : bool) (w : World) : World :=
  set_outside
    (mk_outside (clock (outside w)) b (_redis_available (outside w))
       (MCP_SINGLE_USER_MODE (outside w)) (listdir (outside w))
       (token_endpoint (outside w)) (userinfo_email (outside w))) w.

(** Time passing: the clock reads [d] microseconds more. *)
Definition advance (d : Z) (w : World) : World :=
  set_outside
    (mk_outside (clock (outside w) + d) (redis_up (outside w))
       (_redis_available (outside w)) (MCP_SINGLE_USER_MODE (outside w))
       (listdir (outside w)) (token_endpoint (outside w))
       (userinfo_email (outside w))) w.

(** *** State and exceptions *)

Definition M (A : Type) : Type := World -> outcome A * World.

Definition ret {A} (a : A) : M A := fun w => (Ret a, w).
Definition raise {A} (e : exn) : M A := fun w => (Raise e, w).
Definition ill_typed {A} : M A := fun w => (IllTyped, w).

Definition bind {A B} (m : M A) (k : A -> M B) : M B :=
  fun w =>
    match m w with
    | (Ret a, w') => k a w'
    | (Raise e, w') => (Raise e, w')
    | (IllTyped, w') => (IllTyped, w')
    end.

(** [try: body except <caught>: handler]. *)
Definition try_except {A} (body : M A) (caught : exn -> bool) (handler : exn -> M A) : M A :=
  fun w =>
    match body w with
    | (Raise e, w') => if caught e then handler e w' else (Raise e, w')
    | r => r
    end.

Definition gets {A} (f : World -> A) : M A := fun w => (Ret (f w), w).
Definition modify (f : World -> World) : M unit := fun w => (Ret tt, f w).

Declare Scope py_scope.
Delimit Scope py_scope with py.
Notation "x <- m ;; k" := (bind m (fun x => k))
  (at level 20, m at level 99, k at level 200, only parsing) : py_scope.
Notation "m ;; k" := (bind m (fun _ => k))
  (at level 100, k at level 200, only parsing, right associativity) : py_scope.
Local Open Scope py_scope.

Definition except_Exception (e : exn) : bool := true.
Definition except_RedisError (e : exn) : bool :=
  match e with RedisError => true | _ => false end.

(** *** The Redis server *)

Definition seconds (n : Z) : Z := n * 1000000.

(** The value under [key] at clock reading [now], when it has not expired. *)
Definition db_get (now : Z) (db : gmap string (text * Z)) (key : string) : option text :=
  match db !! key with
  | Some (v, deadline) => if now <? deadline then Some v else None
  | None => None
  end.

(** A command sent through the client: it runs on the server, or raises
    [RedisError] (a [ConnectionError]) when the server cannot be reached. *)
Definition redis_command {A} (run : Z -> gmap string (text * Z) -> A * gmap string (text * Z))
  : M A :=
  fun w =>
    if redis_up (outside w) then
      let '(a, db') := run (clock (outside w)) (redis_db w) in
      (Ret a, set_redis_db db' w)
    else (Raise RedisError, w).

Definition ping : M unit := redis_command (fun _ db => (tt, db)).

Definition redis_get (key : string) : M (option text) :=
  redis_command (fun now db => (db_get now db key, db)).

Definition redis_setex (key : string) (ttl : Z) (value : text) : M unit :=
  redis_command (fun now db => (tt, <[key := (value, now + seconds ttl)]> db)).

Definition redis_expire (key : string) (ttl : Z) : M bool :=
  redis_command (fun now db =>
    match db_get now db key with
    | Some v => (true, <[key := (v, now + seconds ttl)]> db)
    | None => (false, db)
    end).

(** [delete] answers the number of keys removed. *)
Definition redis_delete (key : string) : M Z :=
  redis_command (fun now db =>
    (match db_get now db key with Some _ => 1 | None => 0 end, delete key db)).

(** [pipeline(); get(key); delete(key); execute()]: one MULTI/EXEC
    transaction; the answer kept is that of the [get]. *)
Definition redis_pipeline_get_delete (key : string) : M (option text) :=
  redis_command (fun now db => (db_get now db key, delete key db)).

(** *** Helpers for Python idioms *)

Definition is_None {A} (o : option A) : bool :=
  match o with Some _ => false | None => true end.

(** The string of an [Optional[str]] already tested to be truthy. *)
Definition the_str (o : option string) : string := default "" o.

Definition is_truthy_text (o : option text) : bool :=
  match o with Some t => truthy_text t | None => false end.

(** [ttl or timedelta(...)]: a zero [timedelta] is false. *)
Definition ttl_or (ttl : option Z) (dflt : Z) : Z :=
  match ttl with
  | Some t => if t =? 0 then dflt else t
  | None => dflt
  end.

Definition str_or_null (o : option string) : json :=
  match o with Some s => JStr s | None => JNull end.

(** A decoded JSON value where [Optional[str]] is declared. *)
Definition as_optional_str (j : json) : option (option string) :=
  match j with
  | JNull => Some None
  | JStr s => Some (Some s)
  | _ => None
  end.

(** [data.get(key)] where [Optional[str]] is declared. *)
Definition field (data : json) (key : string) : M (option string) :=
  match dict_get data key with
  | Some v =>
      match as_optional_str v with
      | Some o => ret o
      | None => ill_typed
      end
  | None => raise AttributeError
  end.

(** [json.loads(t)]. *)
Definition loads (t : text) : M json :=
  match json_loads t with
  | Some j => ret j
  | None => raise JSONDecodeError
  end.

#[global] Instance Credentials_inhabited : Inhabited Credentials :=
  populate (mk_credentials None None None None None None None).

(** The object at an address the program holds. *)
Definition deref (l : loc) : M Credentials := gets (fun w => heap w !!! l).

(** A new object. *)
Definition alloc (c : Credentials) : M loc :=
  fun w => (Ret (List.length (heap w)), set_heap (heap w ++ [c]) w).

(** [datetime.utcnow()], as a clock reading. *)
Definition now : M Z := gets (fun w => clock (outside w)).

(** ** redis_state_store.py *)

Module redis_state_store.

(** The process has one [RedisStateStore], the global [_redis_store]; the
    methods are written on that instance. *)
Definition __init__ : RedisStateStore := mk_store None true.

Definition self : M RedisStateStore :=
  fun w =>
    match _redis_store w with
    | Some s => (Ret s, w)
    | None => (Raise AttributeError, w)
    end.

Definition set_self (f : RedisStateStore -> RedisStateStore) : M unit :=
  modify (fun w => set_redis_store (f <$> _redis_store w) w).

(** The [client] property.  The handler returns from the property; the
    body falls through to [return self._client]. *)
Definition client : M (option RedisClient) :=
  s <- self ;;
  returned <-
    (if is_None (_client s) && enabled s then
       try_except
         (set_self (fun s => mk_store (Some from_url) (enabled s)) ;;
          ping ;;
          ret None)
         (fun e => match e with RedisError | OSError => true | _ => false end)
         (fun _ =>
            set_self (fun s => mk_store (_client s) false) ;;
            ret (Some None))
     else ret None) ;;
  match returned with
  | Some r => ret r
  | None => s' <- self ;; ret (_client s')
  end.

(** [self.client.<command>]: the property is read again for the call. *)
Definition via_client {A} (command : M A) : M A :=
  c <- client ;;
  match c with
  | Some _ => command
  | None => raise AttributeError
  end.

Definition oauth_state_key (state : string) : string := "oauth_state:" ++ state.
Definition session_creds_key (session_id : string) : string := "session_creds:" ++ session_id.
Definition user_creds_key (cid user_email : string) : string :=
  "user_creds:" ++ cid ++ ":" ++ user_email.

Definition store_oauth_state (state : string) (session_id cid csecret : option string)
  : M bool :=
  c <- client ;;
  if is_None c then ret false
  else
    try_except
      (let data := JObj [("session_id", str_or_null session_id);
                         ("client_id", str_or_null cid);
                         ("client_secret", str_or_null csecret)] in
       let key := oauth_state_key state in
       via_client (redis_setex key 600 (json_dumps data)) ;;
       ret true)
      except_RedisError
      (fun _ => ret false).

Definition get_oauth_state (state : string) : M (option json) :=
  c <- client ;;
  if is_None c then ret None
  else
    try_except
      (let key := oauth_state_key state in
       data_str <- via_client (redis_pipeline_get_delete key) ;;
       match data_str with
       | Some t =>
           if truthy_text t then
             data <- loads t ;;
             ret (Some data)
           else ret None
       | None => ret None
       end)
      (fun e => match e with RedisError | JSONDecodeError => true | _ => false end)
      (fun _ => ret None).

Definition store_session_credentials (session_id : string) (credentials_json : text)
    (ttl : option Z) : M bool :=
  c <- client ;;
  if is_None c then ret false
  else
    try_except
      (let key := session_creds_key session_id in
       let ttl := ttl_or ttl 1800 in
       via_client (redis_setex key ttl credentials_json) ;;
       ret true)
      except_RedisError
      (fun _ => ret false).

Definition get_session_credentials (session_id : string) : M (option text) :=
  c <- client ;;
  if is_None c then ret None
  else
    try_except
      (let key := session_creds_key session_id in
       creds <- via_client (redis_get key) ;;
       (if is_truthy_text creds then via_client (redis_expire key 1800) ;; ret tt
        else ret tt) ;;
       ret creds)
      except_RedisError
      (fun _ => ret None).

Definition delete_session_credentials (session_id : string) : M bool :=
  c <- client ;;
  if is_None c then ret false
  else
    try_except
      (let key := session_creds_key session_id in
       deleted <- via_client (redis_delete key) ;;
       ret (negb (deleted =? 0)))
      except_RedisError
      (fun _ => ret false).

Definition store_user_credentials (user_email cid : string) (credentials_json : text)
    (ttl : option Z) : M bool :=
  c <- client ;;
  if is_None c then ret false
  else
    try_except
      (let key := user_creds_key cid user_email in
       let ttl := ttl_or ttl 604800 in
       via_client (redis_setex key ttl credentials_json) ;;
       ret true)
      except_RedisError
      (fun _ => ret false).

Definition get_user_credentials (user_email cid : string) : M (option text) :=
  c <- client ;;
  if is_None c then ret None
  else
    try_except
      (let key := user_creds_key cid user_email in
       creds <- via_client (redis_get key) ;;
       (if is_truthy_text creds then via_client (redis_expire key 604800) ;; ret tt
        else ret tt) ;;
       ret creds)
      except_RedisError
      (fun _ => ret None).

Definition delete_user_credentials (user_email cid : string) : M bool :=
  c <- client ;;
  if is_None c then ret false
  else
    try_except
      (let key := user_creds_key cid user_email in
       deleted <- via_client (redis_delete key) ;;
       ret (negb (deleted =? 0)))
      except_RedisError
      (fun _ => ret false).

(** [close]: the client is dropped; [enabled] is left as it is. *)
Definition close : M unit :=
  s <- self ;;
  if is_None (_client s) then ret tt
  else set_self (fun s => mk_store None (enabled s)).

(** [redis_store = get_redis_store()]: the global is created on first use;
    the methods that follow act on it. *)
Definition get_redis_store : M unit :=
  modify (fun w =>
    match _redis_store w with
    | Some _ => w
    | None => set_redis_store (Some __init__) w
    end).

Definition close_redis_store : M unit :=
  store <- gets _redis_store ;;
  match store with
  | Some _ => close ;; modify (set_redis_store None)
  | None => ret tt
  end.

End redis_state_store.

(** ** scopes.py *)

Module scopes.

Definition store_oauth_state (state : string) (session_id cid csecret : option string)
  : M unit :=
  available <- gets (fun w => _redis_available (outside w)) ;;
  stored <-
    (if available then
       try_except
         (redis_state_store.get_redis_store ;;
          redis_state_store.store_oauth_state state session_id cid csecret)
         except_Exception
         (fun _ => ret false)
     else ret false) ;;
  if stored then ret tt
  else
    let state_info := mk_state_info session_id cid csecret in
    modify (fun w =>
      set_info_map (<[state := state_info]> (OAUTH_STATE_TO_SESSION_INFO_MAP w)) w) ;;
    match session_id with
    | Some sid =>
        if truthy session_id then
          modify (fun w =>
            set_id_map (<[state := sid]> (OAUTH_STATE_TO_SESSION_ID_MAP w)) w)
        else ret tt
    | None => ret tt
    end.

Definition get_oauth_state (state : string) : M (option OAuthStateInfo) :=
  available <- gets (fun w => _redis_available (outside w)) ;;
  from_redis <-
    (if available then
       try_except
         (redis_state_store.get_redis_store ;;
          data <- redis_state_store.get_oauth_state state ;;
          match data with
          | Some j =>
              if truthy_json j then
                sid <- field j "session_id" ;;
                cid <- field j "client_id" ;;
                csecret <- field j "client_secret" ;;
                ret (Some (mk_state_info sid cid csecret))
              else ret None
          | None => ret None
          end)
         except_Exception
         (fun _ => ret None)
     else ret None) ;;
  match from_redis with
  | Some info => ret (Some info)
  | None =>
      (* OAUTH_STATE_TO_SESSION_INFO_MAP.pop(state, None) *)
      state_info <- gets (fun w => OAUTH_STATE_TO_SESSION_INFO_MAP w !! state) ;;
      modify (fun w =>
        set_info_map (delete state (OAUTH_STATE_TO_SESSION_INFO_MAP w)) w) ;;
      match state_info with
      | Some info => ret (Some info)
      | None =>
          (* OAUTH_STATE_TO_SESSION_ID_MAP.pop(state, None) *)
          session_id <- gets (fun w => OAUTH_STATE_TO_SESSION_ID_MAP w !! state) ;;
          modify (fun w =>
            set_id_map (delete state (OAUTH_STATE_TO_SESSION_ID_MAP w)) w) ;;
          if truthy session_id then ret (Some (mk_state_info session_id None None))
          else ret None
      end
  end.

End scopes.

(** ** google_auth.py *)

Module google_auth.

(** The dict both save functions build. *)
Definition creds_data_of (c : Credentials) : json :=
  JObj [("token", str_or_null (token c));
        ("refresh_token", str_or_null (refresh_token c));
        ("token_uri", str_or_null (token_uri c));
        ("client_id", str_or_null (client_id c));
        ("client_secret", str_or_null (client_secret c));
        ("scopes", match scopes c with
                   | Some l => JArr (JStr <$> l)
                   | None => JNull
                   end);
        ("expiry", match expiry c with
                   | Some e => JStr (isoformat e)
                   | None => JNull
                   end)].

Definition save_credentials_to_file (user_google_email : string) (credentials : loc)
  : M unit :=
  c <- deref credentials ;;
  if negb (truthy (client_id c)) then ret tt
  else
    let creds_data := creds_data_of c in
    redis_state_store.get_redis_store ;;
    _ <- redis_state_store.store_user_credentials user_google_email
           (the_str (client_id c)) (json_dumps creds_data) None ;;
    ret tt.

Definition save_credentials_to_session (session_id : string) (credentials : loc)
  : M unit :=
  c <- deref credentials ;;
  let creds_data := creds_data_of c in
  redis_state_store.get_redis_store ;;
  stored <- redis_state_store.store_session_credentials session_id
              (json_dumps creds_data) None ;;
  if stored then ret tt
  else
    modify (fun w =>
      set_session_cache (<[session_id := credentials]> (_SESSION_CREDENTIALS_CACHE w)) w).

(** [expiry = None; if creds_data.get("expiry"): try: expiry =
    datetime.fromisoformat(creds_data["expiry"]) except (ValueError,
    TypeError): ...]. *)
Definition parse_expiry (creds_data : json) : M (option datetime) :=
  match dict_get creds_data "expiry" with
  | Some v =>
      if truthy_json v then
        match v with
        | JStr s => ret (fromisoformat s)
        | _ => ret None
        end
      else ret None
  | None => raise AttributeError
  end.

Fixpoint as_str_list (items : list json) : option (list string) :=
  match items with
  | [] => Some []
  | JStr s :: rest => cons s <$> as_str_list rest
  | _ => None
  end.

(** [creds_data.get("scopes")], where [Optional[Sequence[str]]] is declared. *)
Definition scopes_field (data : json) : M (option (list string)) :=
  match dict_get data "scopes" with
  | Some JNull => ret None
  | Some (JArr items) =>
      match as_str_list items with
      | Some l => ret (Some l)
      | None => ill_typed
      end
  | Some _ => ill_typed
  | None => raise AttributeError
  end.

(** [Credentials(token=creds_data.get("token"), ..., expiry=expiry)]. *)
Definition Credentials_from (creds_data : json) (exp : option datetime) : M loc :=
  tok <- field creds_data "token" ;;
  rt <- field creds_data "refresh_token" ;;
  uri <- field creds_data "token_uri" ;;
  cid <- field creds_data "client_id" ;;
  csecret <- field creds_data "client_secret" ;;
  sc <- scopes_field creds_data ;;
  alloc (mk_credentials tok rt uri cid csecret sc exp).

Definition except_decode (e : exn) : bool :=
  match e with JSONDecodeError | KeyError => true | _ => false end.

Definition load_credentials_from_file (user_google_email : string) (cid : option string)
  : M (option loc) :=
  if negb (truthy cid) then ret None
  else
    redis_state_store.get_redis_store ;;
    creds_json <- redis_state_store.get_user_credentials user_google_email (the_str cid) ;;
    match creds_json with
    | Some t =>
        if truthy_text t then
          try_except
            (creds_data <- loads t ;;
             exp <- parse_expiry creds_data ;;
             credentials <- Credentials_from creds_data exp ;;
             ret (Some credentials))
            except_decode
            (fun _ => ret None)
        else ret None
    | None => ret None
    end.

Definition load_credentials_from_session (session_id : string) : M (option loc) :=
  redis_state_store.get_redis_store ;;
  creds_json <- redis_state_store.get_session_credentials session_id ;;
  from_redis <-
    match creds_json with
    | Some t =>
        if truthy_text t then
          try_except
            (creds_data <- loads t ;;
             exp <- parse_expiry creds_data ;;
             credentials <- Credentials_from creds_data exp ;;
             ret (Some credentials))
            except_decode
            (fun _ => ret None)
        else ret None
    | None => ret None
    end ;;
  match from_redis with
  | Some credentials => ret (Some credentials)
  | None => gets (fun w => _SESSION_CREDENTIALS_CACHE w !! session_id)
  end.

(** The loop of [_find_any_credentials] over the directory listing; a file
    that cannot be read raises [IOError], which is [OSError].  The listing
    itself is taken to succeed and the files to hold text. *)
Fixpoint scan_credentials (files : list (string * option text)) : M (option loc) :=
  match files with
  | [] => ret None
  | (filename, content) :: rest =>
      if endswith filename ".json" then
        try_except
          (t <- match content with
                | Some t => ret t
                | None => raise OSError
                end ;;
           creds_data <- loads t ;;
           credentials <- Credentials_from creds_data None ;;
           ret (Some credentials))
          (fun e => match e with OSError | JSONDecodeError | KeyError => true | _ => false end)
          (fun _ => scan_credentials rest)
      else scan_credentials rest
  end.

Definition _find_any_credentials (base_dir : string) : M (option loc) :=
  listing <- gets (fun w => listdir (outside w) base_dir) ;;
  match listing with
  | Some files => scan_credentials files
  | None => ret None
  end.

(** [get_user_info], as far as its caller looks: the ["email"] of the
    answer, when there is an answer and it has one.  The request is taken
    to leave the object as it is; a transport that refreshes it in place
    is outside the embedding. *)
Definition get_user_info (credentials : loc) : M (option string) :=
  c <- deref credentials ;;
  t <- now ;;
  if negb (valid t c) then ret None
  else gets (fun w => userinfo_email (outside w) c).

(** [credentials.refresh(Request())].  google-auth raises [RefreshError]
    before any request when the refresh token, the token URI, the client
    identifier or the client secret is [None]; otherwise the token endpoint
    answers, and on success the object is updated in place. *)
Definition refreshable (c : Credentials) : bool :=
  negb (is_None (refresh_token c) || is_None (token_uri c)
        || is_None (client_id c) || is_None (client_secret c)).

Definition refresh (credentials : loc) : M unit :=
  c <- deref credentials ;;
  if negb (refreshable c) then raise RefreshError
  else
    response <- gets (fun w => token_endpoint (outside w) c) ;;
    match response with
    | Refreshed tok exp rt =>
        modify (fun w =>
          set_heap (<[credentials :=
                       mk_credentials (Some tok) rt (token_uri c) (client_id c)
                         (client_secret c) (scopes c) exp]> (heap w)) w)
    | RefreshRaises e => raise e
    end.

(** [all(scope in g for scope in required)] for a list [g]. *)
Definition all_in (g required : list string) : bool :=
  forallb (fun scope => existsb (String.eqb scope) g) required.

(** [all(scope in credentials.scopes for scope in required_scopes)]: with
    nothing required the generator never tests membership; membership in
    [None] raises [TypeError]. *)
Definition has_all_scopes (granted : option (list string)) (required : list string)
  : M bool :=
  match required with
  | [] => ret true
  | _ :: _ =>
      match granted with
      | Some g => ret (all_in g required)
      | None => raise TypeError
      end
  end.

(** Lines 683-745 of [get_credentials]: where the credentials come from.
    The answer is the object found and [user_google_email], which
    single-user mode may fill in. *)
Definition get_credentials_lookup (user_google_email : option string)
    (credentials_base_dir : string) (session_id provided_client_id : option string)
  : M (option loc * option string) :=
  mode <- gets (fun w => MCP_SINGLE_USER_MODE (outside w)) ;;
  if bool_decide (mode = Some "1") then
    found <- _find_any_credentials credentials_base_dir ;;
    match found with
    | None => ret (None, user_google_email)
    | Some credentials =>
        c <- deref credentials ;;
        t <- now ;;
        if negb (truthy user_google_email) && valid t c then
          email <- try_except (get_user_info credentials) except_Exception
                     (fun _ => ret None) ;;
          match email with
          | Some e => ret (Some credentials, Some e)
          | None => ret (Some credentials, user_google_email)
          end
        else ret (Some credentials, user_google_email)
    end
  else
    from_session <-
      (if truthy session_id then load_credentials_from_session (the_str session_id)
       else ret None) ;;
    credentials <-
      match from_session with
      | Some credentials => ret (Some credentials)
      | None =>
          if truthy user_google_email && truthy provided_client_id then
            loaded <- load_credentials_from_file (the_str user_google_email)
                        provided_client_id ;;
            match loaded with
            | Some credentials =>
                (if truthy session_id then
                   save_credentials_to_session (the_str session_id) credentials
                 else ret tt) ;;
                ret (Some credentials)
            | None => ret None
            end
          else ret None
      end ;;
    ret (credentials, user_google_email).

(** Lines 747-809 of [get_credentials]: what is done with the credentials
    found. *)
Definition get_credentials_decide (credentials : loc) (user_google_email : option string)
    (required_scopes : list string) (client_secrets_path session_id : option string)
  : M (option loc) :=
  c <- deref credentials ;;
  sufficient <- has_all_scopes (scopes c) required_scopes ;;
  if negb sufficient then ret None
  else
    t <- now ;;
    if valid t c then ret (Some credentials)
    else if expired t c && truthy (refresh_token c) then
      if negb (truthy client_secrets_path) then ret None
      else
        try_except
          (refresh credentials ;;
           (if truthy user_google_email then
              save_credentials_to_file (the_str user_google_email) credentials
            else ret tt) ;;
           (if truthy session_id then
              save_credentials_to_session (the_str session_id) credentials
            else ret tt) ;;
           ret (Some credentials))
          except_Exception
          (fun e =>
             match e with
             | RefreshError => ret None
             | _ => ret None
             end)
    else ret None.

Definition get_credentials (user_google_email : option string)
    (required_scopes : list string) (client_secrets_path : option string)
    (credentials_base_dir : string)
    (session_id provided_client_id provided_client_secret : option string)
  : M (option loc) :=
  found <- get_credentials_lookup user_google_email credentials_base_dir session_id
             provided_client_id ;;
  match found with
  | (Some credentials, user_google_email) =>
      get_credentials_decide credentials user_google_email required_scopes
        client_secrets_path session_id
  | (None, _) => ret None
  end.

End google_auth.

Import redis_state_store google_auth.

Arguments db_get : simpl never.
Arguments seconds : simpl never.

(** ** Auxiliary definitions of the statements *)

(** What reading the [client] property leaves in the store object, and what
    it answers, when the server is up or not. *)
Definition connect (up : bool) (s : RedisStateStore) : RedisStateStore :=
  if is_None (_client s) && enabled s then mk_store (Some from_url) up else s.

Definition client_result (up : bool) (s : RedisStateStore) : option RedisClient :=
  if is_None (_client s) && enabled s then (if up then Some from_url else None)
  else _client s.

(** The store object can still send commands: it holds a client or may
    build one. *)
Definition usable (s : RedisStateStore) : bool :=
  negb (is_None (_client s)) || enabled s.

(** The store object [get_redis_store()] answers. *)
Definition the_store (w : World) : RedisStateStore :=
  default redis_state_store.__init__ (_redis_store w).

(** The durable tier answers: the server is up and the store object usable. *)
Definition available (w : World) : bool :=
  redis_up (outside w) && usable (the_store w).

(** The world after the store object has been fetched and its [client] read. *)
Definition connected (w : World) : World :=
  set_redis_store (Some (connect (redis_up (outside w)) (the_store w))) w.

(** A read with sliding expiration: a live, non-empty value gets a new deadline. *)
Definition touch (key : string) (ttl now : Z) (db : gmap string (text * Z))
  : gmap string (text * Z) :=
  match db_get now db key with
  | Some v => if truthy_text v then <[key := (v, now + seconds ttl)]> db else db
  | None => db
  end.

(** What a durable read answers, and the worlds durable reads and writes leave. *)
Definition durable_get (w : World) (key : string) : option text :=
  if available w then db_get (clock (outside w)) (redis_db w) key else None.

Definition durable_read (w : World) (key : string) (ttl : Z) : World :=
  if available w then
    set_redis_db (touch key ttl (clock (outside w)) (redis_db w)) (connected w)
  else connected w.

Definition durable_write (w : World) (key : string) (v : text) (ttl : Z) : World :=
  if available w then
    set_redis_db (<[key := (v, clock (outside w) + seconds ttl)]> (redis_db w)) (connected w)
  else connected w.

(** The decoding both load functions apply to a stored text. *)
Definition decoded (t : text) : M (option loc) :=
  try_except
    (creds_data <- loads t ;;
     exp <- parse_expiry creds_data ;;
     credentials <- Credentials_from creds_data exp ;;
     ret (Some credentials))
    except_decode
    (fun _ => ret None).

(** The credentials a call hands back, read off the heap it leaves. *)
Definition observe (p : outcome (option loc) * World) : outcome (option Credentials) :=
  match p.1 with
  | Ret (Some l) => Ret (Some (heap p.2 !!! l))
  | Ret None => Ret None
  | Raise e => Raise e
  | IllTyped => IllTyped
  end.

(** [refresh] applied to the attributes. *)
Definition refreshed (c : Credentials) (tok : string) (exp : option datetime)
    (rt : option string) : Credentials :=
  mk_credentials (Some tok) rt (token_uri c) (client_id c) (client_secret c) (scopes c) exp.

(** A credential whose expiry, if any, is a datetime Python can hold. *)
Definition expiry_ok (c : Credentials) : Prop :=
  forall e, expiry c = Some e -> valid_datetime e = true.

(** ** Example worlds *)

Definition example_clock : Z := to_micros (mk_datetime 2024 1 1 0 0 0 0).

(** A process that has just started: nothing stored, no store object yet;
    the token endpoint answers as given. *)
Definition example_world (up : bool) (endpoint : Credentials -> refresh_response)
    (h : list Credentials) : World :=
  mk_world
    (mk_outside example_clock up true None (fun _ => None) endpoint (fun _ => None))
    ∅ None ∅ ∅ ∅ h.

Definition rejecting : Credentials -> refresh_response :=
  fun _ => RefreshRaises RefreshError.

(** A credential of tenant [tenant-1] that expires an hour after
    [example_clock]. *)
Definition example_credentials : Credentials :=
  mk_credentials (Some "ya29.token") (Some "1//refresh")
    (Some "https://oauth2.googleapis.com/token") (Some "tenant-1") (Some "secret-1")
    (Some ["openid"; "https://www.googleapis.com/auth/drive.readonly"])
    (Some (mk_datetime 2024 1 1 1 0 0 0)).

(** The store holds, for tenant [tenant-1] and user [a@example.com], a text
    that is not JSON, live for another minute. *)
Definition example_corrupt_world : World :=
  set_redis_db
    {[ user_creds_key "tenant-1" "a@example.com" :=
         (Malformed "{not json", example_clock + seconds 60) ]}
    (example_world true rejecting []).

(** A credential that expired the day before [example_clock] and has a
    refresh token. *)
Definition expired_credentials : Credentials :=
  mk_credentials (Some "ya29.old") (Some "1//refresh")
    (Some "https://oauth2.googleapis.com/token") (Some "tenant-1") (Some "secret-1")
    (Some ["openid"]) (Some (mk_datetime 2023 12 31 0 0 0 0)).

(** The same, without refresh token. *)
Definition dead_credentials : Credentials :=
  mk_credentials (Some "ya29.old") None
    (Some "https://oauth2.googleapis.com/token") (Some "tenant-1") (Some "secret-1")
    (Some ["openid"]) (Some (mk_datetime 2023 12 31 0 0 0 0)).

(** The same as [expired_credentials], with an empty client identifier. *)
Definition anonymous_credentials : Credentials :=
  mk_credentials (Some "ya29.old") (Some "1//refresh")
    (Some "https://oauth2.googleapis.com/token") (Some "") (Some "secret-1")
    (Some ["openid"]) (Some (mk_datetime 2023 12 31 0 0 0 0)).

(** The server is down and session [s1] has the first object of the heap in
    the in-memory cache. *)
Definition cached_world (endpoint : Credentials -> refresh_response)
    (c : Credentials) : World :=
  set_session_cache {[ "s1" := 0%nat ]} (example_world false endpoint [c]).

Definition failing (e : exn) : Credentials -> refresh_response :=
  fun _ => RefreshRaises e.

Definition refreshing : Credentials -> refresh_response :=
  fun _ => Refreshed "ya29.new" (Some (mk_datetime 2024 1 1 1 0 0 0)) (Some "1//refresh").

(** ** What a call leaves alone *)

(** From [w] to [w'] nothing outside the process has changed but the
    store, and in the store every identity-scoped key holds the text it
    held (its deadline may have moved). *)
Definition keeps_identity_entries (w w' : World) : Prop :=
  outside w' = outside w
  /\ forall cid user_email : string,
       fst <$> (redis_db w' !! user_creds_key cid user_email)
       = fst <$> (redis_db w !! user_creds_key cid user_email).

Definition preserves {A} (m : M A) : Prop :=
  forall w : World, keeps_identity_entries w (m w).2.

(** ** The in-memory tier of the correlation tokens *)

(** The world once scopes.py has tried the durable tier. *)
Definition tried (w : World) : World :=
  if _redis_available (outside w) then connected w else w.

(** The two assignments of [store_oauth_state]. *)
Definition remembered (state : string) (session_id cid csecret : option string)
    (w : World) : World :=
  let w1 := set_info_map
              (<[state := mk_state_info session_id cid csecret]>
                 (OAUTH_STATE_TO_SESSION_INFO_MAP w)) w in
  if truthy session_id then
    set_id_map (<[state := the_str session_id]> (OAUTH_STATE_TO_SESSION_ID_MAP w1)) w1
  else w1.

(** The two pops of [get_oauth_state]: the answer and the maps left. *)
Definition popped (state : string) (w : World) : option OAuthStateInfo * World :=
  let w1 := set_info_map (delete state (OAUTH_STATE_TO_SESSION_INFO_MAP w)) w in
  match OAUTH_STATE_TO_SESSION_INFO_MAP w !! state with
  | Some info => (Some info, w1)
  | None =>
      let session_id := OAUTH_STATE_TO_SESSION_ID_MAP w !! state in
      (if truthy session_id then Some (mk_state_info session_id None None) else None,
       set_id_map (delete state (OAUTH_STATE_TO_SESSION_ID_MAP w1)) w1)
  end.

(** ** Auxiliary definitions of the further properties *)

(** The example process once it has fetched its store object. *)
Definition started_world (up : bool) : World :=
  set_redis_store (Some redis_state_store.__init__) (example_world up rejecting []).

(** Loads repeated as time passes: before each load the clock moves on by
    the next gap; the answers are the credentials handed back. *)
Fixpoint loads_after (load : M (option loc)) (gaps : list Z) (w : World)
  : list (outcome (option Credentials)) :=
  match gaps with
  | [] => []
  | d :: rest =>
      let p := load (advance d w) in
      observe p :: loads_after load rest p.2
  end.

(** The JSON object [store_oauth_state] writes for a correlation token. *)
Definition state_data (session_id cid csecret : option string) : json :=
  JObj [("session_id", str_or_null session_id);
        ("client_id", str_or_null cid);
        ("client_secret", str_or_null csecret)].

(** The world once scopes.py has asked the durable tier for a token. *)
Definition asked (state : string) (w : World) : World :=
  if _redis_available (outside w) then
    if available w then
      set_redis_db (delete (oauth_state_key state) (redis_db w)) (connected w)
    else connected w
  else w.

(** What the two saves that follow a successful refresh leave: the
    identity-scoped entry when the e-mail address is known and the
    credential has a client identifier, and the session-scoped entry, or
    the cache when the durable tier does not answer, when there is a
    session. *)
Definition persisted (email sid : option string) (l : loc) (c : Credentials)
    (w : World) : World :=
  let w1 :=
    if truthy email && truthy (client_id c) then
      durable_write w (user_creds_key (the_str (client_id c)) (the_str email))
        (Document (creds_data_of c)) 604800
    else w in
  if truthy sid then
    if available w1 then
      durable_write w1 (session_creds_key (the_str sid)) (Document (creds_data_of c)) 1800
    else
      set_session_cache
        (<[the_str sid := l]> (_SESSION_CREDENTIALS_CACHE (connected w1))) (connected w1)
  else w1.

(** An entry of the directory that the scan of [_find_any_credentials]
    passes over: the name does not end in [.json], the file cannot be read,
    or its text is not JSON. *)
Definition skipped (entry : string * option text) : bool :=
  negb (endswith entry.1 ".json")
  || match entry.2 with
     | Some (Document _) => false
     | Some (Malformed _) | None => true
     end.

(** The credential the scan builds from the saved attributes of [c]: the
    expiry is not read. *)
Definition without_expiry (c : Credentials) : Credentials :=
  mk_credentials (token c) (refresh_token c) (token_uri c) (client_id c)
    (client_secret c) (scopes c) None.

(** A decoded value that is not an object. *)
Definition is_object (j : json) : bool :=
  match j with JObj _ => true | _ => false end.

(** The attributes a save writes for [c], with another value in the place
    of the expiry. *)
Definition creds_data_with_expiry (c : Credentials) (expiry_value : json) : json :=
  JObj [("token", str_or_null (token c));
        ("refresh_token", str_or_null (refresh_token c));
        ("token_uri", str_or_null (token_uri c));
        ("client_id", str_or_null (client_id c));
        ("client_secret", str_or_null (client_secret c));
        ("scopes", match scopes c with
                   | Some l => JArr (JStr <$> l)
                   | None => JNull
                   end);
        ("expiry", expiry_value)].

Definition is_string (j : json) : bool :=
  match j with JStr _ => true | _ => false end.

(** Every address in the session cache is that of an object. *)
Definition cache_ok (w : World) : Prop :=
  forall (sid : string) (l : loc),
    _SESSION_CREDENTIALS_CACHE w !! sid = Some l -> is_Some (heap w !! l).

(** From [w] to [w'] no object has gone, and what the cache has gained
    are addresses of objects. *)
Definition grows (w w' : World) : Prop :=
  (forall l : loc, is_Some (heap w !! l) -> is_Some (heap w' !! l))
  /\ (forall (sid : string) (l : loc),
         _SESSION_CREDENTIALS_CACHE w' !! sid = Some l ->
         _SESSION_CREDENTIALS_CACHE w !! sid = Some l \/ is_Some (heap w' !! l)).

(** What a lookup may answer: an object, nothing, or [AttributeError]. *)
Definition found_ok (o : outcome (option loc)) (w : World) : Prop :=
  match o with
  | Ret (Some l) => is_Some (heap w !! l)
  | Ret None => True
  | Raise e => e = AttributeError
  | IllTyped => True
  end.

(** The store object exists and holds a client. *)
Definition holds_client (w : World) : bool :=
  match _redis_store w with
  | Some s => negb (is_None (_client s))
  | None => false
  end.

(** The store object exists and reading its [client] builds nothing: it
    holds a client, or it has been switched off. *)
Definition settled (w : World) : bool :=
  match _redis_store w with
  | Some s => negb (is_None (_client s) && enabled s)
  | None => false
  end.

(** The example process once its store object has built its client. *)
Definition connected_world (up : bool) (endpoint : Credentials -> refresh_response)
    (h : list Credentials) : World :=
  set_redis_store (Some (mk_store (Some from_url) true)) (example_world up endpoint h).

(** Single-user mode over a directory whose one file holds the attributes
    saved for [c]. *)
Definition single_user_world (c : Credentials) : World :=
  set_outside
    (mk_outside example_clock true true (Some "1")
       (fun _ => Some [("a@example.com.json", Some (Document (creds_data_of c)))])
       rejecting (fun _ => None))
    (example_world true rejecting []).

(** * The handshake *)

(** The rest of google_auth.py: where the client secrets come from, the
    OAuth flow, its start and the callback.  These functions read and write
    [os.environ], read files, draw random bytes and call
    google_auth_oauthlib; they raise [FileNotFoundError] and [Exception],
    which the layers below never do.  So they run in a monad of their own,
    over a process that contains the world of the layers below. *)

(** ** Strings *)

(** Strings are byte strings, UTF-8 for text outside ASCII. *)

Definition nl : string := String (ascii_of_nat 10) "".

(** [f"{o}"] for an [Optional[str]]. *)
Definition fstr (o : option string) : string :=
  match o with Some s => s | None => "None" end.

(** [a or b] on [Optional[str]]. *)
Definition or_else (a b : option string) : option string :=
  if truthy a then a else b.

(** [needle in s]. *)
Fixpoint contains (needle s : string) : bool :=
  match s with
  | EmptyString => String.prefix needle ""
  | String _ t => String.prefix needle s || contains needle t
  end.

(** [s.strip() == ""]: [s] is made of white space only.  The white space
    of [str.strip] is U+0009..U+000D, U+001C..U+0020, U+0085, U+00A0,
    U+1680, U+2000..U+200A, U+2028, U+2029, U+202F, U+205F and U+3000; the
    fuel is the number of bytes left. *)
Fixpoint all_space_from (fuel : nat) (bytes : list N) : bool :=
  match fuel with
  | O => match bytes with [] => true | _ => false end
  | S fuel =>
      match bytes with
      | [] => true
      | b :: rest =>
          if ((9 <=? b) && (b <=? 13) || (28 <=? b) && (b <=? 32))%N then
            all_space_from fuel rest
          else
            match bytes with
            | 194%N :: c :: rest =>                        (* U+0085, U+00A0 *)
                ((c =? 133) || (c =? 160))%N && all_space_from fuel rest
            | 225%N :: 154%N :: 128%N :: rest =>           (* U+1680 *)
                all_space_from fuel rest
            | 226%N :: 128%N :: c :: rest =>   (* U+2000..U+200A, U+2028/9, U+202F *)
                ((128 <=? c) && (c <=? 138) || (c =? 168) || (c =? 169) || (c =? 175))%N
                && all_space_from fuel rest
            | 226%N :: 129%N :: 159%N :: rest =>           (* U+205F *)
                all_space_from fuel rest
            | 227%N :: 128%N :: 128%N :: rest =>           (* U+3000 *)
                all_space_from fuel rest
            | _ => false
            end
      end
  end.

Definition bytes_of (s : string) : list N := N_of_ascii <$> list_ascii_of_string s.

Definition strip_is_empty (s : string) : bool :=
  all_space_from (String.length s) (bytes_of s).

(** [s.lower()] on the ASCII letters.  Compared with a word of ASCII
    letters without [i] and [k], as below, this is [str.lower]: no other
    character becomes one of these letters. *)
Definition lower_ascii (c : ascii) : ascii :=
  let n := N_of_ascii c in
  if ((65 <=? n) && (n <=? 90))%N then ascii_of_N (n + 32) else c.

Fixpoint lower (s : string) : string :=
  match s with
  | EmptyString => EmptyString
  | String c t => String (lower_ascii c) (lower t)
  end.

(** [bytes.hex()]. *)
Definition hex_digit (n : N) : ascii :=
  if (n <? 10)%N then ascii_of_N (48 + n) else ascii_of_N (87 + n).

Fixpoint hex (bytes : list N) : string :=
  match bytes with
  | [] => ""
  | b :: rest => String (hex_digit (b / 16)) (String (hex_digit (b mod 16)) (hex rest))
  end.

(** ** The process *)

Inductive file_state :=
  | Missing
  | Unreadable                    (* a directory, no permission, ... *)
  | Readable (content : text).

(** A [google_auth_oauthlib.flow.Flow], by what it was built from. *)
Record Flow := mk_flow {
  flow_client_config : json;
  flow_scopes : list string;
  flow_redirect_uri : string;
  flow_state : option string
}.

(** [flow.fetch_token(...)] followed by [flow.credentials]. *)
Inductive token_exchange :=
  | Exchanged (c : Credentials)
  | ExchangeRaises (e : exn).

(** What the handshake reads but never writes. *)
Record Runtime := mk_runtime {
  CONFIG_CLIENT_SECRETS_PATH : string;     (* fixed when the module is loaded *)
  SCOPES : list string;                    (* auth.scopes.SCOPES *)
  file_at : string -> file_state;
  entropy : nat -> nat -> N;               (* call of os.urandom, index of the byte *)
  (* google_auth_oauthlib: the exception a client configuration is
     refused with, the authorization URL of a flow, the token exchange *)
  client_config_refused : json -> option exn;
  authorization_url : Flow -> string;
  fetch_token : gmap string string -> Flow -> string -> token_exchange;
  (* str(e) for an exception of the libraries and the layers below *)
  describe : exn -> string
}.

(** [environ] holds the variables the handshake reads and writes;
    [MCP_SINGLE_USER_MODE], which it does not touch, stays where
    [get_credentials] reads it. *)
Record Process := mk_process {
  world : World;
  environ : gmap string string;            (* os.environ *)
  urandom_calls : nat;
  runtime : Runtime
}.

Definition set_world (w : World) (p : Process) : Process :=
  mk_process w (environ p) (urandom_calls p) (runtime p).
Definition set_environ (e : gmap string string) (p : Process) : Process :=
  mk_process (world p) e (urandom_calls p) (runtime p).
Definition set_urandom_calls (n : nat) (p : Process) : Process :=
  mk_process (world p) (environ p) n (runtime p).

Inductive error :=
  | Builtin (e : exn)             (* an exception of the layers below *)
  | FileNotFoundError (text : string)
  | Exception (text : string).

(** [str(e)]. *)
Definition str_of (rt : Runtime) (e : error) : string :=
  match e with
  | Builtin e => describe rt e
  | FileNotFoundError text | Exception text => text
  end.

Inductive result (A : Type) :=
  | Ok (a : A)
  | Err (e : error)
  | Stuck.                        (* [IllTyped] below *)
Arguments Ok {A} a.
Arguments Err {A} e.
Arguments Stuck {A}.

Definition P (A : Type) : Type := Process -> result A * Process.

Definition pret {A} (a : A) : P A := fun p => (Ok a, p).
Definition praise {A} (e : error) : P A := fun p => (Err e, p).

Definition pbind {A B} (m : P A) (k : A -> P B) : P B :=
  fun p =>
    match m p with
    | (Ok a, p') => k a p'
    | (Err e, p') => (Err e, p')
    | (Stuck, p') => (Stuck, p')
    end.

Definition pgets {A} (f : Process -> A) : P A := fun p => (Ok (f p), p).
Definition pmodify (f : Process -> Process) : P unit := fun p => (Ok tt, f p).

(** A call into the layers below. *)
Definition lift {A} (m : M A) : P A :=
  fun p =>
    let '(o, w') := m (world p) in
    (match o with
     | Ret a => Ok a
     | Raise e => Err (Builtin e)
     | IllTyped => Stuck
     end, set_world w' p).

(** [try: body except ...: handler], the handlers tried in order; [None]
    lets the exception through. *)
Definition ptry {A} (body : P A) (handler : error -> option (P A)) : P A :=
  fun p =>
    match body p with
    | (Err e, p') =>
        match handler e with
        | Some h => h p'
        | None => (Err e, p')
        end
    | r => r
    end.

Declare Scope flow_scope.
Delimit Scope flow_scope with flow.
Notation "x <- m ;; k" := (pbind m (fun x => k))
  (at level 20, m at level 99, k at level 200, only parsing) : flow_scope.
Notation "m ;; k" := (pbind m (fun _ => k))
  (at level 100, k at level 200, only parsing, right associativity) : flow_scope.
Local Open Scope flow_scope.

(** [os.getenv(name)]. *)
Definition getenv (name : string) : P (option string) :=
  pgets (fun p => environ p !! name).

(** [os.path.exists(path)]. *)
Definition path_exists (path : string) : P bool :=
  pgets (fun p => match file_at (runtime p) path with Missing => false | _ => true end).

(** [with open(path, "r") as f: json.load(f)]. *)
Definition json_load_file (path : string) : P json :=
  state <- pgets (fun p => file_at (runtime p) path) ;;
  match state with
  | Readable t =>
      match json_loads t with
      | Some j => pret j
      | None => praise (Builtin JSONDecodeError)
      end
  | Unreadable => praise (Builtin OSError)
  | Missing =>
      praise (FileNotFoundError ("[Errno 2] No such file or directory: '" ++ path ++ "'"))
  end.

(** [os.urandom(16).hex()]. *)
Definition urandom_hex : P string :=
  n <- pgets urandom_calls ;;
  rt <- pgets runtime ;;
  pmodify (set_urandom_calls (S n)) ;;
  pret (hex ((fun i => (entropy rt n i mod 256)%N) <$> seq 0 16)).

(** ** Client secrets *)

Definition web_config (final_client_id final_client_secret : string)
    (final_redirect_uri : option string) : json :=
  JObj (app
          [("client_id", JStr final_client_id);
           ("client_secret", JStr final_client_secret);
           ("auth_uri", JStr "https://accounts.google.com/o/oauth2/auth");
           ("token_uri", JStr "https://oauth2.googleapis.com/token");
           ("auth_provider_x509_cert_url",
            JStr "https://www.googleapis.com/oauth2/v1/certs")]
          (if truthy final_redirect_uri
           then [("redirect_uris", JArr [JStr (the_str final_redirect_uri)])]
           else [])).

Definition load_client_secrets_from_env (cid csecret redirect_uri : option string)
  : P (option json) :=
  env_client_id <- getenv "GOOGLE_OAUTH_CLIENT_ID" ;;
  let final_client_id := or_else cid env_client_id in
  env_client_secret <- getenv "GOOGLE_OAUTH_CLIENT_SECRET" ;;
  let final_client_secret := or_else csecret env_client_secret in
  env_redirect_uri <- getenv "GOOGLE_OAUTH_REDIRECT_URI" ;;
  let final_redirect_uri := or_else redirect_uri env_redirect_uri in
  if truthy final_client_id && truthy final_client_secret then
    let config :=
      JObj [("web", web_config (the_str final_client_id) (the_str final_client_secret)
                      final_redirect_uri)] in
    pret (Some config)
  else pret None.

(** [key in value] for a decoded JSON value: a key of a dict, an element of
    a list, a substring of a string; [TypeError] for the others. *)
Definition json_in (key : string) (value : json) : P bool :=
  match value with
  | JObj items => pret (negb (is_None (assoc key items)))
  | JArr items =>
      pret (existsb (fun x => match x with JStr s => String.eqb s key | _ => false end)
              items)
  | JStr s => pret (contains key s)
  | JNull | JBool _ | JNum _ => praise (Builtin TypeError)
  end.

(** [value[key]] for a string [key]: the item of a dict, [KeyError] when it
    is missing; [TypeError] for the others. *)
Definition json_item (value : json) (key : string) : P json :=
  match value with
  | JObj items =>
      match assoc key items with
      | Some v => pret v
      | None => praise (Builtin KeyError)
      end
  | _ => praise (Builtin TypeError)
  end.

Definition load_client_secrets (client_secrets_path : string)
    (cid csecret redirect_uri : option string) : P json :=
  env_config <- load_client_secrets_from_env cid csecret redirect_uri ;;
  match env_config with
  | Some config => json_item config "web"
  | None =>
      (* the handler logs and raises again *)
      client_config <- json_load_file client_secrets_path ;;
      has_web <- json_in "web" client_config ;;
      if has_web then json_item client_config "web"
      else
        has_installed <- json_in "installed" client_config ;;
        if has_installed then json_item client_config "installed"
        else praise (Builtin ValueError)
  end.

Definition check_client_secrets (cid csecret : option string) : P (option string) :=
  env_config <- load_client_secrets_from_env cid csecret None ;;
  path <- pgets (fun p => CONFIG_CLIENT_SECRETS_PATH (runtime p)) ;;
  missing <-
    (if is_None env_config then
       present <- path_exists path ;;
       pret (negb present)
     else pret false) ;;
  if missing then
    pret (Some ("OAuth client credentials not found. Please provide client_id and client_secret parameters, set GOOGLE_OAUTH_CLIENT_ID and GOOGLE_OAUTH_CLIENT_SECRET environment variables, or provide a client secrets file at "
                ++ path ++ "."))
  else pret None.

(** ** The flow *)

(** [Flow.from_client_config(config, scopes=..., redirect_uri=..., state=...)]. *)
Definition from_client_config (config : json) (scopes : list string)
    (redirect_uri : string) (state : option string) : P Flow :=
  refused <- pgets (fun p => client_config_refused (runtime p) config) ;;
  match refused with
  | Some e => praise (Builtin e)
  | None => pret (mk_flow config scopes redirect_uri state)
  end.

(** [Flow.from_client_secrets_file(path, ...)]: the file is read and
    decoded, the flow is built from its content. *)
Definition from_client_secrets_file (path : string) (scopes : list string)
    (redirect_uri : string) (state : option string) : P Flow :=
  config <- json_load_file path ;;
  from_client_config config scopes redirect_uri state.

Definition create_oauth_flow (scopes : list string) (redirect_uri : string)
    (state cid csecret : option string) : P Flow :=
  env_config <- load_client_secrets_from_env cid csecret (Some redirect_uri) ;;
  match env_config with
  | Some config => from_client_config config scopes redirect_uri state
  | None =>
      path <- pgets (fun p => CONFIG_CLIENT_SECRETS_PATH (runtime p)) ;;
      present <- path_exists path ;;
      if negb present then
        praise (FileNotFoundError
                  ("OAuth client secrets file not found at " ++ path
                   ++ " and no credentials provided"))
      else from_client_secrets_file path scopes redirect_uri state
  end.

(** ** Starting the handshake *)

Definition initial_email_provided (user_google_email : option string) : bool :=
  match user_google_email with
  | Some s =>
      negb (String.eqb s "") && negb (strip_is_empty s)
      && negb (String.eqb (lower s) "default")
  | None => false
  end.

Definition user_display_name (service_name : string) (user_google_email : option string)
  : string :=
  if initial_email_provided user_google_email
  then service_name ++ " for '" ++ fstr user_google_email ++ "'"
  else service_name.

Fixpoint join (sep : string) (lines : list string) : string :=
  match lines with
  | [] => ""
  | [line] => line
  | line :: rest => line ++ sep ++ join sep rest
  end.

Definition auth_message (mcp_session_id user_google_email : option string)
    (service_name auth_url : string) : string :=
  let message_lines :=
    ["**ACTION REQUIRED: Google Authentication Needed for "
       ++ user_display_name service_name user_google_email ++ "**" ++ nl;
     "To proceed, the user must authorize this application for " ++ service_name
       ++ " access using all required permissions.";
     "**LLM, please present this exact authorization URL to the user as a clickable hyperlink:**";
     "Authorization URL: " ++ auth_url;
     "Markdown for hyperlink: [Click here to authorize " ++ service_name ++ " access]("
       ++ auth_url ++ ")" ++ nl;
     "**LLM, after presenting the link, instruct the user as follows:**";
     "1. Click the link and complete the authorization in their browser."] in
  let session_info_for_llm :=
    if truthy mcp_session_id
    then " (this will link to your current session " ++ fstr mcp_session_id ++ ")"
    else "" in
  let message_lines :=
    if negb (initial_email_provided user_google_email) then
      app message_lines
        ["2. After successful authorization" ++ session_info_for_llm
           ++ ", the browser page will display the authenticated email address.";
         "   **LLM: Instruct the user to provide you with this email address.**";
         "3. Once you have the email, **retry their original command, ensuring you include this `user_google_email`.**"]
    else
      app message_lines
        ["2. After successful authorization" ++ session_info_for_llm
           ++ ", **retry their original command**."] in
  let message_lines :=
    app message_lines
      [nl ++ "The application will use the new credentials. If '"
         ++ fstr user_google_email
         ++ "' was provided, it must match the authenticated account."] in
  join nl message_lines.

Definition start_auth_flow (mcp_session_id user_google_email : option string)
    (service_name redirect_uri : string) (cid csecret : option string) : P string :=
  let display := user_display_name service_name user_google_email in
  ptry
    (insecure <- getenv "OAUTHLIB_INSECURE_TRANSPORT" ;;
     (if is_None insecure
         && (contains "localhost" redirect_uri || contains "127.0.0.1" redirect_uri)
      then pmodify (fun p =>
             set_environ (<["OAUTHLIB_INSECURE_TRANSPORT" := "1"]> (environ p)) p)
      else pret tt) ;;
     oauth_state <- urandom_hex ;;
     lift (scopes.store_oauth_state oauth_state mcp_session_id cid csecret) ;;
     all_scopes <- pgets (fun p => SCOPES (runtime p)) ;;
     flow <- create_oauth_flow all_scopes redirect_uri (Some oauth_state) cid csecret ;;
     auth_url <- pgets (fun p => authorization_url (runtime p) flow) ;;
     pret (auth_message mcp_session_id user_google_email service_name auth_url))
    (fun e =>
       Some
         (rt <- pgets runtime ;;
          match e with
          | FileNotFoundError _ =>
              praise (Exception
                        ("OAuth client credentials not found: " ++ str_of rt e
                         ++ ". Please either:" ++ nl
                         ++ "1. Set environment variables: GOOGLE_OAUTH_CLIENT_ID and GOOGLE_OAUTH_CLIENT_SECRET"
                         ++ nl ++ "2. Ensure '" ++ CONFIG_CLIENT_SECRETS_PATH rt
                         ++ "' file exists"))
          | _ =>
              praise (Exception
                        ("Could not initiate authentication for " ++ display
                         ++ " due to an unexpected error: " ++ str_of rt e))
          end)).

(** ** The callback *)

Definition handle_auth_callback (scopes : list string)
    (authorization_response redirect_uri credentials_base_dir : string)
    (session_id client_secrets_path cid csecret : option string)
  : P (string * loc) :=
  (* the handler logs and raises again *)
  insecure <- getenv "OAUTHLIB_INSECURE_TRANSPORT" ;;
  (if is_None insecure
   then pmodify (fun p =>
          set_environ (<["OAUTHLIB_INSECURE_TRANSPORT" := "1"]> (environ p)) p)
   else pret tt) ;;
  flow <- create_oauth_flow scopes redirect_uri None cid csecret ;;
  exchange <- pgets (fun p =>
                fetch_token (runtime p) (environ p) flow authorization_response) ;;
  match exchange with
  | ExchangeRaises e => praise (Builtin e)
  | Exchanged c =>
      credentials <- lift (alloc c) ;;
      user_info <- lift (get_user_info credentials) ;;
      match user_info with
      | None => praise (Builtin ValueError)
      | Some user_google_email =>
          lift (save_credentials_to_file user_google_email credentials) ;;
          (if truthy session_id
           then lift (save_credentials_to_session (the_str session_id) credentials)
           else pret tt) ;;
          pret (user_google_email, credentials)
      end
  end.

Local Close Scope flow_scope.

(** ** Auxiliary definitions of the statements about the handshake *)

(** The client configuration [load_client_secrets_from_env] answers. *)
Definition env_config_of (cid csecret redirect_uri : option string) (p : Process)
  : option json :=
  let final_client_id := or_else cid (environ p !! "GOOGLE_OAUTH_CLIENT_ID") in
  let final_client_secret := or_else csecret (environ p !! "GOOGLE_OAUTH_CLIENT_SECRET") in
  let final_redirect_uri := or_else redirect_uri (environ p !! "GOOGLE_OAUTH_REDIRECT_URI") in
  if truthy final_client_id && truthy final_client_secret then
    Some (JObj [("web", web_config (the_str final_client_id) (the_str final_client_secret)
                          final_redirect_uri)])
  else None.

(** The token [start_auth_flow] draws in process [p]. *)
Definition drawn_token (p : Process) : string :=
  hex ((fun i => (entropy (runtime p) (urandom_calls p) i mod 256)%N) <$> seq 0 16).

(** The environment once the handshake has allowed plain HTTP. *)
Definition insecure_transport (always : bool) (redirect_uri : string) (p : Process)
  : gmap string string :=
  if is_None (environ p !! "OAUTHLIB_INSECURE_TRANSPORT")
     && (always || contains "localhost" redirect_uri || contains "127.0.0.1" redirect_uri)
  then <["OAUTHLIB_INSECURE_TRANSPORT" := "1"]> (environ p)
  else environ p.

(** An example process: no variable set, no file, every client
    configuration accepted. *)
Definition example_runtime (exchange : token_exchange) : Runtime :=
  mk_runtime "/srv/app/client_secret.json"
    ["openid"; "https://www.googleapis.com/auth/userinfo.email"]
    (fun _ => Missing)
    (fun call i => N.of_nat (17 * call + i))
    (fun _ => None)
    (fun flow => "https://accounts.google.com/o/oauth2/auth?state=" ++ fstr (flow_state flow))
    (fun _ _ _ => exchange)
    (fun _ => "error").

Definition example_process (w : World) (exchange : token_exchange) : Process :=
  mk_process w ∅ 0 (example_runtime exchange).

(** ** Round trip of [isoformat] *)

Lemma digit_val_char (d : Z) : 0 <= d < 10 -> digit_val (digit_char d) = Some d.
Proof.
  intros Hd.
  assert (d = 0 \/ d = 1 \/ d = 2 \/ d = 3 \/ d = 4 \/ d = 5 \/ d = 6
          \/ d = 7 \/ d = 8 \/ d = 9) as Hc by lia.
  repeat (destruct Hc as [-> | Hc]; [reflexivity |]).
  subst d. reflexivity.
Qed.

Lemma read_digits_snoc (k : nat) (acc : Z) (s : string) :
  read_digits (S k) acc s =
  match read_digits k acc s with
  | Some (v, s') => read_digits 1 v s'
  | None => None
  end.
Proof.
  revert acc s. induction k as [| k IH]; intros acc s.
  - reflexivity.
  - change (read_digits (S (S k)) acc s) with
      (match s with
       | String c s' =>
           match digit_val c with
           | Some d => read_digits (S k) (acc * 10 + d) s'
           | None => None
           end
       | EmptyString => None
       end).
    destruct s as [| c s']; [reflexivity |].
    destruct (digit_val c) as [d |] eqn:Hc.
    + rewrite IH. simpl. rewrite Hc. reflexivity.
    + simpl. rewrite Hc. reflexivity.
Qed.

Lemma read_digits_zfill (k : nat) (n acc : Z) (tail : string) :
  0 <= n < 10 ^ Z.of_nat k ->
  read_digits k acc (zfill k n tail) = Some (acc * 10 ^ Z.of_nat k + n, tail).
Proof.
  revert n tail. induction k as [| k IH]; intros n tail Hn.
  - simpl in *. f_equal. f_equal. lia.
  - rewrite read_digits_snoc.
    change (zfill (S k) n tail) with
      (zfill k (n / 10) (String (digit_char (n mod 10)) tail)).
    assert (Hpow : 10 ^ Z.of_nat (S k) = 10 * 10 ^ Z.of_nat k).
    { rewrite Nat2Z.inj_succ, Z.pow_succ_r by lia. reflexivity. }
    rewrite Hpow in Hn.
    assert (Hq : 0 <= n / 10 < 10 ^ Z.of_nat k).
    { split; [apply Z.div_pos; lia | apply Z.div_lt_upper_bound; lia]. }
    rewrite (IH _ _ Hq).
    change (read_digits 1 ?v (String ?c ?t)) with
      (match digit_val c with Some d => Some (v * 10 + d, t) | None => None end).
    rewrite digit_val_char by (apply Z.mod_pos_bound; lia).
    f_equal. f_equal. rewrite Hpow.
    pose proof (Z.div_mod n 10 ltac:(lia)). lia.
Qed.

Lemma valid_datetime_ranges (d : datetime) :
  valid_datetime d = true ->
  0 <= year d < 10000 /\ 0 <= month d < 100 /\ 0 <= day d < 100 /\
  0 <= hour d < 100 /\ 0 <= minute d < 100 /\ 0 <= second d < 100 /\
  0 <= microsecond d < 1000000.
Proof.
  unfold valid_datetime. rewrite !andb_true_iff.
  intros H. decompose [and] H. clear H.
  assert (days_in_month (year d) (month d) <= 31).
  { unfold days_in_month.
    repeat match goal with |- context [if ?b then _ else _] => destruct b end; lia. }
  lia.
Qed.

Lemma fromisoformat_isoformat (d : datetime) :
  valid_datetime d = true -> fromisoformat (isoformat d) = Some d.
Proof.
  intros Hv. pose proof (valid_datetime_ranges d Hv) as (Hy & Hm & Hd & Hh & Hmi & Hs & Hus).
  unfold fromisoformat, isoformat.
  rewrite (read_digits_zfill 4) by (change (10 ^ Z.of_nat 4) with 10000; lia).
  cbn [mbind option_bind expect Ascii.eqb Bool.eqb].
  rewrite (read_digits_zfill 2) by (change (10 ^ Z.of_nat 2) with 100; lia).
  cbn [mbind option_bind expect Ascii.eqb Bool.eqb].
  rewrite (read_digits_zfill 2) by (change (10 ^ Z.of_nat 2) with 100; lia).
  cbn [mbind option_bind expect Ascii.eqb Bool.eqb].
  rewrite (read_digits_zfill 2) by (change (10 ^ Z.of_nat 2) with 100; lia).
  cbn [mbind option_bind expect Ascii.eqb Bool.eqb].
  rewrite (read_digits_zfill 2) by (change (10 ^ Z.of_nat 2) with 100; lia).
  cbn [mbind option_bind expect Ascii.eqb Bool.eqb].
  rewrite (read_digits_zfill 2) by (change (10 ^ Z.of_nat 2) with 100; lia).
  cbn [mbind option_bind].
  assert (Hf : read_fraction
             (if microsecond d =? 0 then ""
              else String "." (zfill 6 (microsecond d) "")) = Some (microsecond d)).
  { destruct (microsecond d =? 0) eqn:E.
    - apply Z.eqb_eq in E. rewrite E. reflexivity.
    - unfold read_fraction. cbn [Ascii.eqb Bool.eqb].
      rewrite (read_digits_zfill 6) by (change (10 ^ Z.of_nat 6) with 1000000; lia).
      reflexivity. }
  rewrite Hf. cbn [mbind option_bind].
  replace (0 * 10 ^ Z.of_nat 4 + year d) with (year d) by lia.
  replace (0 * 10 ^ Z.of_nat 2 + month d) with (month d) by lia.
  replace (0 * 10 ^ Z.of_nat 2 + day d) with (day d) by lia.
  replace (0 * 10 ^ Z.of_nat 2 + hour d) with (hour d) by lia.
  replace (0 * 10 ^ Z.of_nat 2 + minute d) with (minute d) by lia.
  replace (0 * 10 ^ Z.of_nat 2 + second d) with (second d) by lia.
  destruct d as [y m dd h mi s us]. cbn [year month day hour minute second microsecond] in *.
  rewrite Hv. reflexivity.
Qed.

(** ** The monad *)

Lemma bind_eq {A B} (m : M A) (k : A -> M B) (w w' : World) (r : outcome A) :
  m w = (r, w') ->
  bind m k w =
  match r with
  | Ret a => k a w'
  | Raise e => (Raise e, w')
  | IllTyped => (IllTyped, w')
  end.
Proof. intros H. unfold bind. rewrite H. destruct r; reflexivity. Qed.

Lemma try_except_ret {A} (body : M A) caught handler (w w' : World) (a : A) :
  body w = (Ret a, w') -> try_except body caught handler w = (Ret a, w').
Proof. intros H. unfold try_except. rewrite H. reflexivity. Qed.

Ltac world_cases w :=
  destruct w as [[?ck ?up ?av ?mode ?ls ?te ?ui] ?db [[[[]|] []]|] ?im ?idm ?sc ?h].

Ltac py_unfold :=
  unfold get_user_credentials, get_session_credentials, store_user_credentials,
    store_session_credentials, delete_user_credentials, delete_session_credentials,
    redis_state_store.store_oauth_state, redis_state_store.get_oauth_state, loads,
    via_client, redis_get, redis_expire, redis_setex, redis_delete,
    redis_pipeline_get_delete, ping, redis_command, client, self, set_self,
    get_redis_store, try_except, bind, modify, gets, ret, raise.

(** ** The store object and its client *)

Lemma get_redis_store_eq (w : World) :
  get_redis_store w = (Ret tt, set_redis_store (Some (the_store w)) w).
Proof. world_cases w; reflexivity. Qed.

Lemma client_eq (w : World) (s : RedisStateStore) :
  _redis_store w = Some s ->
  client w = (Ret (client_result (redis_up (outside w)) s),
              set_redis_store (Some (connect (redis_up (outside w)) s)) w).
Proof.
  destruct w as [[ck up av mode ls te ui] db st im idm sc h]. simpl. intros ->.
  destruct s as [[[]|] []], up; reflexivity.
Qed.

(** Each method, called on the store [get_redis_store()] answers. *)

Lemma store_user_credentials_eq (w : World) email cid v :
  store_user_credentials email cid v None (set_redis_store (Some (the_store w)) w) =
  (Ret (available w), durable_write w (user_creds_key cid email) v 604800).
Proof. world_cases w; destruct up; reflexivity. Qed.

Lemma store_session_credentials_eq (w : World) sid v :
  store_session_credentials sid v None (set_redis_store (Some (the_store w)) w) =
  (Ret (available w), durable_write w (session_creds_key sid) v 1800).
Proof. world_cases w; destruct up; reflexivity. Qed.

Lemma store_oauth_state_redis_eq (w : World) state sid cid csecret :
  redis_state_store.store_oauth_state state sid cid csecret (set_redis_store (Some (the_store w)) w) =
  (Ret (available w),
   durable_write w (oauth_state_key state)
     (Document (JObj [("session_id", str_or_null sid); ("client_id", str_or_null cid);
                      ("client_secret", str_or_null csecret)])) 600).
Proof. world_cases w; destruct up; reflexivity. Qed.

Lemma get_user_credentials_eq (w : World) email cid :
  get_user_credentials email cid (set_redis_store (Some (the_store w)) w) =
  (Ret (durable_get w (user_creds_key cid email)),
   durable_read w (user_creds_key cid email) 604800).
Proof.
  unfold durable_get, durable_read, touch.
  world_cases w; destruct up; try reflexivity; simpl;
    (destruct (db_get ck db (user_creds_key cid email)) as [v|] eqn:E;
     [destruct (truthy_text v) eqn:Ev |]);
    py_unfold; simpl; rewrite ?E; simpl; rewrite ?Ev; simpl; rewrite ?E; reflexivity.
Qed.

Lemma get_session_credentials_eq (w : World) sid :
  get_session_credentials sid (set_redis_store (Some (the_store w)) w) =
  (Ret (durable_get w (session_creds_key sid)),
   durable_read w (session_creds_key sid) 1800).
Proof.
  unfold durable_get, durable_read, touch.
  world_cases w; destruct up; try reflexivity; simpl;
    (destruct (db_get ck db (session_creds_key sid)) as [v|] eqn:E;
     [destruct (truthy_text v) eqn:Ev |]);
    py_unfold; simpl; rewrite ?E; simpl; rewrite ?Ev; simpl; rewrite ?E; reflexivity.
Qed.

(** ** Worlds after durable reads and writes *)

Lemma usable_connect up s : usable (connect up s) = usable s.
Proof. destruct s as [[[]|] []], up; reflexivity. Qed.

Lemma connect_idem up s : connect up (connect up s) = connect up s.
Proof. destruct s as [[[]|] []], up; reflexivity. Qed.

Lemma available_durable_write w key v ttl :
  available (durable_write w key v ttl) = available w.
Proof. unfold durable_write. world_cases w; destruct up; reflexivity. Qed.

Lemma available_durable_read w key ttl :
  available (durable_read w key ttl) = available w.
Proof. unfold durable_read. world_cases w; destruct up; reflexivity. Qed.

Lemma deref_eq w l c : heap w !! l = Some c -> deref l w = (Ret c, w).
Proof.
  intros H. unfold deref, gets. by rewrite (list_lookup_total_correct _ _ _ H).
Qed.

Ltac bind_step lem := erewrite bind_eq by (eapply lem; eassumption); cbv beta iota.

Lemma save_credentials_to_file_skip w email l c :
  heap w !! l = Some c -> truthy (client_id c) = false ->
  save_credentials_to_file email l w = (Ret tt, w).
Proof.
  intros Hl Hc. unfold save_credentials_to_file.
  bind_step deref_eq. rewrite Hc. reflexivity.
Qed.

Lemma save_credentials_to_file_eq w email l c :
  heap w !! l = Some c -> truthy (client_id c) = true ->
  save_credentials_to_file email l w =
  (Ret tt, durable_write w (user_creds_key (the_str (client_id c)) email)
             (Document (creds_data_of c)) 604800).
Proof.
  intros Hl Hc. unfold save_credentials_to_file.
  bind_step deref_eq. rewrite Hc. cbv beta iota delta [negb].
  bind_step get_redis_store_eq.
  bind_step store_user_credentials_eq.
  reflexivity.
Qed.

Lemma save_credentials_to_session_eq w sid l c :
  heap w !! l = Some c ->
  save_credentials_to_session sid l w =
  (Ret tt,
   if available w then
     durable_write w (session_creds_key sid) (Document (creds_data_of c)) 1800
   else
     set_session_cache (<[sid := l]> (_SESSION_CREDENTIALS_CACHE (connected w)))
       (connected w)).
Proof.
  intros Hl. unfold save_credentials_to_session.
  bind_step deref_eq.
  bind_step get_redis_store_eq.
  bind_step store_session_credentials_eq.
  unfold json_dumps.
  destruct (available w) eqn:Ea; [reflexivity |].
  unfold durable_write. rewrite Ea. reflexivity.
Qed.

Lemma load_credentials_from_file_none w email cid :
  truthy cid = false -> load_credentials_from_file email cid w = (Ret None, w).
Proof. intros H. unfold load_credentials_from_file. rewrite H. reflexivity. Qed.

Lemma load_credentials_from_file_eq w email cid :
  truthy cid = true ->
  load_credentials_from_file email cid w =
  let key := user_creds_key (the_str cid) email in
  let w' := durable_read w key 604800 in
  match durable_get w key with
  | Some t => if truthy_text t then decoded t w' else (Ret None, w')
  | None => (Ret None, w')
  end.
Proof.
  intros H. unfold load_credentials_from_file. rewrite H. cbv beta iota delta [negb].
  bind_step get_redis_store_eq.
  bind_step get_user_credentials_eq.
  cbv zeta. destruct (durable_get w _) as [t|]; [destruct (truthy_text t) |]; reflexivity.
Qed.

Lemma load_credentials_from_session_eq w sid :
  load_credentials_from_session sid w =
  let key := session_creds_key sid in
  let w' := durable_read w key 1800 in
  let cached (p : outcome (option loc) * World) :=
    match p with
    | (Ret None, w'') => (Ret (_SESSION_CREDENTIALS_CACHE w'' !! sid), w'')
    | _ => p
    end in
  match durable_get w key with
  | Some t => if truthy_text t then cached (decoded t w') else cached (Ret None, w')
  | None => cached (Ret None, w')
  end.
Proof.
  unfold load_credentials_from_session.
  bind_step get_redis_store_eq.
  bind_step get_session_credentials_eq.
  cbv zeta. destruct (durable_get w _) as [t|]; [destruct (truthy_text t) |]; try reflexivity.
  fold (decoded t). unfold bind.
  destruct (decoded t _) as [[[l|]|e|] w'']; reflexivity.
Qed.

(** ** Decoding a stored text *)

Lemma decoded_malformed s w : decoded (Malformed s) w = (Ret None, w).
Proof. reflexivity. Qed.

Lemma as_optional_str_str_or_null o : as_optional_str (str_or_null o) = Some o.
Proof. by destruct o. Qed.

Lemma as_str_list_fmap (l : list string) : as_str_list (JStr <$> l) = Some l.
Proof.
  induction l as [| s l IH]; [done |].
  rewrite fmap_cons. cbn [as_str_list]. by rewrite IH.
Qed.

Lemma zfill_nonempty k n c tail : zfill k n (String c tail) <> "".
Proof.
  revert n c tail. induction k as [| k IH]; intros n c tail; [done |]. apply IH.
Qed.

Lemma isoformat_nonempty d : isoformat d <> "".
Proof.
  unfold isoformat.
  change (zfill 4 (year d) ?t) with
    (zfill 3 (year d / 10) (String (digit_char (year d mod 10)) t)).
  apply zfill_nonempty.
Qed.

Lemma isoformat_truthy d : truthy_json (JStr (isoformat d)) = true.
Proof.
  unfold truthy_json.
  destruct (String.eqb_spec (isoformat d) "") as [E | E]; [| done].
  by apply isoformat_nonempty in E.
Qed.

Lemma decoded_creds_data c w :
  expiry_ok c ->
  decoded (Document (creds_data_of c)) w =
  (Ret (Some (List.length (heap w))), set_heap (heap w ++ [c]) w).
Proof.
  intros Hexp. destruct c as [tok rt uri cid csec sc exp].
  unfold decoded, loads, json_loads, creds_data_of, try_except,
    parse_expiry, Credentials_from, field, scopes_field, alloc, bind, ret.
  cbn [token refresh_token token_uri client_id client_secret scopes expiry
       dict_get assoc default from_option id String.eqb Ascii.eqb Bool.eqb].
  rewrite !as_optional_str_str_or_null.
  assert (Hsc : forall w',
    match
      match sc with Some l => JArr (JStr <$> l) | None => JNull end
    with
    | JNull => fun w0 : World => (Ret (None : option (list string)), w0)
    | JArr items =>
        match as_str_list items with
        | Some l => fun w0 : World => (Ret (Some l), w0)
        | None => ill_typed
        end
    | _ => ill_typed
    end w' = (Ret sc, w')).
  { intros w'. destruct sc as [l|]; [| done]. cbv beta iota.
    by rewrite as_str_list_fmap. }
  destruct exp as [e|].
  - rewrite isoformat_truthy, fromisoformat_isoformat by (by apply Hexp).
    rewrite Hsc. reflexivity.
  - cbn [truthy_json]. rewrite Hsc. reflexivity.
Qed.

(** Decoding reads and writes nothing but the heap. *)
Lemma decoded_frame t db w :
  decoded t (set_redis_db db w) =
  (let '(r, w') := decoded t w in (r, set_redis_db db w')).
Proof.
  destruct t as [j | s]; [| reflexivity].
  destruct j; try reflexivity.
  unfold decoded, loads, json_loads, try_except,
    parse_expiry, Credentials_from, field, scopes_field, alloc, bind, ret, ill_typed.
  cbn [dict_get].
  repeat match goal with
         | |- context [match ?x with _ => _ end] =>
             lazymatch x with
             | context [match _ with _ => _ end] => fail
             | _ => destruct x eqn:?; try reflexivity
             end
         end.
Qed.

(** ** Keys *)

Lemma length_append (s t : string) :
  String.length (s ++ t) = (String.length s + String.length t)%nat.
Proof.
  induction s as [| a s IH]; [done |].
  change (String a s ++ t)%string with (String a (s ++ t)).
  cbn [String.length]. by rewrite IH.
Qed.

Lemma append_inj_l (s1 s2 t : string) : s1 ++ t = s2 ++ t -> s1 = s2.
Proof.
  revert s2. induction s1 as [| a s1 IH]; intros [| b s2] H; [done | | |].
  - exfalso. apply (f_equal String.length) in H.
    change ("" ++ t)%string with t in H.
    change (String b s2 ++ t)%string with (String b (s2 ++ t)) in H.
    cbn [String.length] in H. rewrite length_append in H. lia.
  - exfalso. apply (f_equal String.length) in H.
    change ("" ++ t)%string with t in H.
    change (String a s1 ++ t)%string with (String a (s1 ++ t)) in H.
    cbn [String.length] in H. rewrite length_append in H. lia.
  - change (String a (s1 ++ t) = String b (s2 ++ t)) in H.
    injection H as -> H. f_equal. by apply IH.
Qed.

(** For one user, different tenants have different keys. *)
Lemma user_creds_key_inj (T1 T2 email : string) :
  user_creds_key T1 email = user_creds_key T2 email -> T1 = T2.
Proof.
  unfold user_creds_key. intros H.
  apply String.app_inj in H. by apply append_inj_l in H.
Qed.

Lemma session_key_not_user_key sid cid email :
  session_creds_key sid <> user_creds_key cid email.
Proof. unfold session_creds_key, user_creds_key. intros H. discriminate H. Qed.

Lemma db_get_ext now (db db' : gmap string (text * Z)) key :
  db' !! key = db !! key -> db_get now db' key = db_get now db key.
Proof. unfold db_get. by intros ->. Qed.

Lemma db_get_insert_ne now (db : gmap string (text * Z)) k k' v :
  k <> k' -> db_get now (<[k := v]> db) k' = db_get now db k'.
Proof. intros H. apply db_get_ext. by apply lookup_insert_ne. Qed.

Lemma db_get_insert_eq now (db : gmap string (text * Z)) k v deadline :
  now < deadline -> db_get now (<[k := (v, deadline)]> db) k = Some v.
Proof.
  intros H. unfold db_get. rewrite lookup_insert_eq.
  by apply Z.ltb_lt in H as ->.
Qed.

(** ** Calls that write no identity-scoped entry *)

Lemma keeps_refl w : keeps_identity_entries w w.
Proof. by split. Qed.

Lemma keeps_trans w1 w2 w3 :
  keeps_identity_entries w1 w2 -> keeps_identity_entries w2 w3 ->
  keeps_identity_entries w1 w3.
Proof.
  intros [Ho1 Hk1] [Ho2 Hk2]. split; [congruence |].
  intros cid email. by rewrite Hk2, Hk1.
Qed.

Lemma preserves_ret {A} (a : A) : preserves (ret a).
Proof. intros w. apply keeps_refl. Qed.

Lemma preserves_raise {A} (e : exn) : preserves (@raise A e).
Proof. intros w. apply keeps_refl. Qed.

Lemma preserves_ill_typed {A} : preserves (@ill_typed A).
Proof. intros w. apply keeps_refl. Qed.

Lemma preserves_gets {A} (f : World -> A) : preserves (gets f).
Proof. intros w. apply keeps_refl. Qed.

Lemma preserves_bind {A B} (m : M A) (k : A -> M B) :
  preserves m -> (forall a, preserves (k a)) -> preserves (bind m k).
Proof.
  intros Hm Hk w. unfold bind. specialize (Hm w).
  destruct (m w) as [[a | e |] w']; cbn [snd] in *; [| done | done].
  eapply keeps_trans; [exact Hm | apply Hk].
Qed.

Lemma preserves_try_except {A} (body : M A) caught handler :
  preserves body -> (forall e, preserves (handler e)) ->
  preserves (try_except body caught handler).
Proof.
  intros Hb Hh w. unfold try_except. specialize (Hb w).
  destruct (body w) as [[a | e |] w']; cbn [snd] in *; [done | | done].
  destruct (caught e); [| done].
  eapply keeps_trans; [exact Hb | apply Hh].
Qed.

(** A modification of the process's own state. *)
Lemma preserves_modify (f : World -> World) :
  (forall w, outside (f w) = outside w /\ redis_db (f w) = redis_db w) ->
  preserves (modify f).
Proof.
  intros Hf w. cbn. destruct (Hf w) as [Ho Hdb]. split; [done |].
  intros. by rewrite Hdb.
Qed.

(** A command that leaves the text of every identity-scoped key. *)
Lemma preserves_redis_command {A}
    (run : Z -> gmap string (text * Z) -> A * gmap string (text * Z)) :
  (forall now db cid email,
      fst <$> ((run now db).2 !! user_creds_key cid email)
      = fst <$> (db !! user_creds_key cid email)) ->
  preserves (redis_command run).
Proof.
  intros Hrun w. unfold redis_command.
  destruct (redis_up (outside w)); [| apply keeps_refl].
  specialize (Hrun (clock (outside w)) (redis_db w)).
  destruct (run (clock (outside w)) (redis_db w)) as [a db']. cbn [snd] in *.
  split; [by destruct w | exact Hrun].
Qed.

Lemma db_get_Some now (db : gmap string (text * Z)) key v :
  db_get now db key = Some v -> fst <$> (db !! key) = Some v.
Proof.
  unfold db_get. destruct (db !! key) as [[v' deadline]|]; [| done].
  destruct (now <? deadline); [| done]. by intros [= ->].
Qed.

Lemma preserves_ping : preserves ping.
Proof. by apply preserves_redis_command. Qed.

Lemma preserves_redis_get key : preserves (redis_get key).
Proof. by apply preserves_redis_command. Qed.

Lemma preserves_redis_expire key ttl : preserves (redis_expire key ttl).
Proof.
  apply preserves_redis_command. intros now db cid email.
  destruct (db_get now db key) as [v|] eqn:E; [| done]. cbn [snd].
  destruct (decide (key = user_creds_key cid email)) as [<- | Hne].
  - rewrite lookup_insert_eq. cbn. symmetry. by apply (db_get_Some now).
  - by rewrite lookup_insert_ne.
Qed.

Lemma preserves_redis_setex key ttl v :
  (forall cid email, key <> user_creds_key cid email) ->
  preserves (redis_setex key ttl v).
Proof.
  intros Hkey. apply preserves_redis_command. intros now db cid email.
  cbn [snd]. by rewrite lookup_insert_ne.
Qed.

Create HintDb preserves.

#[local] Hint Resolve preserves_ret preserves_raise preserves_ill_typed preserves_gets
  preserves_ping preserves_redis_get preserves_redis_expire : preserves.

(** [preserves] follows the shape of the code. *)
Ltac preserves_step :=
  first
    [ solve [auto with preserves]
    | apply preserves_bind; [| intros ?]
    | apply preserves_try_except; [| intros ?]
    | match goal with
      | |- preserves (if ?b then _ else _) => destruct b
      | |- preserves (match ?x with _ => _ end) => destruct x
      end ].

Ltac preserves_auto := repeat preserves_step.

Lemma preserves_set_self f : preserves (set_self f).
Proof. apply preserves_modify. intros w. by destruct w. Qed.

Lemma preserves_self : preserves self.
Proof. intros w. unfold self. destruct (_redis_store w); apply keeps_refl. Qed.

#[local] Hint Resolve preserves_set_self preserves_self : preserves.

Lemma preserves_client : preserves client.
Proof. unfold client. preserves_auto. Qed.

#[local] Hint Resolve preserves_client : preserves.

Lemma preserves_via_client {A} (command : M A) :
  preserves command -> preserves (via_client command).
Proof. intros H. unfold via_client. preserves_auto. Qed.

Lemma preserves_get_redis_store : preserves get_redis_store.
Proof.
  apply preserves_modify. intros w. destruct (_redis_store w); by destruct w.
Qed.

#[local] Hint Resolve preserves_get_redis_store : preserves.

Lemma preserves_store_session_credentials sid v ttl :
  preserves (store_session_credentials sid v ttl).
Proof.
  unfold store_session_credentials. preserves_auto.
  apply preserves_redis_setex. intros. apply session_key_not_user_key.
Qed.

Lemma preserves_get_session_credentials sid : preserves (get_session_credentials sid).
Proof.
  unfold get_session_credentials. preserves_auto.
Qed.

Lemma preserves_get_user_credentials email cid :
  preserves (get_user_credentials email cid).
Proof.
  unfold get_user_credentials. preserves_auto.
Qed.

#[local] Hint Resolve preserves_store_session_credentials
  preserves_get_session_credentials preserves_get_user_credentials : preserves.

Lemma preserves_deref l : preserves (deref l).
Proof. apply preserves_gets. Qed.

Lemma preserves_now : preserves now.
Proof. apply preserves_gets. Qed.

Lemma preserves_alloc c : preserves (alloc c).
Proof. intros w. cbn. by destruct w. Qed.

Lemma preserves_loads t : preserves (loads t).
Proof. unfold loads. preserves_auto. Qed.

Lemma preserves_field data key : preserves (field data key).
Proof. unfold field. preserves_auto. Qed.

Lemma preserves_parse_expiry data : preserves (parse_expiry data).
Proof. unfold parse_expiry. preserves_auto. Qed.

Lemma preserves_scopes_field data : preserves (scopes_field data).
Proof. unfold scopes_field. preserves_auto. Qed.

#[local] Hint Resolve preserves_deref preserves_now preserves_alloc preserves_loads
  preserves_field preserves_parse_expiry preserves_scopes_field : preserves.

Lemma preserves_Credentials_from data exp : preserves (Credentials_from data exp).
Proof. unfold Credentials_from. preserves_auto. Qed.

#[local] Hint Resolve preserves_Credentials_from : preserves.

Lemma preserves_save_credentials_to_session sid l :
  preserves (save_credentials_to_session sid l).
Proof.
  unfold save_credentials_to_session. preserves_auto.
  all: apply preserves_modify; intros w; by destruct w.
Qed.

Lemma preserves_load_credentials_from_session sid :
  preserves (load_credentials_from_session sid).
Proof. unfold load_credentials_from_session. preserves_auto. Qed.

Lemma preserves_load_credentials_from_file email cid :
  preserves (load_credentials_from_file email cid).
Proof. unfold load_credentials_from_file. preserves_auto. Qed.

Lemma preserves_scan_credentials files : preserves (scan_credentials files).
Proof.
  induction files as [| [filename content] rest IH]; cbn [scan_credentials];
    preserves_auto.
Qed.

#[local] Hint Resolve preserves_save_credentials_to_session
  preserves_load_credentials_from_session preserves_load_credentials_from_file
  preserves_scan_credentials : preserves.

Lemma preserves__find_any_credentials dir : preserves (_find_any_credentials dir).
Proof. unfold _find_any_credentials. preserves_auto. Qed.

Lemma preserves_get_user_info l : preserves (get_user_info l).
Proof. unfold get_user_info. preserves_auto. Qed.

#[local] Hint Resolve preserves__find_any_credentials preserves_get_user_info : preserves.

(** Looking credentials up writes no identity-scoped entry and leaves the
    surroundings as they are. *)
Lemma preserves_get_credentials_lookup email dir sid pcid :
  preserves (get_credentials_lookup email dir sid pcid).
Proof. unfold get_credentials_lookup. preserves_auto. Qed.

Lemma lookup_keeps w email dir sid pcid r w1 :
  get_credentials_lookup email dir sid pcid w = (r, w1) ->
  keeps_identity_entries w w1.
Proof.
  intros H. pose proof (preserves_get_credentials_lookup email dir sid pcid w) as Hk.
  by rewrite H in Hk.
Qed.

(** ** Tenant isolation *)

Lemma observe_decoded_db t db w :
  observe (decoded t (set_redis_db db w)) = observe (decoded t w).
Proof.
  rewrite decoded_frame. destruct (decoded t w) as [[[l|]|e|] w']; reflexivity.
Qed.

Lemma durable_read_shape w key ttl :
  durable_read w key ttl =
  set_redis_db (redis_db (durable_read w key ttl)) (connected w).
Proof. unfold durable_read. destruct (available w); [done |]. by destruct w. Qed.

Lemma durable_read_set_db_shape w db key ttl :
  durable_read (set_redis_db db w) key ttl =
  set_redis_db (redis_db (durable_read (set_redis_db db w) key ttl)) (connected w).
Proof.
  unfold durable_read.
  change (available (set_redis_db db w)) with (available w).
  destruct (available w); by destruct w.
Qed.

Lemma durable_read_write_shape w k v ttl key ttl' :
  durable_read (durable_write w k v ttl) key ttl' =
  set_redis_db (redis_db (durable_read (durable_write w k v ttl) key ttl')) (connected w).
Proof.
  unfold durable_read. rewrite available_durable_write.
  unfold durable_write. world_cases w; destruct up; reflexivity.
Qed.

Lemma durable_get_write_ne w k v ttl key :
  k <> key -> durable_get (durable_write w k v ttl) key = durable_get w key.
Proof.
  intros Hne. unfold durable_get. rewrite available_durable_write.
  destruct (available w) eqn:Ea; [| done].
  unfold durable_write. rewrite Ea.
  change (clock (outside (set_redis_db ?d (connected w)))) with (clock (outside w)).
  change (redis_db (set_redis_db ?d (connected w))) with d.
  by apply db_get_insert_ne.
Qed.

(** What a load answers, up to the world it leaves: a function of the text
    read and of the heap. *)
Lemma observe_load w email cid key :
  truthy cid = true -> key = user_creds_key (the_str cid) email ->
  observe (load_credentials_from_file email cid w) =
  match durable_get w key with
  | Some t => if truthy_text t then observe (decoded t (connected w)) else Ret None
  | None => Ret None
  end.
Proof.
  intros Hc ->. rewrite load_credentials_from_file_eq by done. cbv zeta.
  destruct (durable_get w _) as [t|]; [| done].
  destruct (truthy_text t); [| done].
  rewrite durable_read_shape. apply observe_decoded_db.
Qed.

(** C1.  Tenant isolation of the identity-scoped namespace.  For one user
    identity and two different tenant client identifiers [T1] and [T2]:
    what a load for [T2] hands back does not depend on what the store holds
    under [T1]'s key; after a save of a credential of tenant [T1] the load
    for [T2] hands back what it would have handed back before, and nothing
    when [T2]'s own key holds nothing; and a load that names no tenant hands
    back nothing and leaves the world as it is. *)
Theorem C1_tenant_isolation (w : World) (user_google_email T1 T2 : string) :
  T1 <> T2 ->
  (forall db' : gmap string (text * Z),
      (forall k, k <> user_creds_key T1 user_google_email -> db' !! k = redis_db w !! k) ->
      observe (load_credentials_from_file user_google_email (Some T2) (set_redis_db db' w))
      = observe (load_credentials_from_file user_google_email (Some T2) w))
  /\ (forall (l : loc) (c : Credentials),
        heap w !! l = Some c -> client_id c = Some T1 ->
        let stored := (save_credentials_to_file user_google_email l w).2 in
        observe (load_credentials_from_file user_google_email (Some T2) stored)
        = observe (load_credentials_from_file user_google_email (Some T2) w)
        /\ (durable_get w (user_creds_key T2 user_google_email) = None ->
            (load_credentials_from_file user_google_email (Some T2) stored).1 = Ret None))
  /\ (forall cid : option string,
        truthy cid = false ->
        load_credentials_from_file user_google_email cid w = (Ret None, w)).
Proof.
  intros Hne.
  assert (Hkey : user_creds_key T1 user_google_email <> user_creds_key T2 user_google_email).
  { intros H. by apply user_creds_key_inj in H. }
  split; [| split].
  - intros db' Hdb.
    destruct (truthy (Some T2)) eqn:H2.
    + rewrite !(observe_load _ _ _ _ H2 eq_refl). cbn [the_str default from_option id].
      assert (Hget : durable_get (set_redis_db db' w) (user_creds_key T2 user_google_email)
                     = durable_get w (user_creds_key T2 user_google_email)).
      { unfold durable_get. change (available (set_redis_db db' w)) with (available w).
        destruct (available w); [| done]. apply db_get_ext. apply Hdb. congruence. }
      rewrite Hget.
      destruct (durable_get w _) as [t|]; [| done].
      destruct (truthy_text t); [| done].
      assert (Hc : connected (set_redis_db db' w) = set_redis_db db' (connected w))
        by by destruct w.
      rewrite Hc. apply observe_decoded_db.
    + by rewrite !load_credentials_from_file_none.
  - intros l c Hl Hc stored. subst stored.
    destruct (truthy (client_id c)) eqn:H1.
    + rewrite (save_credentials_to_file_eq _ _ _ _ Hl H1). cbn [snd].
      rewrite Hc. cbn [the_str default from_option id].
      destruct (truthy (Some T2)) eqn:H2.
      * split.
        -- rewrite !(observe_load _ _ _ _ H2 eq_refl). cbn [the_str default from_option id].
           rewrite durable_get_write_ne by done.
           destruct (durable_get w _) as [t|]; [| done].
           destruct (truthy_text t); [| done].
           assert (Hcon : connected (durable_write w (user_creds_key T1 user_google_email)
                                       (Document (creds_data_of c)) 604800)
                          = set_redis_db
                              (redis_db (durable_write w (user_creds_key T1 user_google_email)
                                           (Document (creds_data_of c)) 604800))
                              (connected w)).
           { unfold durable_write. world_cases w; destruct up; reflexivity. }
           rewrite Hcon. apply observe_decoded_db.
        -- intros Hnone. rewrite load_credentials_from_file_eq by done.
           cbv zeta. cbn [the_str default from_option id].
           rewrite durable_get_write_ne by done. by rewrite Hnone.
      * rewrite !load_credentials_from_file_none by done. done.
    + rewrite (save_credentials_to_file_skip _ _ _ _ Hl H1). cbn [snd].
      split; [done |]. intros Hnone.
      destruct (truthy (Some T2)) eqn:H2.
      * rewrite load_credentials_from_file_eq by done. cbv zeta.
        cbn [the_str default from_option id]. by rewrite Hnone.
      * by rewrite load_credentials_from_file_none.
  - intros cid Hcid. by apply load_credentials_from_file_none.
Qed.

Lemma C1_tenant_isolation_witness :
  let w := example_world true rejecting [example_credentials] in
  let stored := (save_credentials_to_file "a@example.com" 0%nat w).2 in
  "tenant-1" <> "tenant-2"
  /\ (load_credentials_from_file "a@example.com" (Some "tenant-2") stored).1 = Ret None
  /\ observe (load_credentials_from_file "a@example.com" (Some "tenant-1") stored)
     = Ret (Some example_credentials).
Proof.
  intros w stored.
  assert (Hne : "tenant-1" <> "tenant-2") by discriminate.
  split; [exact Hne |]. split.
  - destruct (C1_tenant_isolation w "a@example.com" "tenant-1" "tenant-2" Hne)
      as (_ & Hsave & _).
    apply (Hsave 0%nat example_credentials); reflexivity.
  - vm_compute. reflexivity.
Defined.

(** ** Round trip through the identity-scoped namespace *)

Lemma seconds_pos ttl : 0 < ttl -> forall now, now < now + seconds ttl.
Proof. unfold seconds. lia. Qed.

Lemma durable_get_write_eq w key v ttl :
  available w = true -> 0 < ttl -> durable_get (durable_write w key v ttl) key = Some v.
Proof.
  intros Ha Httl. unfold durable_get. rewrite available_durable_write, Ha.
  unfold durable_write. rewrite Ha.
  change (clock (outside (set_redis_db ?d (connected w)))) with (clock (outside w)).
  change (redis_db (set_redis_db ?d (connected w))) with d.
  apply db_get_insert_eq. by apply seconds_pos.
Qed.

Lemma heap_durable_read w key ttl : heap (durable_read w key ttl) = heap w.
Proof. unfold durable_read. destruct (available w); by destruct w. Qed.

Lemma heap_durable_write w key v ttl : heap (durable_write w key v ttl) = heap w.
Proof. unfold durable_write. destruct (available w); by destruct w. Qed.

Lemma durable_get_later_write w key v ttl d :
  available w = true -> 0 <= d < seconds ttl ->
  durable_get (advance d (durable_write w key v ttl)) key = Some v.
Proof.
  intros Ha Hd. unfold durable_get.
  change (available (advance d ?w')) with (available w').
  rewrite available_durable_write, Ha.
  unfold durable_write. rewrite Ha.
  change (clock (outside (advance d (set_redis_db ?db (connected w)))))
    with (clock (outside w) + d).
  change (redis_db (advance d (set_redis_db ?db (connected w)))) with db.
  apply db_get_insert_eq. lia.
Qed.

(** C7.  Round trip.  A credential with a client identifier, saved
    identity-scoped while the durable tier answers and loaded with the same
    user identity and that client identifier at once, or at any time
    before the seven days of the entry have passed, comes back as a new
    object with the same access token, refresh token, token URI, client
    identifier, client secret, scopes and expiry. *)
Theorem C7_round_trip (w : World) (user_google_email : string) (l : loc)
    (c : Credentials) :
  heap w !! l = Some c ->
  truthy (client_id c) = true ->
  expiry_ok c ->
  available w = true ->
  exists w1 : World,
    save_credentials_to_file user_google_email l w = (Ret tt, w1)
    /\ forall d : Z,
         0 <= d < seconds 604800 ->
         exists (w2 : World) (l' : loc),
           load_credentials_from_file user_google_email (client_id c) (advance d w1)
           = (Ret (Some l'), w2)
           /\ heap w2 !! l' = Some c
           /\ l' <> l.
Proof.
  intros Hl Hc Hexp Ha.
  eexists. split; [by apply save_credentials_to_file_eq |].
  intros d Hd. eexists _, _.
  rewrite load_credentials_from_file_eq by done. cbv zeta.
  rewrite durable_get_later_write by done. cbn [truthy_text].
  rewrite decoded_creds_data by done.
  rewrite heap_durable_read.
  change (heap (advance d ?w')) with (heap w'). rewrite heap_durable_write.
  split; [reflexivity |]. split.
  - cbn [heap set_heap]. by apply list_lookup_middle.
  - apply lookup_lt_Some in Hl. lia.
Qed.

Lemma C7_round_trip_witness :
  exists w1 : World,
    save_credentials_to_file "a@example.com" 0%nat
      (example_world true rejecting [example_credentials]) = (Ret tt, w1)
    /\ forall d : Z,
         0 <= d < seconds 604800 ->
         exists (w2 : World) (l' : loc),
           load_credentials_from_file "a@example.com" (Some "tenant-1") (advance d w1)
           = (Ret (Some l'), w2)
           /\ heap w2 !! l' = Some example_credentials
           /\ l' <> 0%nat.
Proof.
  apply (C7_round_trip (example_world true rejecting [example_credentials])
           "a@example.com" 0%nat example_credentials).
  - reflexivity.
  - reflexivity.
  - intros e He. injection He as <-. reflexivity.
  - reflexivity.
Defined.

(** Once the seven days have passed the entry is gone: the load hands back
    nothing. *)
Lemma load_after_ttl (w : World) (user_google_email : string) (l : loc)
    (c : Credentials) (d : Z) :
  heap w !! l = Some c ->
  truthy (client_id c) = true ->
  available w = true ->
  seconds 604800 <= d ->
  (load_credentials_from_file user_google_email (client_id c)
     (advance d (save_credentials_to_file user_google_email l w).2)).1 = Ret None.
Proof.
  intros Hl Hc Ha Hd.
  rewrite (save_credentials_to_file_eq _ _ _ _ Hl Hc). cbn [snd].
  rewrite load_credentials_from_file_eq by done. cbv zeta.
  assert (Hget : durable_get
                   (advance d (durable_write w (user_creds_key (the_str (client_id c))
                                 user_google_email) (Document (creds_data_of c)) 604800))
                   (user_creds_key (the_str (client_id c)) user_google_email) = None).
  { unfold durable_get.
    change (available (advance d ?w')) with (available w').
    rewrite available_durable_write, Ha.
    unfold durable_write. rewrite Ha.
    change (clock (outside (advance d (set_redis_db ?db (connected w)))))
      with (clock (outside w) + d).
    change (redis_db (advance d (set_redis_db ?db (connected w)))) with db.
    unfold db_get. rewrite lookup_insert_eq.
    by destruct (Z.ltb_spec (clock (outside w) + d) (clock (outside w) + seconds 604800));
      [lia |]. }
  by rewrite Hget.
Qed.

(** ** Fallback when the durable tier is down *)

Lemma unavailable_down w : redis_up (outside w) = false -> available w = false.
Proof. unfold available. by intros ->. Qed.

(** C8.  Asymmetric fallback.  While the Redis server cannot be reached, a
    session-scoped save followed by a session-scoped load hands back the
    very object that was saved, through the in-memory cache, for every
    session identifier; an identity-scoped load hands back nothing,
    whatever the server holds. *)
Theorem C8_asymmetric_fallback (w : World) (session_id : string) (l : loc)
    (c : Credentials) :
  heap w !! l = Some c ->
  redis_up (outside w) = false ->
  (exists w1 w2 : World,
      save_credentials_to_session session_id l w = (Ret tt, w1)
      /\ load_credentials_from_session session_id w1 = (Ret (Some l), w2)
      /\ heap w2 = heap w
      /\ redis_db w2 = redis_db w)
  /\ (forall (user_google_email : string) (cid : option string),
        (load_credentials_from_file user_google_email cid w).1 = Ret None).
Proof.
  intros Hl Hup. pose proof (unavailable_down w Hup) as Ha. split.
  - eexists _, _. split.
    { rewrite (save_credentials_to_session_eq _ _ _ _ Hl), Ha. reflexivity. }
    rewrite load_credentials_from_session_eq. cbv zeta.
    set (w1 := set_session_cache _ _).
    assert (Ha1 : available w1 = false).
    { apply unavailable_down. subst w1. by destruct w. }
    unfold durable_get, durable_read. rewrite Ha1.
    split; [| split].
    + f_equal. f_equal. subst w1. destruct w. apply lookup_insert_eq.
    + subst w1. by destruct w.
    + subst w1. by destruct w.
  - intros email cid. destruct (truthy cid) eqn:Hc.
    + rewrite load_credentials_from_file_eq by done. cbv zeta.
      unfold durable_get. by rewrite Ha.
    + by rewrite load_credentials_from_file_none.
Qed.

Lemma C8_asymmetric_fallback_witness :
  (exists w1 w2 : World,
      save_credentials_to_session "s1" 0%nat
        (example_world false rejecting [example_credentials]) = (Ret tt, w1)
      /\ load_credentials_from_session "s1" w1 = (Ret (Some 0%nat), w2)
      /\ heap w2 = [example_credentials]
      /\ redis_db w2 = ∅)
  /\ (forall (user_google_email : string) (cid : option string),
        (load_credentials_from_file user_google_email cid
           (example_world false rejecting [example_credentials])).1 = Ret None).
Proof.
  apply (C8_asymmetric_fallback (example_world false rejecting [example_credentials])
           "s1" 0%nat example_credentials); reflexivity.
Defined.

(** ** Stored text that is not JSON *)

Lemma available_connected w : available (connected w) = available w.
Proof. world_cases w; destruct up; reflexivity. Qed.

Lemma connected_idem w : connected (connected w) = connected w.
Proof. world_cases w; destruct up; reflexivity. Qed.

(** C6, as the code has it.  When the identity-scoped entry of a key is a
    live, non-empty text that is not JSON, the load hands back nothing and
    leaves the entry in the store with a fresh deadline of seven days; the
    next load finds it again, hands back nothing again and leaves the world
    as it found it. *)
Theorem C6_malformed_entry_kept (w : World) (user_google_email : string)
    (cid : option string) (s : string) (deadline : Z) :
  truthy cid = true ->
  available w = true ->
  redis_db w !! user_creds_key (the_str cid) user_google_email = Some (Malformed s, deadline) ->
  clock (outside w) < deadline ->
  s <> "" ->
  exists w' : World,
    load_credentials_from_file user_google_email cid w = (Ret None, w')
    /\ redis_db w' !! user_creds_key (the_str cid) user_google_email
       = Some (Malformed s, clock (outside w) + seconds 604800)
    /\ load_credentials_from_file user_google_email cid w' = (Ret None, w').
Proof.
  intros Hc Ha Hdb Hlive Hs.
  set (key := user_creds_key (the_str cid) user_google_email) in *.
  assert (Ht : truthy_text (Malformed s) = true).
  { cbn. by destruct (String.eqb_spec s ""). }
  assert (Hget : db_get (clock (outside w)) (redis_db w) key = Some (Malformed s)).
  { unfold db_get. rewrite Hdb. by apply Z.ltb_lt in Hlive as ->. }
  set (db' := <[key := (Malformed s, clock (outside w) + seconds 604800)]> (redis_db w)).
  assert (Hread : durable_read w key 604800 = set_redis_db db' (connected w)).
  { unfold durable_read, touch. by rewrite Ha, Hget, Ht. }
  exists (set_redis_db db' (connected w)). split; [| split].
  - rewrite load_credentials_from_file_eq by done. cbv zeta. fold key.
    unfold durable_get. rewrite Ha, Hget, Ht, Hread. reflexivity.
  - cbn [redis_db set_redis_db]. subst db'. apply lookup_insert_eq.
  - rewrite load_credentials_from_file_eq by done. cbv zeta. fold key.
    assert (Ha' : available (set_redis_db db' (connected w)) = true).
    { change (available (set_redis_db db' (connected w))) with (available (connected w)).
      by rewrite available_connected. }
    assert (Hget' : db_get (clock (outside w)) db' key = Some (Malformed s)).
    { subst db'. apply db_get_insert_eq. by apply seconds_pos. }
    unfold durable_get, durable_read, touch. rewrite Ha'.
    change (clock (outside (set_redis_db db' (connected w)))) with (clock (outside w)).
    change (redis_db (set_redis_db db' (connected w))) with db'.
    rewrite Hget', Ht.
    change (connected (set_redis_db db' (connected w)))
      with (set_redis_db db' (connected (connected w))).
    rewrite connected_idem.
    rewrite decoded_malformed. f_equal.
    assert (Hdb' : <[key := (Malformed s, clock (outside w) + seconds 604800)]> db' = db').
    { subst db'. apply insert_insert_eq. }
    rewrite Hdb'. by destruct w.
Qed.

Lemma C6_malformed_entry_kept_witness :
  exists w' : World,
    load_credentials_from_file "a@example.com" (Some "tenant-1") example_corrupt_world
    = (Ret None, w')
    /\ redis_db w' !! user_creds_key "tenant-1" "a@example.com"
       = Some (Malformed "{not json", example_clock + seconds 604800)
    /\ load_credentials_from_file "a@example.com" (Some "tenant-1") w' = (Ret None, w').
Proof.
  apply (C6_malformed_entry_kept example_corrupt_world "a@example.com" (Some "tenant-1")
           "{not json" (example_clock + seconds 60)).
  - reflexivity.
  - reflexivity.
  - reflexivity.
  - vm_compute. reflexivity.
  - discriminate.
Defined.

(** C6 as stated fails: after the load has met the text that is not JSON,
    the entry is still in the store and still readable, and the next load
    meets it again. *)
Lemma C6_counterexample :
  let key := user_creds_key "tenant-1" "a@example.com" in
  let first := load_credentials_from_file "a@example.com" (Some "tenant-1")
                 example_corrupt_world in
  db_get example_clock (redis_db example_corrupt_world) key = Some (Malformed "{not json")
  /\ first.1 = Ret None
  /\ db_get example_clock (redis_db first.2) key = Some (Malformed "{not json")
  /\ (load_credentials_from_file "a@example.com" (Some "tenant-1") first.2).1 = Ret None.
Proof. vm_compute. repeat split; reflexivity. Qed.

(** ** Acquiring credentials *)

Lemma get_credentials_found w user_google_email required_scopes client_secrets_path
    credentials_base_dir session_id provided_client_id provided_client_secret
    l email' w1 :
  get_credentials_lookup user_google_email credentials_base_dir session_id
    provided_client_id w = (Ret (Some l, email'), w1) ->
  get_credentials user_google_email required_scopes client_secrets_path
    credentials_base_dir session_id provided_client_id provided_client_secret w
  = get_credentials_decide l email' required_scopes client_secrets_path session_id w1.
Proof. intros H. unfold get_credentials. by rewrite (bind_eq _ _ _ _ _ H). Qed.

Lemma all_in_subseteq (g required : list string) :
  all_in g required = true <-> required ⊆ g.
Proof.
  unfold all_in. rewrite forallb_forall. split.
  - intros H x Hx. apply list_elem_of_In in Hx. specialize (H x Hx).
    apply existsb_exists in H as (y & Hy & Heq).
    apply String.eqb_eq in Heq as ->. by apply list_elem_of_In.
  - intros H x Hx. apply existsb_exists. exists x. split.
    + apply list_elem_of_In, H. by apply list_elem_of_In.
    + apply String.eqb_refl.
Qed.

Lemma has_all_scopes_some g required w :
  has_all_scopes (Some g) required w = (Ret (all_in g required), w).
Proof. by destruct required. Qed.

Lemma expired_valid now c : expired now c = true -> valid now c = false.
Proof. unfold valid. intros ->. by destruct (token c). Qed.

Lemma past_expired now c e :
  expiry c = Some e -> to_micros e <= now -> expired now c = true.
Proof.
  unfold expired, REFRESH_THRESHOLD. intros -> H. apply Z.leb_le. lia.
Qed.

(** The decision once the scope check has passed. *)
Lemma decide_no_refresh w l c g email required csp sid :
  heap w !! l = Some c -> scopes c = Some g ->
  expired (clock (outside w)) c = true -> truthy (refresh_token c) = false ->
  get_credentials_decide l email required csp sid w = (Ret None, w).
Proof.
  intros Hl Hg He Hrt. unfold get_credentials_decide.
  bind_step deref_eq. rewrite Hg.
  rewrite (bind_eq _ _ _ _ _ (has_all_scopes_some g required w)).
  destruct (all_in g required); [| reflexivity]. cbv beta iota delta [negb].
  unfold now. rewrite (bind_eq _ _ w w (Ret (clock (outside w)))) by reflexivity.
  by rewrite (expired_valid _ _ He), He, Hrt.
Qed.

(** *** The scope check *)

Lemma decide_insufficient w l c g email required csp sid :
  heap w !! l = Some c -> scopes c = Some g -> all_in g required = false ->
  get_credentials_decide l email required csp sid w = (Ret None, w).
Proof.
  intros Hl Hg Hall. unfold get_credentials_decide.
  bind_step deref_eq. rewrite Hg.
  rewrite (bind_eq _ _ _ _ _ (has_all_scopes_some g required w)).
  by rewrite Hall.
Qed.

Lemma decide_sufficient w l c g email required csp sid :
  heap w !! l = Some c -> scopes c = Some g -> all_in g required = true ->
  get_credentials_decide l email required csp sid w
  = get_credentials_decide l email [] csp sid w.
Proof.
  intros Hl Hg Hall. unfold get_credentials_decide.
  rewrite !(bind_eq _ _ _ _ _ (deref_eq _ _ _ Hl)). cbv beta iota. rewrite Hg.
  rewrite !(bind_eq _ _ _ _ _ (has_all_scopes_some g _ w)).
  by rewrite Hall.
Qed.

(** C4.  The scope check, for a credential found by [get_credentials] that
    carries a scope list [g]: a credential is handed back only if every
    required scope is in [g]; if one is missing the answer is [None],
    whatever the state of the token; and if none is missing the answer is
    the one [get_credentials] gives when no scope is required. *)
Theorem C4_scope_check (w : World)
    (user_google_email : option string) (required_scopes : list string)
    (client_secrets_path : option string) (credentials_base_dir : string)
    (session_id provided_client_id provided_client_secret : option string)
    (l : loc) (email' : option string) (w1 : World) (c : Credentials)
    (g : list string) :
  get_credentials_lookup user_google_email credentials_base_dir session_id
    provided_client_id w = (Ret (Some l, email'), w1) ->
  heap w1 !! l = Some c ->
  scopes c = Some g ->
  let answer :=
    get_credentials user_google_email required_scopes client_secrets_path
      credentials_base_dir session_id provided_client_id provided_client_secret w in
  ((exists l', answer.1 = Ret (Some l')) -> required_scopes ⊆ g)
  /\ (~ required_scopes ⊆ g -> answer = (Ret None, w1))
  /\ (required_scopes ⊆ g ->
      answer = get_credentials user_google_email [] client_secrets_path
                 credentials_base_dir session_id provided_client_id
                 provided_client_secret w).
Proof.
  intros Hfound Hl Hg answer. subst answer.
  rewrite !(get_credentials_found _ _ _ _ _ _ _ _ _ _ _ Hfound).
  destruct (all_in g required_scopes) eqn:Hall.
  - pose proof (proj1 (all_in_subseteq _ _) Hall) as Hsub.
    split; [done |]. split; [done |]. intros _.
    by apply (decide_sufficient _ _ _ _ _ _ _ _ Hl Hg).
  - assert (Hnot : ~ required_scopes ⊆ g).
    { intros Hsub. apply all_in_subseteq in Hsub. congruence. }
    rewrite (decide_insufficient _ _ _ _ _ _ _ _ Hl Hg Hall).
    split; [by intros [l' Hl'] |]. split; [done |]. done.
Qed.

Lemma C4_scope_check_witness :
  let w := cached_world rejecting example_credentials in
  let acquire required :=
    get_credentials (Some "a@example.com") required (Some "client_secret.json")
      "credentials" (Some "s1") (Some "tenant-1") (Some "secret-1") w in
  (acquire ["openid"; "https://www.googleapis.com/auth/gmail.send"]).1 = Ret None
  /\ acquire ["openid"] = acquire []
  /\ (acquire ["openid"]).1 = Ret (Some 0%nat).
Proof.
  intros w acquire.
  assert (Hfound : get_credentials_lookup (Some "a@example.com") "credentials" (Some "s1")
                     (Some "tenant-1") w
                   = (Ret (Some 0%nat, Some "a@example.com"),
                      (get_credentials_lookup (Some "a@example.com") "credentials"
                         (Some "s1") (Some "tenant-1") w).2))
    by (vm_compute; reflexivity).
  split; [| split].
  - destruct (C4_scope_check w (Some "a@example.com")
                ["openid"; "https://www.googleapis.com/auth/gmail.send"]
                (Some "client_secret.json") "credentials" (Some "s1") (Some "tenant-1")
                (Some "secret-1") _ _ _ example_credentials _ Hfound eq_refl eq_refl)
      as (_ & Hmissing & _).
    subst acquire. cbv beta. rewrite Hmissing; [reflexivity |].
    intros Hsub. specialize (Hsub "https://www.googleapis.com/auth/gmail.send").
    assert (Hin : "https://www.googleapis.com/auth/gmail.send"
                  ∈ ["openid"; "https://www.googleapis.com/auth/gmail.send"])
      by (apply list_elem_of_In; simpl; auto).
    apply Hsub in Hin. apply list_elem_of_In in Hin. simpl in Hin.
    destruct Hin as [Hin | [Hin | []]]; discriminate Hin.
  - destruct (C4_scope_check w (Some "a@example.com") ["openid"]
                (Some "client_secret.json") "credentials" (Some "s1") (Some "tenant-1")
                (Some "secret-1") _ _ _ example_credentials _ Hfound eq_refl eq_refl)
      as (_ & _ & Hpresent).
    apply Hpresent. apply all_in_subseteq. reflexivity.
  - vm_compute. reflexivity.
Defined.

(** *** Refresh *)

Lemma refresh_raises w l c e :
  heap w !! l = Some c -> token_endpoint (outside w) c = RefreshRaises e ->
  exists e', refresh l w = (Raise e', w).
Proof.
  intros Hl He. unfold refresh. bind_step deref_eq.
  destruct (refreshable c); [| by exists RefreshError].
  exists e. cbn [negb]. unfold gets, bind. by rewrite He.
Qed.

Lemma refresh_ok w l c tok exp rt :
  heap w !! l = Some c -> refreshable c = true ->
  token_endpoint (outside w) c = Refreshed tok exp rt ->
  refresh l w = (Ret tt, set_heap (<[l := refreshed c tok exp rt]> (heap w)) w).
Proof.
  intros Hl Hr He. unfold refresh. bind_step deref_eq.
  rewrite Hr. cbn [negb]. unfold gets, bind. by rewrite He.
Qed.

(** The decision when the token has expired and there is a refresh token:
    it is the refresh and what follows it, under the two handlers. *)
Lemma decide_refresh w l c g email required csp sid :
  heap w !! l = Some c -> scopes c = Some g -> all_in g required = true ->
  expired (clock (outside w)) c = true -> truthy (refresh_token c) = true ->
  truthy csp = true ->
  get_credentials_decide l email required csp sid w =
  try_except
    (refresh l ;;
     (if truthy email then save_credentials_to_file (the_str email) l else ret tt) ;;
     (if truthy sid then save_credentials_to_session (the_str sid) l else ret tt) ;;
     ret (Some l))
    except_Exception
    (fun e => match e with RefreshError => ret None | _ => ret None end) w.
Proof.
  intros Hl Hg Hall He Hrt Hcsp. unfold get_credentials_decide.
  bind_step deref_eq. rewrite Hg.
  rewrite (bind_eq _ _ _ _ _ (has_all_scopes_some g required w)).
  rewrite Hall. cbv beta iota delta [negb].
  unfold now. rewrite (bind_eq _ _ w w (Ret (clock (outside w)))) by reflexivity.
  by rewrite (expired_valid _ _ He), He, Hrt, Hcsp.
Qed.

(** C5, as the code has it.  For an expired credential with a refresh
    token that [get_credentials] found and whose scopes suffice, when the
    refresh raises, the answer is [None] whatever was raised: a
    [RefreshError] of the token endpoint and any other failure give the
    same answer and leave the same world. *)
Theorem C5_refresh_failures_alike (w : World)
    (user_google_email : option string) (required_scopes : list string)
    (client_secrets_path : option string) (credentials_base_dir : string)
    (session_id provided_client_id provided_client_secret : option string)
    (l : loc) (email' : option string) (w1 : World) (c : Credentials)
    (g : list string) (e : exn) :
  get_credentials_lookup user_google_email credentials_base_dir session_id
    provided_client_id w = (Ret (Some l, email'), w1) ->
  heap w1 !! l = Some c ->
  scopes c = Some g ->
  required_scopes ⊆ g ->
  expired (clock (outside w)) c = true ->
  truthy (refresh_token c) = true ->
  truthy client_secrets_path = true ->
  token_endpoint (outside w) c = RefreshRaises e ->
  get_credentials user_google_email required_scopes client_secrets_path
    credentials_base_dir session_id provided_client_id provided_client_secret w
  = (Ret None, w1).
Proof.
  intros Hfound Hl Hg Hsub He Hrt Hcsp Hraise.
  destruct (lookup_keeps _ _ _ _ _ _ _ Hfound) as [Hout _].
  rewrite <- Hout in He, Hraise.
  rewrite (get_credentials_found _ _ _ _ _ _ _ _ _ _ _ Hfound).
  apply all_in_subseteq in Hsub.
  rewrite (decide_refresh _ _ _ _ _ _ _ _ Hl Hg Hsub He Hrt Hcsp).
  unfold try_except.
  destruct (refresh_raises _ _ _ _ Hl Hraise) as [e' Hrefresh].
  rewrite (bind_eq _ _ _ _ _ Hrefresh).
  by destruct e'.
Qed.

Lemma C5_refresh_failures_alike_witness :
  get_credentials None ["openid"] (Some "client_secret.json") "credentials"
    (Some "s1") None None (cached_world (failing TransportError) expired_credentials)
  = (Ret None,
     (get_credentials_lookup None "credentials" (Some "s1") None
        (cached_world (failing TransportError) expired_credentials)).2).
Proof.
  apply (C5_refresh_failures_alike _ _ _ _ _ _ _ _ 0%nat None _ expired_credentials
           ["openid"] TransportError).
  - vm_compute. reflexivity.
  - reflexivity.
  - reflexivity.
  - apply all_in_subseteq. reflexivity.
  - vm_compute. reflexivity.
  - reflexivity.
  - reflexivity.
  - reflexivity.
Defined.

(** C5 as stated fails: a transport failure during the refresh and the
    rejection of the refresh token give the same answer, [None]. *)
Lemma C5_counterexample :
  let acquire endpoint :=
    (get_credentials None ["openid"] (Some "client_secret.json") "credentials"
       (Some "s1") None None (cached_world endpoint expired_credentials)).1 in
  acquire (failing TransportError) = Ret None
  /\ acquire (failing RefreshError) = Ret None
  /\ acquire (failing TransportError) = acquire (failing RefreshError).
Proof. vm_compute. repeat split; reflexivity. Qed.

(** *** From the store to the decision *)

Lemma truthy_Some s : s <> "" -> truthy (Some s) = true.
Proof. intros H. cbn. by destruct (String.eqb_spec s ""). Qed.

Lemma outside_durable_read w key ttl : outside (durable_read w key ttl) = outside w.
Proof. unfold durable_read. destruct (available w); by destruct w. Qed.

(** An identity-scoped entry of the durable store that holds a credential
    with past expiry and without refresh token is found, decoded and
    refused: outside single-user mode the call answers [None]. *)
Lemma stored_expired_credential_refused (w : World) (user_google_email cid : string)
    (c : Credentials) (e : datetime) (required_scopes : list string)
    (client_secrets_path : option string) (credentials_base_dir : string)
    (provided_client_secret : option string) :
  MCP_SINGLE_USER_MODE (outside w) <> Some "1" ->
  user_google_email <> "" ->
  cid <> "" ->
  durable_get w (user_creds_key cid user_google_email) = Some (Document (creds_data_of c)) ->
  expiry_ok c ->
  expiry c = Some e ->
  to_micros e <= clock (outside w) ->
  truthy (refresh_token c) = false ->
  is_Some (scopes c) ->
  (get_credentials (Some user_google_email) required_scopes client_secrets_path
     credentials_base_dir None (Some cid) provided_client_secret w).1 = Ret None.
Proof.
  intros Hmode Hemail Hcid Hget Hok He Hpast Hrt [g Hg].
  set (w1 := durable_read w (user_creds_key cid user_google_email) 604800).
  set (l := List.length (heap w1)).
  assert (Hfound :
    get_credentials_lookup (Some user_google_email) credentials_base_dir None (Some cid) w
    = (Ret (Some l, Some user_google_email), set_heap (heap w1 ++ [c]) w1)).
  { unfold get_credentials_lookup.
    rewrite (bind_eq _ _ w w (Ret (MCP_SINGLE_USER_MODE (outside w)))) by reflexivity.
    rewrite bool_decide_eq_false_2 by done.
    cbn [truthy]. rewrite (bind_eq _ _ w w (Ret None)) by reflexivity.
    fold (truthy (Some user_google_email)). fold (truthy (Some cid)).
    rewrite !truthy_Some by done. cbn [andb the_str default from_option id].
    assert (Hload : load_credentials_from_file user_google_email (Some cid) w
                    = (Ret (Some l), set_heap (heap w1 ++ [c]) w1)).
    { rewrite load_credentials_from_file_eq by by apply truthy_Some.
      cbv zeta. cbn [the_str default from_option id].
      rewrite Hget. cbn [truthy_text]. by rewrite decoded_creds_data. }
    unfold bind at 1. unfold bind at 1. rewrite Hload. reflexivity. }
  rewrite (get_credentials_found _ _ _ _ _ _ _ _ _ _ _ Hfound).
  assert (Hl : heap (set_heap (heap w1 ++ [c]) w1) !! l = Some c).
  { cbn [heap set_heap]. by apply list_lookup_middle. }
  assert (Hclock : clock (outside (set_heap (heap w1 ++ [c]) w1)) = clock (outside w)).
  { change (outside (set_heap ?h w1)) with (outside w1).
    subst w1. by rewrite outside_durable_read. }
  rewrite (decide_no_refresh _ _ _ _ _ _ _ _ Hl Hg); [done | | done].
  rewrite Hclock. by apply (past_expired _ _ e).
Qed.

(** *** Credentials without client identifier *)

Lemma redis_db_durable_write_ne w k v ttl key :
  k <> key -> redis_db (durable_write w k v ttl) !! key = redis_db w !! key.
Proof.
  intros Hne. unfold durable_write. destruct (available w).
  - cbn [redis_db set_redis_db]. by apply lookup_insert_ne.
  - by destruct w.
Qed.

(** C10.  A credential without client identifier is not saved
    identity-scoped: [save_credentials_to_file] returns and leaves the
    whole world as it was.  So when [get_credentials] has found such a
    credential, expired and with a refresh token, and the refresh succeeds,
    the refreshed credential is handed back, no exception is raised, and
    no identity-scoped key of the store has changed, although the user
    identity is known. *)
Theorem C10_missing_client_id_not_saved (w : World) (user_google_email : string)
    (l : loc) (c : Credentials) :
  heap w !! l = Some c ->
  truthy (client_id c) = false ->
  save_credentials_to_file user_google_email l w = (Ret tt, w)
  /\ (forall (w0 : World) (email0 : option string) (required_scopes g : list string)
        (client_secrets_path : option string) (credentials_base_dir : string)
        (session_id provided_client_id provided_client_secret : option string)
        (tok : string) (exp : option datetime) (rt : option string),
        get_credentials_lookup email0 credentials_base_dir session_id provided_client_id w0
        = (Ret (Some l, Some user_google_email), w) ->
        scopes c = Some g ->
        required_scopes ⊆ g ->
        expired (clock (outside w)) c = true ->
        truthy (refresh_token c) = true ->
        refreshable c = true ->
        truthy client_secrets_path = true ->
        token_endpoint (outside w) c = Refreshed tok exp rt ->
        exists w' : World,
          get_credentials email0 required_scopes client_secrets_path credentials_base_dir
            session_id provided_client_id provided_client_secret w0 = (Ret (Some l), w')
          /\ heap w' !! l = Some (refreshed c tok exp rt)
          /\ (forall cid' email' : string,
                 redis_db w' !! user_creds_key cid' email'
                 = redis_db w !! user_creds_key cid' email')
          /\ keeps_identity_entries w0 w').
Proof.
  intros Hl Hc. split; [by apply (save_credentials_to_file_skip _ _ _ c) |].
  intros w0 email0 required g csp dir sid pcid psecret tok exp rt
    Hfound Hg Hsub He Hrt Hable Hcsp Hok.
  rewrite (get_credentials_found _ _ _ _ _ _ _ _ _ _ _ Hfound).
  apply all_in_subseteq in Hsub.
  rewrite (decide_refresh _ _ _ _ _ _ _ _ Hl Hg Hsub He Hrt Hcsp).
  set (c' := refreshed c tok exp rt).
  set (w1 := set_heap (<[l := c']> (heap w)) w).
  assert (Hl1 : heap w1 !! l = Some c').
  { subst w1. cbn [heap set_heap]. apply list_lookup_insert_eq.
    by apply lookup_lt_Some in Hl. }
  assert (Hfile :
    (if truthy (Some user_google_email)
     then save_credentials_to_file (the_str (Some user_google_email)) l
     else ret tt) w1 = (Ret tt, w1)).
  { destruct (truthy (Some user_google_email)); [| done].
    by apply (save_credentials_to_file_skip _ _ _ c'). }
  assert (Hsession : exists w2,
    (if truthy sid then save_credentials_to_session (the_str sid) l else ret tt) w1
    = (Ret tt, w2)
    /\ heap w2 = heap w1
    /\ forall cid' email', redis_db w2 !! user_creds_key cid' email'
                           = redis_db w !! user_creds_key cid' email').
  { destruct (truthy sid).
    - eexists. split; [by apply (save_credentials_to_session_eq _ _ _ c') |].
      destruct (available w1) eqn:Ha.
      + split; [apply heap_durable_write |]. intros cid' email'.
        rewrite redis_db_durable_write_ne by apply session_key_not_user_key.
        subst w1. by destruct w.
      + split; [subst w1; by destruct w |]. intros cid' email'.
        subst w1. by destruct w.
    - exists w1. split; [done |]. split; [done |]. intros. subst w1. by destruct w. }
  destruct Hsession as (w2 & Hsession & Hheap & Hdb).
  assert (Hout2 : outside w2 = outside w).
  { destruct (truthy sid).
    - pose proof (preserves_save_credentials_to_session (the_str sid) l w1) as [Ho _].
      rewrite Hsession in Ho. cbn [snd] in Ho. rewrite Ho. subst w1. by destruct w.
    - injection Hsession as <-. subst w1. by destruct w. }
  exists w2. split; [| split; [| split]].
  - unfold try_except.
    rewrite (bind_eq _ _ _ _ _ (refresh_ok _ _ _ _ _ _ Hl Hable Hok)). fold c'. fold w1.
    rewrite (bind_eq _ _ _ _ _ Hfile).
    by rewrite (bind_eq _ _ _ _ _ Hsession).
  - by rewrite Hheap.
  - exact Hdb.
  - apply (keeps_trans w0 w w2); [by apply (lookup_keeps _ _ _ _ _ _ _ Hfound) |].
    split; [exact Hout2 |]. intros cid' email'. by rewrite Hdb.
Qed.

Lemma C10_missing_client_id_not_saved_witness :
  let w0 := cached_world refreshing anonymous_credentials in
  let w := (get_credentials_lookup (Some "a@example.com") "credentials" (Some "s1")
              None w0).2 in
  save_credentials_to_file "a@example.com" 0%nat w = (Ret tt, w)
  /\ exists w' : World,
       get_credentials (Some "a@example.com") ["openid"] (Some "client_secret.json")
         "credentials" (Some "s1") None None w0 = (Ret (Some 0%nat), w')
       /\ heap w' !! 0%nat
          = Some (refreshed anonymous_credentials "ya29.new"
                    (Some (mk_datetime 2024 1 1 1 0 0 0)) (Some "1//refresh"))
       /\ (forall cid' email' : string,
              redis_db w' !! user_creds_key cid' email'
              = redis_db w !! user_creds_key cid' email')
       /\ keeps_identity_entries w0 w'.
Proof.
  intros w0 w.
  destruct (C10_missing_client_id_not_saved w "a@example.com" 0%nat anonymous_credentials)
    as [Hsave Hrefresh].
  - reflexivity.
  - reflexivity.
  - split; [exact Hsave |].
    apply (Hrefresh w0 (Some "a@example.com") ["openid"] ["openid"]
             (Some "client_secret.json") "credentials" (Some "s1") None None
             "ya29.new" (Some (mk_datetime 2024 1 1 1 0 0 0)) (Some "1//refresh")).
    + vm_compute. reflexivity.
    + reflexivity.
    + apply all_in_subseteq. reflexivity.
    + vm_compute. reflexivity.
    + reflexivity.
    + reflexivity.
    + reflexivity.
    + reflexivity.
Defined.

(** ** Correlation tokens *)

(** C2 fails in the in-memory tier.  With the Redis server down, a token
    stored once with a session identifier is resolved twice: the first
    resolution pops the entry of [OAUTH_STATE_TO_SESSION_INFO_MAP] and
    returns, the entry of the legacy map stays, and the second resolution
    pops that one and answers a tuple again.  Only the third answers
    [None]. *)
Theorem C2_token_resolved_twice :
  let w := example_world false rejecting [] in
  let stored := scopes.store_oauth_state "state-1" (Some "s1") (Some "tenant-1")
                  (Some "secret-1") w in
  let first := scopes.get_oauth_state "state-1" stored.2 in
  let second := scopes.get_oauth_state "state-1" first.2 in
  let third := scopes.get_oauth_state "state-1" second.2 in
  stored.1 = Ret tt
  /\ first.1 = Ret (Some (mk_state_info (Some "s1") (Some "tenant-1") (Some "secret-1")))
  /\ second.1 = Ret (Some (mk_state_info (Some "s1") None None))
  /\ third.1 = Ret None.
Proof. vm_compute. repeat split; reflexivity. Qed.

Lemma get_oauth_state_redis_eq (w : World) (state : string) :
  redis_state_store.get_oauth_state state (set_redis_store (Some (the_store w)) w) =
  (Ret (match durable_get w (oauth_state_key state) with
        | Some t => if truthy_text t then json_loads t else None
        | None => None
        end),
   if available w then
     set_redis_db (delete (oauth_state_key state) (redis_db w)) (connected w)
   else connected w).
Proof.
  unfold durable_get.
  world_cases w; destruct up; try reflexivity; simpl;
    (destruct (db_get ck db (oauth_state_key state)) as [[j | s]|] eqn:E;
     [| destruct (String.eqb s "") eqn:Es |]);
    py_unfold; simpl; rewrite ?E; simpl; rewrite ?Es; simpl; reflexivity.
Qed.

(** In the durable tier the token is consumed once: stored while the
    durable tier answers, with no entry of the same name in the two
    in-memory maps, it is resolved to the stored tuple the first time and to
    [None] the second. *)
Lemma oauth_state_durable_once (w : World) (state : string)
    (session_id cid csecret : option string) :
  _redis_available (outside w) = true ->
  available w = true ->
  OAUTH_STATE_TO_SESSION_INFO_MAP w !! state = None ->
  OAUTH_STATE_TO_SESSION_ID_MAP w !! state = None ->
  exists w1 w2 w3 : World,
    scopes.store_oauth_state state session_id cid csecret w = (Ret tt, w1)
    /\ scopes.get_oauth_state state w1 = (Ret (Some (mk_state_info session_id cid csecret)), w2)
    /\ scopes.get_oauth_state state w2 = (Ret None, w3).
Proof.
  intros Hav Ha Hinfo Hid.
  set (doc := Document (JObj [("session_id", str_or_null session_id);
                              ("client_id", str_or_null cid);
                              ("client_secret", str_or_null csecret)])).
  set (w1 := durable_write w (oauth_state_key state) doc 600).
  assert (Ha1 : available w1 = true) by (subst w1; by rewrite available_durable_write).
  assert (Hav1 : _redis_available (outside w1) = true).
  { subst w1. unfold durable_write. rewrite Ha. by destruct w. }
  set (w2 := set_redis_db (delete (oauth_state_key state) (redis_db w1)) (connected w1)).
  assert (Ha2 : available w2 = true).
  { subst w2. change (available (set_redis_db ?d (connected w1)))
      with (available (connected w1)). by rewrite available_connected. }
  assert (Hav2 : _redis_available (outside w2) = true) by (subst w2; by destruct w1).
  exists w1, w2, (set_id_map (delete state (OAUTH_STATE_TO_SESSION_ID_MAP w2))
                    (set_info_map (delete state (OAUTH_STATE_TO_SESSION_INFO_MAP w2))
                       (set_redis_db (delete (oauth_state_key state) (redis_db w2))
                          (connected w2)))).
  split; [| split].
  - unfold scopes.store_oauth_state.
    rewrite (bind_eq _ _ w w (Ret true)) by (unfold gets; by rewrite Hav).
    rewrite (bind_eq _ _ w w1 (Ret true)); [done |].
    apply try_except_ret.
    rewrite (bind_eq _ _ _ _ _ (get_redis_store_eq w)).
    rewrite store_oauth_state_redis_eq. by rewrite Ha.
  - unfold scopes.get_oauth_state.
    rewrite (bind_eq _ _ w1 w1 (Ret true)) by (unfold gets; by rewrite Hav1).
    rewrite (bind_eq _ _ w1 w2 (Ret (Some (mk_state_info session_id cid csecret))));
      [done |].
    apply try_except_ret.
    rewrite (bind_eq _ _ _ _ _ (get_redis_store_eq w1)).
    rewrite (bind_eq _ _ _ _ _ (get_oauth_state_redis_eq w1 state)).
    rewrite Ha1. subst w1. rewrite durable_get_write_eq by done.
    subst doc. cbn [truthy_text json_loads truthy_json List.length Nat.eqb negb].
    unfold field.
    cbn [dict_get assoc default from_option id String.eqb Ascii.eqb Bool.eqb].
    rewrite !as_optional_str_str_or_null. reflexivity.
  - unfold scopes.get_oauth_state.
    rewrite (bind_eq _ _ w2 w2 (Ret true)) by (unfold gets; by rewrite Hav2).
    assert (Hget2 : durable_get w2 (oauth_state_key state) = None).
    { unfold durable_get. rewrite Ha2. subst w2.
      change (redis_db (set_redis_db ?d (connected w1))) with d.
      unfold db_get. by rewrite lookup_delete_eq. }
    rewrite (bind_eq _ _ w2
               (set_redis_db (delete (oauth_state_key state) (redis_db w2)) (connected w2))
               (Ret None)).
    + assert (Hinfo2 : OAUTH_STATE_TO_SESSION_INFO_MAP w2 !! state = None).
      { subst w2 w1. unfold durable_write. rewrite Ha. by destruct w. }
      assert (Hid2 : OAUTH_STATE_TO_SESSION_ID_MAP w2 !! state = None).
      { subst w2 w1. unfold durable_write. rewrite Ha. by destruct w. }
      unfold bind, gets, modify, ret.
      cbn [OAUTH_STATE_TO_SESSION_INFO_MAP OAUTH_STATE_TO_SESSION_ID_MAP set_redis_db
           set_info_map set_id_map connected set_redis_store].
      rewrite Hinfo2.
      cbn [OAUTH_STATE_TO_SESSION_INFO_MAP OAUTH_STATE_TO_SESSION_ID_MAP set_redis_db
           set_info_map set_id_map connected set_redis_store].
      rewrite Hid2. reflexivity.
    + apply try_except_ret.
      rewrite (bind_eq _ _ _ _ _ (get_redis_store_eq w2)).
      rewrite (bind_eq _ _ _ _ _ (get_oauth_state_redis_eq w2 state)).
      by rewrite Hget2, Ha2.
Qed.

(** With the durable tier not answering, scopes.py works on its two maps. *)
Lemma store_oauth_state_unavailable (w : World) (state : string)
    (session_id cid csecret : option string) :
  available w = false ->
  scopes.store_oauth_state state session_id cid csecret w
  = (Ret tt, remembered state session_id cid csecret (tried w)).
Proof.
  intros Ha. unfold scopes.store_oauth_state, tried.
  rewrite (bind_eq _ _ w w (Ret (_redis_available (outside w)))) by reflexivity.
  destruct (_redis_available (outside w)).
  - rewrite (bind_eq _ _ w (connected w) (Ret false)).
    + unfold remembered. destruct session_id as [sid |]; [| reflexivity].
      destruct (truthy (Some sid)); reflexivity.
    + unfold try_except.
      rewrite (bind_eq _ _ _ _ _ (get_redis_store_eq w)).
      rewrite store_oauth_state_redis_eq. unfold durable_write. by rewrite Ha.
  - rewrite (bind_eq _ _ w w (Ret false)) by reflexivity.
    unfold remembered. destruct session_id as [sid |]; [| reflexivity].
    destruct (truthy (Some sid)); reflexivity.
Qed.

Lemma get_oauth_state_unavailable (w : World) (state : string) :
  available w = false ->
  scopes.get_oauth_state state w
  = (Ret (popped state (tried w)).1, (popped state (tried w)).2).
Proof.
  intros Ha. unfold scopes.get_oauth_state, tried.
  rewrite (bind_eq _ _ w w (Ret (_redis_available (outside w)))) by reflexivity.
  assert (Hpop : forall w' : World,
    (state_info <- gets (fun w => OAUTH_STATE_TO_SESSION_INFO_MAP w !! state) ;;
     modify (fun w => set_info_map (delete state (OAUTH_STATE_TO_SESSION_INFO_MAP w)) w) ;;
     match state_info with
     | Some info => ret (Some info)
     | None =>
         session_id <- gets (fun w => OAUTH_STATE_TO_SESSION_ID_MAP w !! state) ;;
         modify (fun w => set_id_map (delete state (OAUTH_STATE_TO_SESSION_ID_MAP w)) w) ;;
         if truthy session_id then ret (Some (mk_state_info session_id None None))
         else ret None
     end) w' = (Ret (popped state w').1, (popped state w').2)).
  { intros w'. unfold popped, bind, gets, modify, ret.
    destruct (OAUTH_STATE_TO_SESSION_INFO_MAP w' !! state); [reflexivity |].
    cbn [OAUTH_STATE_TO_SESSION_ID_MAP set_info_map fst snd].
    destruct (truthy (OAUTH_STATE_TO_SESSION_ID_MAP w' !! state)); reflexivity. }
  destruct (_redis_available (outside w)).
  - rewrite (bind_eq _ _ w (connected w) (Ret None)); [apply Hpop |].
    unfold try_except.
    rewrite (bind_eq _ _ _ _ _ (get_redis_store_eq w)).
    rewrite (bind_eq _ _ _ _ _ (get_oauth_state_redis_eq w state)).
    unfold durable_get. by rewrite Ha.
  - rewrite (bind_eq _ _ w w (Ret None)) by reflexivity. apply Hpop.
Qed.

Lemma available_tried w : available (tried w) = available w.
Proof. unfold tried. destruct (_redis_available _); [apply available_connected | done]. Qed.

(** In the in-memory tier every token stored with a session identifier is
    resolved twice, whatever the token and the tenant. *)
Lemma oauth_state_memory_twice (w : World) (state sid : string)
    (cid csecret : option string) :
  available w = false ->
  sid <> "" ->
  let stored := scopes.store_oauth_state state (Some sid) cid csecret w in
  let first := scopes.get_oauth_state state stored.2 in
  let second := scopes.get_oauth_state state first.2 in
  stored.1 = Ret tt
  /\ first.1 = Ret (Some (mk_state_info (Some sid) cid csecret))
  /\ second.1 = Ret (Some (mk_state_info (Some sid) None None)).
Proof.
  intros Ha Hsid stored first second.
  assert (Ht : truthy (Some sid) = true).
  { cbn. by destruct (String.eqb_spec sid ""). }
  subst stored first second.
  rewrite (store_oauth_state_unavailable _ _ _ _ _ Ha). cbn [fst snd].
  split; [done |].
  set (w1 := remembered state (Some sid) cid csecret (tried w)).
  assert (Ha1 : available w1 = false).
  { subst w1. unfold remembered. rewrite Ht.
    change (available (set_id_map ?m (set_info_map ?m' (tried w))))
      with (available (tried w)).
    by rewrite available_tried. }
  rewrite (get_oauth_state_unavailable _ _ Ha1). cbn [fst snd].
  assert (Hinfo1 : OAUTH_STATE_TO_SESSION_INFO_MAP (tried w1) !! state
                   = Some (mk_state_info (Some sid) cid csecret)).
  { assert (Hm : OAUTH_STATE_TO_SESSION_INFO_MAP (tried w1)
                 = OAUTH_STATE_TO_SESSION_INFO_MAP w1).
    { unfold tried. destruct (_redis_available _); [| done]. by destruct w1. }
    rewrite Hm. subst w1. unfold remembered. rewrite Ht.
    cbn [OAUTH_STATE_TO_SESSION_INFO_MAP set_id_map set_info_map].
    apply lookup_insert_eq. }
  assert (Hid1 : OAUTH_STATE_TO_SESSION_ID_MAP (tried w1) !! state = Some sid).
  { assert (Hm : OAUTH_STATE_TO_SESSION_ID_MAP (tried w1)
                 = OAUTH_STATE_TO_SESSION_ID_MAP w1).
    { unfold tried. destruct (_redis_available _); [| done]. by destruct w1. }
    rewrite Hm. subst w1. unfold remembered. rewrite Ht.
    cbn [OAUTH_STATE_TO_SESSION_ID_MAP set_id_map set_info_map].
    apply lookup_insert_eq. }
  unfold popped at 1. rewrite Hinfo1. cbn [fst]. split; [done |].
  set (w2 := (popped state (tried w1)).2).
  assert (Hw2 : w2 = set_info_map
                       (delete state (OAUTH_STATE_TO_SESSION_INFO_MAP (tried w1)))
                       (tried w1)).
  { subst w2. unfold popped. by rewrite Hinfo1. }
  assert (Ha2 : available w2 = false).
  { rewrite Hw2. change (available (set_info_map ?m (tried w1))) with (available (tried w1)).
    by rewrite available_tried. }
  rewrite (get_oauth_state_unavailable _ _ Ha2). cbn [fst].
  assert (Hinfo2 : OAUTH_STATE_TO_SESSION_INFO_MAP (tried w2) !! state = None).
  { assert (Hm : OAUTH_STATE_TO_SESSION_INFO_MAP (tried w2)
                 = OAUTH_STATE_TO_SESSION_INFO_MAP w2).
    { unfold tried. destruct (_redis_available _); [| done]. by destruct w2. }
    rewrite Hm, Hw2. cbn [OAUTH_STATE_TO_SESSION_INFO_MAP set_info_map].
    apply lookup_delete_eq. }
  assert (Hid2 : OAUTH_STATE_TO_SESSION_ID_MAP (tried w2) !! state = Some sid).
  { assert (Hm : OAUTH_STATE_TO_SESSION_ID_MAP (tried w2)
                 = OAUTH_STATE_TO_SESSION_ID_MAP w2).
    { unfold tried. destruct (_redis_available _); [| done]. by destruct w2. }
    rewrite Hm, Hw2. exact Hid1. }
  unfold popped. rewrite Hinfo2, Hid2. cbn [fst]. by rewrite Ht.
Qed.

(** ** The durable tier after a failed connection *)

(** A store object whose [enabled] flag is off is left as it is by the
    [client] property: the flag is never set again. *)
Lemma client_keeps_disabled (w : World) (s : RedisStateStore) :
  _redis_store w = Some s -> enabled s = false ->
  (client w).2 = w /\ (client w).1 = Ret (_client s).
Proof.
  intros Hs He. rewrite (client_eq _ _ Hs).
  destruct w as [o db st im idm sc h], s as [c en]. cbn in *. subst.
  unfold connect, client_result. cbn. by rewrite andb_false_r.
Qed.

(** The first use with the server down leaves a store object that is
    switched off and still holds the client built before the [ping]. *)
Lemma first_use_with_server_down (w : World) (state : string)
    (session_id cid csecret : option string) :
  _redis_store w = None ->
  redis_up (outside w) = false ->
  (get_redis_store ;;
   redis_state_store.store_oauth_state state session_id cid csecret) w
  = (Ret false, set_redis_store (Some (mk_store (Some from_url) false)) w).
Proof.
  intros Hs Hup.
  rewrite (bind_eq _ _ _ _ _ (get_redis_store_eq w)).
  rewrite store_oauth_state_redis_eq.
  unfold durable_write, available, connected, the_store. rewrite Hs, Hup. reflexivity.
Qed.

(** Such a store object sends every command: with the server up, a write
    through it succeeds and reaches the server. *)
Lemma disabled_store_sends_commands (w : World) (state : string)
    (session_id cid csecret : option string) :
  _redis_store w = Some (mk_store (Some from_url) false) ->
  redis_up (outside w) = true ->
  exists w' : World,
    redis_state_store.store_oauth_state state session_id cid csecret w = (Ret true, w')
    /\ is_Some (redis_db w' !! oauth_state_key state)
    /\ _redis_store w' = Some (mk_store (Some from_url) false).
Proof.
  intros Hs Hup.
  assert (Hw : set_redis_store (Some (the_store w)) w = w).
  { unfold the_store. rewrite Hs. destruct w; cbn in *; by subst. }
  pose proof (store_oauth_state_redis_eq w state session_id cid csecret) as Heq.
  rewrite Hw in Heq.
  assert (Ha : available w = true).
  { unfold available, the_store. by rewrite Hs, Hup. }
  rewrite Ha in Heq. eexists. split; [exact Heq |].
  unfold durable_write. rewrite Ha. cbn [redis_db set_redis_db]. split.
  - rewrite lookup_insert_eq. by eexists.
  - unfold connected, the_store. rewrite Hs, Hup. by destruct w.
Qed.

(** C9 fails.  The first use finds the server down: the method answers
    [False] and the flag is switched off, but the client object built just
    before the failed [ping] stays in [_client].  From then on the property
    hands out that client, so every call sends its command: once the
    server can be reached again the store and the read succeed, in the same
    process. *)
Theorem C9_disabled_store_answers_again :
  let w := example_world false rejecting [] in
  let first := (get_redis_store ;;
                redis_state_store.store_oauth_state "state-1" (Some "s1") None None) w in
  let back := set_redis_up true first.2 in
  let second := redis_state_store.store_oauth_state "state-1" (Some "s1") None None back in
  let third := redis_state_store.get_oauth_state "state-1" second.2 in
  first.1 = Ret false
  /\ _redis_store first.2 = Some (mk_store (Some from_url) false)
  /\ second.1 = Ret true
  /\ _redis_store second.2 = Some (mk_store (Some from_url) false)
  /\ third.1 = Ret (Some (JObj [("session_id", JStr "s1"); ("client_id", JNull);
                                ("client_secret", JNull)])).
Proof. vm_compute. repeat split; reflexivity. Qed.

(** * Further properties of the code *)

(** ** The durable tier fails soft *)

Lemma delete_user_credentials_eq (w : World) email cid :
  delete_user_credentials email cid (set_redis_store (Some (the_store w)) w) =
  (Ret (negb (is_None (durable_get w (user_creds_key cid email)))),
   if available w then
     set_redis_db (delete (user_creds_key cid email) (redis_db w)) (connected w)
   else connected w).
Proof.
  unfold durable_get.
  world_cases w; destruct up; try reflexivity; simpl;
    destruct (db_get ck db (user_creds_key cid email)) as [v|] eqn:E;
    py_unfold; simpl; rewrite ?E; reflexivity.
Qed.

Lemma delete_session_credentials_eq (w : World) sid :
  delete_session_credentials sid (set_redis_store (Some (the_store w)) w) =
  (Ret (negb (is_None (durable_get w (session_creds_key sid)))),
   if available w then
     set_redis_db (delete (session_creds_key sid) (redis_db w)) (connected w)
   else connected w).
Proof.
  unfold durable_get.
  world_cases w; destruct up; try reflexivity; simpl;
    destruct (db_get ck db (session_creds_key sid)) as [v|] eqn:E;
    py_unfold; simpl; rewrite ?E; reflexivity.
Qed.

Lemma store_present (w : World) (s : RedisStateStore) :
  _redis_store w = Some s -> set_redis_store (Some (the_store w)) w = w.
Proof. intros H. unfold the_store. rewrite H. destruct w; cbn in *; by subst. Qed.

Lemma store_with_ttl_returns (w : World) (key : string) (v : text) (t : Z) :
  is_Some (_redis_store w) ->
  exists b : bool,
    (c <- client ;;
     if is_None c then ret false
     else try_except (via_client (redis_setex key t v) ;; ret true)
            except_RedisError (fun _ => ret false)) w
    = (Ret b, if b then set_redis_db (<[key := (v, clock (outside w) + seconds t)]> (redis_db w))
                          (connected w)
              else connected w)
    /\ b = available w.
Proof.
  intros [s Hs]. exists (available w).
  unfold connected, available, the_store. rewrite Hs. cbn [default from_option id].
  destruct w as [[ck up av mode ls te ui] db st im idm sc h]. cbn in Hs. subst st.
  destruct s as [[[]|] []], up; split; reflexivity.
Qed.

Lemma settled_present (w : World) :
  settled w = true -> exists s : RedisStateStore, _redis_store w = Some s.
Proof. unfold settled. destruct (_redis_store w) as [s |]; [by exists s | done]. Qed.

Lemma connected_settled (w : World) : settled w = true -> connected w = w.
Proof.
  unfold settled, connected, the_store, connect.
  destruct w as [o db [s |] im idm sc h]; [| done].
  cbn [_redis_store outside default from_option id]. intros H.
  apply negb_true_iff in H. by rewrite H.
Qed.

(** X1.  The methods of a store object that builds no client, because it
    holds one or has been switched off, fail soft.  The three stores and
    the two deletes return a truth value, whatever the server holds and
    whether or not it can be reached.  When it cannot be reached, each of
    the eight methods answers [False] or [None], and the process and the
    server are left as they were. *)
Theorem X1_store_methods_fail_soft (w : World) (state session_id user_email cid : string)
    (o_session o_cid o_secret : option string) (v : text) (ttl : option Z) :
  settled w = true ->
  (exists b, (redis_state_store.store_oauth_state state o_session o_cid o_secret w).1 = Ret b)
  /\ (exists b, (store_session_credentials session_id v ttl w).1 = Ret b)
  /\ (exists b, (delete_session_credentials session_id w).1 = Ret b)
  /\ (exists b, (store_user_credentials user_email cid v ttl w).1 = Ret b)
  /\ (exists b, (delete_user_credentials user_email cid w).1 = Ret b)
  /\ (redis_up (outside w) = false ->
      redis_state_store.store_oauth_state state o_session o_cid o_secret w = (Ret false, w)
      /\ redis_state_store.get_oauth_state state w = (Ret None, w)
      /\ store_session_credentials session_id v ttl w = (Ret false, w)
      /\ get_session_credentials session_id w = (Ret None, w)
      /\ delete_session_credentials session_id w = (Ret false, w)
      /\ store_user_credentials user_email cid v ttl w = (Ret false, w)
      /\ get_user_credentials user_email cid w = (Ret None, w)
      /\ delete_user_credentials user_email cid w = (Ret false, w)).
Proof.
  intros Hsettled. destruct (settled_present w Hsettled) as [s Hs].
  pose proof (connected_settled w Hsettled) as Hc.
  pose proof (store_present w s Hs) as Hw.
  pose proof (store_oauth_state_redis_eq w state o_session o_cid o_secret) as H1.
  pose proof (get_oauth_state_redis_eq w state) as H2.
  pose proof (get_session_credentials_eq w session_id) as H4.
  pose proof (delete_session_credentials_eq w session_id) as H5.
  pose proof (get_user_credentials_eq w user_email cid) as H7.
  pose proof (delete_user_credentials_eq w user_email cid) as H8.
  rewrite Hw in H1, H2, H4, H5, H7, H8.
  destruct (store_with_ttl_returns w (session_creds_key session_id) v (ttl_or ttl 1800)
              (ex_intro _ s Hs)) as (b3 & H3 & Hb3).
  destruct (store_with_ttl_returns w (user_creds_key cid user_email) v (ttl_or ttl 604800)
              (ex_intro _ s Hs)) as (b6 & H6 & Hb6).
  change (store_session_credentials session_id v ttl w = (Ret b3,
            if b3 then set_redis_db
                         (<[session_creds_key session_id :=
                              (v, clock (outside w) + seconds (ttl_or ttl 1800))]> (redis_db w))
                         (connected w)
            else connected w)) in H3.
  change (store_user_credentials user_email cid v ttl w = (Ret b6,
            if b6 then set_redis_db
                         (<[user_creds_key cid user_email :=
                              (v, clock (outside w) + seconds (ttl_or ttl 604800))]> (redis_db w))
                         (connected w)
            else connected w)) in H6.
  split_and!.
  - rewrite H1. by eexists.
  - rewrite H3. by eexists.
  - rewrite H5. by eexists.
  - rewrite H6. by eexists.
  - rewrite H8. by eexists.
  - intros H. pose proof (unavailable_down w H) as Ha. split_and!.
    + rewrite H1. unfold durable_write. by rewrite Ha, Hc.
    + rewrite H2. unfold durable_get. by rewrite Ha, Hc.
    + rewrite H3, Hb3. by rewrite Ha, Hc.
    + rewrite H4. unfold durable_get, durable_read. by rewrite Ha, Hc.
    + rewrite H5. unfold durable_get. by rewrite Ha, Hc.
    + rewrite H6, Hb6. by rewrite Ha, Hc.
    + rewrite H7. unfold durable_get, durable_read. by rewrite Ha, Hc.
    + rewrite H8. unfold durable_get. by rewrite Ha, Hc.
Qed.

Lemma X1_store_methods_fail_soft_witness :
  let down := connected_world false rejecting [] in
  let up := connected_world true rejecting [] in
  store_user_credentials "a@example.com" "tenant-1" (Document JNull) None down
  = (Ret false, down)
  /\ get_user_credentials "a@example.com" "tenant-1" down = (Ret None, down)
  /\ (exists b, (redis_state_store.store_oauth_state "state-1" (Some "s1") None None up).1
                = Ret b).
Proof.
  intros down up.
  destruct (X1_store_methods_fail_soft down "state-1" "s1" "a@example.com"
              "tenant-1" (Some "s1") None None (Document JNull) None eq_refl)
    as (_ & _ & _ & _ & _ & Hdown).
  destruct (X1_store_methods_fail_soft up "state-1" "s1" "a@example.com"
              "tenant-1" (Some "s1") None None (Document JNull) None eq_refl)
    as (H1 & _).
  destruct (Hdown eq_refl) as (_ & _ & _ & _ & _ & H6 & H7 & _).
  split; [exact H6 |]. split; [exact H7 | exact H1].
Defined.

(** ** Sliding expiration *)

Lemma observe_Some (l : loc) (w : World) (c : Credentials) :
  heap w !! l = Some c -> observe (Ret (Some l), w) = Ret (Some c).
Proof.
  intros H. unfold observe. cbn [fst snd]. by rewrite (list_lookup_total_correct _ _ _ H).
Qed.

(** One read of a live entry written by this program: the text is read,
    decoded into a new object, and the entry leaves with a full lifetime. *)
Lemma read_step (w : World) (key : string) (ttl d : Z) (c : Credentials) :
  available w = true ->
  redis_db w !! key = Some (Document (creds_data_of c), clock (outside w) + seconds ttl) ->
  0 <= d < seconds ttl ->
  expiry_ok c ->
  let wa := advance d w in
  let p := decoded (Document (creds_data_of c)) (durable_read wa key ttl) in
  durable_get wa key = Some (Document (creds_data_of c))
  /\ p.1 = Ret (Some (List.length (heap w)))
  /\ heap p.2 = (heap w ++ [c])%list
  /\ available p.2 = true
  /\ redis_db p.2 !! key
     = Some (Document (creds_data_of c), clock (outside p.2) + seconds ttl)
  /\ _SESSION_CREDENTIALS_CACHE p.2 = _SESSION_CREDENTIALS_CACHE w.
Proof.
  intros Ha Hdb Hd Hok wa p.
  assert (Haa : available wa = true) by exact Ha.
  assert (Hget : db_get (clock (outside wa)) (redis_db wa) key
                 = Some (Document (creds_data_of c))).
  { unfold db_get. subst wa. cbn [advance set_outside redis_db outside clock].
    rewrite Hdb. destruct (Z.ltb_spec (clock (outside w) + d)
                             (clock (outside w) + seconds ttl)); [done | lia]. }
  assert (Hread : durable_read wa key ttl
                  = set_redis_db
                      (<[key := (Document (creds_data_of c),
                                 clock (outside wa) + seconds ttl)]> (redis_db wa))
                      (connected wa)).
  { unfold durable_read, touch. by rewrite Haa, Hget. }
  subst p. rewrite Hread, decoded_creds_data by done. cbn [fst snd].
  split_and!.
  - unfold durable_get. by rewrite Haa.
  - subst wa. by destruct w.
  - subst wa. by destruct w.
  - change (available (connected wa) = true). by rewrite available_connected.
  - cbn [redis_db set_heap set_redis_db]. rewrite lookup_insert_eq.
    subst wa. by destruct w.
  - subst wa. by destruct w.
Qed.

Lemma loads_after_identity (w : World) (email : string) (c : Credentials)
    (gaps : list Z) :
  truthy (client_id c) = true ->
  expiry_ok c ->
  available w = true ->
  redis_db w !! user_creds_key (the_str (client_id c)) email
  = Some (Document (creds_data_of c), clock (outside w) + seconds 604800) ->
  Forall (fun d => 0 <= d < seconds 604800) gaps ->
  Forall (fun r => r = Ret (Some c))
    (loads_after (load_credentials_from_file email (client_id c)) gaps w).
Proof.
  intros Hc Hok. revert w.
  induction gaps as [| d gaps IH]; intros w Ha Hdb Hgaps; [constructor |].
  inversion Hgaps as [| ? ? Hd Hrest]; subst.
  cbn [loads_after].
  destruct (read_step w _ 604800 d c Ha Hdb Hd Hok)
    as (Hget & Hres & Hheap & Ha' & Hdb' & _).
  rewrite load_credentials_from_file_eq by done. cbv zeta.
  rewrite Hget. cbn [truthy_text].
  set (p := decoded _ _) in *.
  constructor.
  - destruct p as [r w']. cbn [fst snd] in *. subst r.
    apply observe_Some. rewrite Hheap. by apply list_lookup_middle.
  - apply IH; assumption.
Qed.

Lemma loads_after_session (w : World) (sid : string) (c : Credentials)
    (gaps : list Z) :
  expiry_ok c ->
  available w = true ->
  redis_db w !! session_creds_key sid
  = Some (Document (creds_data_of c), clock (outside w) + seconds 1800) ->
  Forall (fun d => 0 <= d < seconds 1800) gaps ->
  Forall (fun r => r = Ret (Some c))
    (loads_after (load_credentials_from_session sid) gaps w).
Proof.
  intros Hok. revert w.
  induction gaps as [| d gaps IH]; intros w Ha Hdb Hgaps; [constructor |].
  inversion Hgaps as [| ? ? Hd Hrest]; subst.
  cbn [loads_after].
  destruct (read_step w _ 1800 d c Ha Hdb Hd Hok)
    as (Hget & Hres & Hheap & Ha' & Hdb' & _).
  rewrite load_credentials_from_session_eq. cbv zeta.
  rewrite Hget. cbn [truthy_text].
  set (p := decoded _ _) in *.
  destruct p as [r w'] eqn:Hp. cbn [fst snd] in *. subst r.
  constructor.
  - apply observe_Some. rewrite Hheap. by apply list_lookup_middle.
  - apply IH; assumption.
Qed.

(** X2.  Sliding expiration.  A credential saved while the durable tier
    answers stays loadable for as long as it keeps being loaded: if each
    load comes less than the lifetime of the entry after the one before
    (seven days identity-scoped, thirty minutes session-scoped), every load
    hands back the credential, however much time has passed in all. *)
Theorem X2_sliding_expiration (w : World) (user_google_email session_id : string)
    (l : loc) (c : Credentials) (gaps : list Z) :
  heap w !! l = Some c ->
  expiry_ok c ->
  available w = true ->
  (truthy (client_id c) = true ->
   Forall (fun d => 0 <= d < seconds 604800) gaps ->
   Forall (fun r => r = Ret (Some c))
     (loads_after (load_credentials_from_file user_google_email (client_id c)) gaps
        (save_credentials_to_file user_google_email l w).2))
  /\ (Forall (fun d => 0 <= d < seconds 1800) gaps ->
      Forall (fun r => r = Ret (Some c))
        (loads_after (load_credentials_from_session session_id) gaps
           (save_credentials_to_session session_id l w).2)).
Proof.
  intros Hl Hok Ha. split.
  - intros Hc Hgaps.
    rewrite (save_credentials_to_file_eq _ _ _ _ Hl Hc). cbn [snd].
    apply loads_after_identity; try done.
    + by rewrite available_durable_write.
    + unfold durable_write. rewrite Ha. cbn [redis_db set_redis_db].
      rewrite lookup_insert_eq. by destruct w.
  - intros Hgaps.
    rewrite (save_credentials_to_session_eq _ _ _ _ Hl), Ha. cbn [snd].
    apply loads_after_session; try done.
    + by rewrite available_durable_write.
    + unfold durable_write. rewrite Ha. cbn [redis_db set_redis_db].
      rewrite lookup_insert_eq. by destruct w.
Qed.

(** Three loads, six days apart each: eighteen days after the save the
    credential is still handed back. *)
Lemma X2_sliding_expiration_witness :
  Forall (fun r => r = Ret (Some example_credentials))
    (loads_after (load_credentials_from_file "a@example.com" (Some "tenant-1"))
       [seconds 518400; seconds 518400; seconds 518400]
       (save_credentials_to_file "a@example.com" 0%nat
          (example_world true rejecting [example_credentials])).2).
Proof.
  apply (proj1 (X2_sliding_expiration
                  (example_world true rejecting [example_credentials])
                  "a@example.com" "s1" 0%nat example_credentials
                  [seconds 518400; seconds 518400; seconds 518400]
                  eq_refl
                  ltac:(intros e He; injection He as <-; reflexivity)
                  eq_refl)).
  - reflexivity.
  - repeat constructor; unfold seconds; lia.
Defined.

(** ** Deleting entries *)

Lemma available_set_redis_db db w : available (set_redis_db db w) = available w.
Proof. by destruct w. Qed.

Lemma the_store_connected w :
  set_redis_store (Some (the_store (connected w))) (connected w) = connected w.
Proof. by destruct w. Qed.

Lemma deleted_world_store (w : World) (db : gmap string (text * Z)) :
  set_redis_store (Some (the_store (set_redis_db db (connected w))))
    (set_redis_db db (connected w)) = set_redis_db db (connected w).
Proof. by destruct w. Qed.

(** X3.  [delete_user_credentials], with the durable tier answering:
    it answers [True] exactly when a live entry was there; after it the
    entry of this user and tenant is gone (a read answers [None], a load
    answers [None], a second delete answers [False]); every other key of
    the store is left as it was. *)
Theorem X3_delete_user_credentials (w : World) (user_email cid : string) :
  is_Some (_redis_store w) ->
  available w = true ->
  let key := user_creds_key cid user_email in
  let p := delete_user_credentials user_email cid w in
  p.1 = Ret (negb (is_None (db_get (clock (outside w)) (redis_db w) key)))
  /\ (get_user_credentials user_email cid p.2).1 = Ret None
  /\ (load_credentials_from_file user_email (Some cid) p.2).1 = Ret None
  /\ (delete_user_credentials user_email cid p.2).1 = Ret false
  /\ (forall k : string, k <> key -> redis_db p.2 !! k = redis_db w !! k)
  /\ outside p.2 = outside w.
Proof.
  intros [s Hs] Ha key p.
  assert (Hp : p = (Ret (negb (is_None (durable_get w key))),
                    set_redis_db (delete key (redis_db w)) (connected w))).
  { subst p. rewrite <- (store_present w s Hs) at 1.
    rewrite delete_user_credentials_eq. by rewrite Ha. }
  rewrite Hp. cbn [fst snd].
  set (w1 := set_redis_db (delete key (redis_db w)) (connected w)).
  assert (Ha1 : available w1 = true).
  { subst w1. by rewrite available_set_redis_db, available_connected. }
  assert (Hst : set_redis_store (Some (the_store w1)) w1 = w1)
    by apply deleted_world_store.
  assert (Hget : durable_get w1 key = None).
  { unfold durable_get. rewrite Ha1. unfold db_get. subst w1.
    cbn [redis_db set_redis_db]. by rewrite lookup_delete_eq. }
  split_and!.
  - unfold durable_get. by rewrite Ha.
  - rewrite <- Hst at 1. rewrite get_user_credentials_eq. fold key. by rewrite Hget.
  - destruct (truthy (Some cid)) eqn:Hc.
    + rewrite load_credentials_from_file_eq by done. cbv zeta.
      cbn [the_str default from_option id]. fold key. by rewrite Hget.
    + by rewrite load_credentials_from_file_none.
  - rewrite <- Hst at 1. rewrite delete_user_credentials_eq. fold key.
    by rewrite Hget.
  - intros k Hk. subst w1. cbn [redis_db set_redis_db].
    rewrite lookup_delete_ne by done. by destruct w.
  - subst w1. by destruct w.
Qed.

Lemma X3_delete_user_credentials_witness :
  let w := (save_credentials_to_file "a@example.com" 0%nat
              (example_world true rejecting [example_credentials])).2 in
  let p := delete_user_credentials "a@example.com" "tenant-1" w in
  p.1 = Ret true
  /\ (load_credentials_from_file "a@example.com" (Some "tenant-1") p.2).1 = Ret None
  /\ (delete_user_credentials "a@example.com" "tenant-1" p.2).1 = Ret false.
Proof.
  intros w p.
  destruct (X3_delete_user_credentials w "a@example.com" "tenant-1")
    as (H1 & _ & H3 & H4 & _); [by eexists | reflexivity |].
  split; [exact H1 |]. split; [exact H3 | exact H4].
Defined.

(** ** The in-memory cache of the sessions *)

Lemma cache_connected w :
  _SESSION_CREDENTIALS_CACHE (connected w) = _SESSION_CREDENTIALS_CACHE w.
Proof. by destruct w. Qed.

Lemma cache_durable_read w key ttl :
  _SESSION_CREDENTIALS_CACHE (durable_read w key ttl) = _SESSION_CREDENTIALS_CACHE w.
Proof. unfold durable_read. destruct (available w); by destruct w. Qed.

Lemma cache_durable_write w key v ttl :
  _SESSION_CREDENTIALS_CACHE (durable_write w key v ttl) = _SESSION_CREDENTIALS_CACHE w.
Proof. unfold durable_write. destruct (available w); by destruct w. Qed.

Lemma durable_get_expired (w : World) key v ttl d :
  seconds ttl <= d ->
  durable_get (advance d (durable_write w key v ttl)) key = None.
Proof.
  intros Hd. unfold durable_get, durable_write.
  destruct (available w) eqn:Ha.
  - change (available (advance d ?x)) with (available x).
    rewrite available_set_redis_db, available_connected, Ha.
    unfold db_get.
    replace (redis_db (advance d (set_redis_db
               (<[key := (v, clock (outside w) + seconds ttl)]> (redis_db w))
               (connected w))))
      with (<[key := (v, clock (outside w) + seconds ttl)]> (redis_db w))
      by (by destruct w).
    rewrite lookup_insert_eq.
    replace (clock (outside (advance d (set_redis_db
               (<[key := (v, clock (outside w) + seconds ttl)]> (redis_db w))
               (connected w)))))
      with (clock (outside w) + d) by (by destruct w as [[] ? ? ? ? ? ?]).
    destruct (Z.ltb_spec (clock (outside w) + d) (clock (outside w) + seconds ttl));
      [lia | done].
  - change (available (advance d (connected w))) with (available (connected w)).
    by rewrite available_connected, Ha.
Qed.

(** X4.  Nothing invalidates the in-memory cache of a session.  When the
    cache holds an object for a session, [delete_session_credentials]
    leaves it there and the session still loads that object; and when
    newer credentials of the session are then saved in the durable tier,
    loads hand back the newer ones for thirty minutes after the last load
    and the old cached object again once the durable entry has expired. *)
Theorem X4_session_cache_is_never_invalidated (w : World) (session_id : string)
    (old : loc) (c_old : Credentials) :
  is_Some (_redis_store w) ->
  _SESSION_CREDENTIALS_CACHE w !! session_id = Some old ->
  heap w !! old = Some c_old ->
  (let p := delete_session_credentials session_id w in
   _SESSION_CREDENTIALS_CACHE p.2 = _SESSION_CREDENTIALS_CACHE w
   /\ (load_credentials_from_session session_id p.2).1 = Ret (Some old))
  /\ (forall (l : loc) (c : Credentials),
        heap w !! l = Some c ->
        expiry_ok c ->
        available w = true ->
        let saved := (save_credentials_to_session session_id l w).2 in
        (forall d : Z, 0 <= d < seconds 1800 ->
           observe (load_credentials_from_session session_id (advance d saved))
           = Ret (Some c)
           /\ (load_credentials_from_session session_id (advance d saved)).1
              <> Ret (Some old))
        /\ (forall d : Z, seconds 1800 <= d ->
              (load_credentials_from_session session_id (advance d saved)).1
              = Ret (Some old))).
Proof.
  intros [s Hs] Hcache Hold. split.
  - cbv zeta.
    assert (Hp : delete_session_credentials session_id w
                 = (Ret (negb (is_None (durable_get w (session_creds_key session_id)))),
                    if available w then
                      set_redis_db (delete (session_creds_key session_id) (redis_db w))
                        (connected w)
                    else connected w)).
    { rewrite <- (store_present w s Hs) at 1. apply delete_session_credentials_eq. }
    rewrite Hp. cbn [snd].
    set (w1 := if available w then _ else _).
    assert (Hc1 : _SESSION_CREDENTIALS_CACHE w1 = _SESSION_CREDENTIALS_CACHE w).
    { subst w1. destruct (available w); by destruct w. }
    split; [exact Hc1 |].
    assert (Hget : durable_get w1 (session_creds_key session_id) = None).
    { unfold durable_get. subst w1. destruct (available w) eqn:Ha.
      - rewrite available_set_redis_db, available_connected, Ha.
        unfold db_get. cbn [redis_db set_redis_db]. by rewrite lookup_delete_eq.
      - by rewrite available_connected, Ha. }
    rewrite load_credentials_from_session_eq. cbv zeta. rewrite Hget. cbn [fst].
    by rewrite cache_durable_read, Hc1, Hcache.
  - intros l c Hl Hok Ha saved.
    assert (Hsaved : saved = durable_write w (session_creds_key session_id)
                               (Document (creds_data_of c)) 1800).
    { subst saved. by rewrite (save_credentials_to_session_eq _ _ _ _ Hl), Ha. }
    assert (Hlt : (old < List.length (heap w))%nat)
      by (apply lookup_lt_is_Some; by eexists).
    split.
    + intros d Hd.
      rewrite load_credentials_from_session_eq. cbv zeta.
      rewrite Hsaved, durable_get_later_write by done. cbn [truthy_text].
      rewrite decoded_creds_data by done.
      split.
      * apply observe_Some. cbn [snd heap set_heap].
        replace (heap (durable_read _ _ _)) with (heap w).
        { by apply list_lookup_middle. }
        rewrite heap_durable_read. change (heap (advance d ?x)) with (heap x).
        by rewrite heap_durable_write.
      * cbn [fst]. intros E. injection E as E.
        rewrite heap_durable_read in E. change (heap (advance d ?x)) with (heap x) in E.
        rewrite heap_durable_write in E.
        lia.
    + intros d Hd.
      rewrite load_credentials_from_session_eq. cbv zeta.
      rewrite Hsaved, durable_get_expired by done. cbn [fst].
      rewrite cache_durable_read.
      change (_SESSION_CREDENTIALS_CACHE (advance d ?x)) with (_SESSION_CREDENTIALS_CACHE x).
      by rewrite cache_durable_write, Hcache.
Qed.

Lemma X4_session_cache_is_never_invalidated_witness :
  let w := started_world true in
  let w0 := set_heap [dead_credentials; example_credentials]
              (set_session_cache {[ "s1" := 0%nat ]} w) in
  let saved := (save_credentials_to_session "s1" 1%nat w0).2 in
  observe (load_credentials_from_session "s1" saved) = Ret (Some example_credentials)
  /\ (load_credentials_from_session "s1" (advance (seconds 1800) saved)).1
     = Ret (Some 0%nat).
Proof.
  intros w w0 saved.
  destruct (X4_session_cache_is_never_invalidated w0 "s1" 0%nat dead_credentials)
    as [_ H]; [by eexists | reflexivity | reflexivity |].
  destruct (H 1%nat example_credentials) as [Hnew Hold];
    [reflexivity | intros e He; injection He as <-; reflexivity | reflexivity |].
  split.
  - apply (Hnew 0). unfold seconds. lia.
  - apply Hold. lia.
Defined.

(** ** The key of an identity-scoped entry *)

Lemma append_assoc (a b c : string) : (a ++ b) ++ c = a ++ b ++ c.
Proof.
  induction a as [| x a IH]; [done |].
  change (String x ((a ++ b) ++ c) = String x (a ++ b ++ c)). by rewrite IH.
Qed.

Lemma user_creds_key_colon (a b c : string) :
  user_creds_key (a ++ ":" ++ b) c = user_creds_key a (b ++ ":" ++ c).
Proof. unfold user_creds_key. by rewrite !append_assoc. Qed.

(** X5.  The key [user_creds:<client_id>:<email>] does not separate its
    two parts: the colon is not escaped.  A credential saved for the user
    [c] under the client identifier [a:b] is what a load for the user
    [b:c] under the client identifier [a] hands back, client identifier
    [a:b] included. *)
Theorem X5_key_joins_its_parts (w : World) (a b c : string) (l : loc)
    (cr : Credentials) :
  a <> "" ->
  heap w !! l = Some cr ->
  client_id cr = Some (a ++ ":" ++ b) ->
  expiry_ok cr ->
  available w = true ->
  Some a <> client_id cr
  /\ observe (load_credentials_from_file (b ++ ":" ++ c) (Some a)
                (save_credentials_to_file c l w).2)
     = Ret (Some cr).
Proof.
  intros Ha Hl Hcid Hok Hav.
  assert (Hta : truthy (Some a) = true) by by apply truthy_Some.
  assert (Htc : truthy (client_id cr) = true).
  { rewrite Hcid. apply truthy_Some. by destruct a. }
  split.
  - rewrite Hcid. intros E. injection E as E.
    apply (f_equal String.length) in E. rewrite !length_append in E. cbn in E. lia.
  - rewrite (save_credentials_to_file_eq _ _ _ _ Hl Htc). cbn [snd].
    rewrite load_credentials_from_file_eq by done. cbv zeta.
    cbn [the_str default from_option id].
    rewrite <- user_creds_key_colon. rewrite Hcid. cbn [the_str default from_option id].
    rewrite durable_get_write_eq by done. cbn [truthy_text].
    rewrite decoded_creds_data by done.
    apply observe_Some. cbn [snd heap set_heap].
    rewrite heap_durable_read, heap_durable_write. by apply list_lookup_middle.
Qed.

Lemma X5_key_joins_its_parts_witness :
  let cr := mk_credentials (Some "ya29.token") None None (Some "tenant:x") None None None in
  observe (load_credentials_from_file "x:a@example.com" (Some "tenant")
             (save_credentials_to_file "a@example.com" 0%nat
                (example_world true rejecting [cr])).2)
  = Ret (Some cr).
Proof.
  intros cr.
  apply (X5_key_joins_its_parts (example_world true rejecting [cr])
           "tenant" "x" "a@example.com" 0%nat cr); try reflexivity; done.
Defined.

(** ** Closing the store *)

Lemma close_eq (w : World) (s : RedisStateStore) :
  _redis_store w = Some s ->
  close w = (Ret tt, set_redis_store (Some (mk_store None (enabled s))) w).
Proof.
  intros Hs. destruct w as [o db st im idm sc h]. cbn in Hs. subst st.
  destruct s as [[[]|] en]; reflexivity.
Qed.

(** A store object without client and with [enabled] off answers every
    method at once, and nothing changes. *)
Lemma closed_store_is_off (w : World) (state session_id user_email cid : string)
    (o_session o_cid o_secret : option string) (v : text) (ttl : option Z) :
  _redis_store w = Some (mk_store None false) ->
  redis_state_store.store_oauth_state state o_session o_cid o_secret w = (Ret false, w)
  /\ redis_state_store.get_oauth_state state w = (Ret None, w)
  /\ store_session_credentials session_id v ttl w = (Ret false, w)
  /\ get_session_credentials session_id w = (Ret None, w)
  /\ delete_session_credentials session_id w = (Ret false, w)
  /\ store_user_credentials user_email cid v ttl w = (Ret false, w)
  /\ get_user_credentials user_email cid w = (Ret None, w)
  /\ delete_user_credentials user_email cid w = (Ret false, w).
Proof.
  intros Hs. destruct w as [o db st im idm sc h]. cbn in Hs. subst st.
  split_and!; reflexivity.
Qed.

(** X8.  [close] drops the client and leaves [enabled] as it is.  So a
    store that a failed first connection has switched off is, once closed,
    off for good: every method answers [False] or [None] and sends nothing,
    server reachable or not.  A store still enabled connects again at the
    next call. *)
Theorem X8_close (w : World) (s : RedisStateStore) :
  _redis_store w = Some s ->
  let closed := (close w).2 in
  (close w).1 = Ret tt
  /\ _redis_store closed = Some (mk_store None (enabled s))
  /\ redis_db closed = redis_db w
  /\ (enabled s = false ->
      forall (up : bool) (user_email cid : string) (v : text) (ttl : option Z),
        let w' := set_redis_up up closed in
        store_user_credentials user_email cid v ttl w' = (Ret false, w')
        /\ get_user_credentials user_email cid w' = (Ret None, w')
        /\ delete_user_credentials user_email cid w' = (Ret false, w'))
  /\ (enabled s = true ->
      forall (user_email cid : string) (v : text),
        let w' := set_redis_up true closed in
        (store_user_credentials user_email cid v None w').1 = Ret true
        /\ (get_user_credentials user_email cid
              (store_user_credentials user_email cid v None w').2).1 = Ret (Some v)).
Proof.
  intros Hs closed. subst closed. rewrite (close_eq w s Hs). cbn [fst snd].
  split_and!; try done.
  - intros Hen up user_email cid v ttl.
    set (w' := set_redis_up up _).
    assert (Hst : _redis_store w' = Some (mk_store None false)).
    { subst w'. rewrite Hen. by destruct w. }
    destruct (closed_store_is_off w' "" "" user_email cid None None None v ttl Hst)
      as (_ & _ & _ & _ & _ & H6 & H7 & H8).
    by rewrite H6, H7, H8.
  - intros Hen user_email cid v.
    set (w' := set_redis_up true _).
    assert (Hst : _redis_store w' = Some (mk_store None true)).
    { subst w'. rewrite Hen. by destruct w. }
    assert (Ha : available w' = true).
    { unfold available, the_store. rewrite Hst. subst w'. by destruct w. }
    rewrite <- (store_present w' _ Hst) at 1 2.
    rewrite store_user_credentials_eq. cbn [fst snd]. split; [by rewrite Ha |].
    set (w2 := durable_write _ _ _ _).
    assert (Hst2 : set_redis_store (Some (the_store w2)) w2 = w2).
    { subst w2. unfold durable_write. rewrite Ha. apply deleted_world_store. }
    rewrite <- Hst2 at 1. rewrite get_user_credentials_eq. cbn [fst].
    subst w2. by rewrite durable_get_write_eq.
Qed.

(** A store whose first connection failed, so that the client was kept
    and [enabled] switched off; then closed. *)
Lemma X8_close_witness :
  let w := set_redis_store (Some (mk_store (Some from_url) false))
             (example_world true rejecting []) in
  let closed := (close w).2 in
  _redis_store closed = Some (mk_store None false)
  /\ store_user_credentials "a@example.com" "tenant-1" (Document JNull) None closed
     = (Ret false, closed).
Proof.
  intros w closed.
  destruct (X8_close w (mk_store (Some from_url) false) eq_refl)
    as (_ & H2 & _ & Hoff & _).
  split; [exact H2 |].
  by destruct (Hoff eq_refl true "a@example.com" "tenant-1" (Document JNull) None)
    as [H _].
Defined.

(** X9.  [close_redis_store] forgets the store object, so the next
    [get_redis_store] builds a new one, enabled and without client: the
    durable tier answers again exactly when the server can be reached,
    whatever the state of the object before, a switched-off one included. *)
Theorem X9_close_redis_store (w : World) :
  let closed := (close_redis_store w).2 in
  (close_redis_store w).1 = Ret tt
  /\ _redis_store closed = None
  /\ redis_db closed = redis_db w
  /\ available closed = redis_up (outside w)
  /\ (get_redis_store closed).2 = set_redis_store (Some __init__) closed
  /\ forall (user_email cid : string) (v : text),
       (get_redis_store ;; store_user_credentials user_email cid v None) closed
       = (Ret (redis_up (outside w)),
          durable_write closed (user_creds_key cid user_email) v 604800).
Proof.
  assert (Hc : close_redis_store w = (Ret tt, set_redis_store None w)).
  { destruct w as [o db [[[[]|] en]|] im idm sc h]; reflexivity. }
  cbv zeta. rewrite Hc. cbn [fst snd].
  assert (Ha : available (set_redis_store None w) = redis_up (outside w)).
  { unfold available, the_store. cbn. by destruct (redis_up (outside w)). }
  split_and!; try done.
  intros user_email cid v.
  rewrite (bind_eq _ _ _ _ _ (get_redis_store_eq _)).
  by rewrite store_user_credentials_eq, Ha.
Qed.

(** ** The two tiers of the correlation tokens *)

Lemma pops_eq (state : string) (w : World) :
  (state_info <- gets (fun w => OAUTH_STATE_TO_SESSION_INFO_MAP w !! state) ;;
   modify (fun w => set_info_map (delete state (OAUTH_STATE_TO_SESSION_INFO_MAP w)) w) ;;
   match state_info with
   | Some info => ret (Some info)
   | None =>
       session_id <- gets (fun w => OAUTH_STATE_TO_SESSION_ID_MAP w !! state) ;;
       modify (fun w => set_id_map (delete state (OAUTH_STATE_TO_SESSION_ID_MAP w)) w) ;;
       if truthy session_id then ret (Some (mk_state_info session_id None None))
       else ret None
   end) w = (Ret (popped state w).1, (popped state w).2).
Proof.
  unfold popped, bind, gets, modify, ret.
  destruct (OAUTH_STATE_TO_SESSION_INFO_MAP w !! state); [reflexivity |].
  cbn [OAUTH_STATE_TO_SESSION_ID_MAP set_info_map fst snd].
  destruct (truthy (OAUTH_STATE_TO_SESSION_ID_MAP w !! state)); reflexivity.
Qed.

(** The durable tier has nothing to say: the two maps answer. *)
Lemma scopes_get_oauth_state_miss (w : World) (state : string) :
  (_redis_available (outside w) = true ->
   durable_get w (oauth_state_key state) = None) ->
  scopes.get_oauth_state state w
  = (Ret (popped state (asked state w)).1, (popped state (asked state w)).2).
Proof.
  intros Hget. unfold scopes.get_oauth_state, asked.
  rewrite (bind_eq _ _ w w (Ret (_redis_available (outside w)))) by reflexivity.
  destruct (_redis_available (outside w)).
  - rewrite (bind_eq _ _ w
               (if available w then
                  set_redis_db (delete (oauth_state_key state) (redis_db w)) (connected w)
                else connected w) (Ret None)); [apply pops_eq |].
    unfold try_except.
    rewrite (bind_eq _ _ _ _ _ (get_redis_store_eq w)).
    rewrite (bind_eq _ _ _ _ _ (get_oauth_state_redis_eq w state)).
    by rewrite Hget.
  - rewrite (bind_eq _ _ w w (Ret None)) by reflexivity. apply pops_eq.
Qed.

(** The durable tier holds the object this program wrote: it is the answer. *)
Lemma scopes_get_oauth_state_hit (w : World) (state : string)
    (session_id cid csecret : option string) :
  _redis_available (outside w) = true ->
  durable_get w (oauth_state_key state)
  = Some (Document (state_data session_id cid csecret)) ->
  scopes.get_oauth_state state w
  = (Ret (Some (mk_state_info session_id cid csecret)),
     set_redis_db (delete (oauth_state_key state) (redis_db w)) (connected w)).
Proof.
  intros Hav Hget.
  assert (Ha : available w = true).
  { unfold durable_get in Hget. by destruct (available w). }
  unfold scopes.get_oauth_state.
  rewrite (bind_eq _ _ w w (Ret true)) by (unfold gets; by rewrite Hav).
  rewrite (bind_eq _ _ w
             (set_redis_db (delete (oauth_state_key state) (redis_db w)) (connected w))
             (Ret (Some (mk_state_info session_id cid csecret)))); [done |].
  apply try_except_ret.
  rewrite (bind_eq _ _ _ _ _ (get_redis_store_eq w)).
  rewrite (bind_eq _ _ _ _ _ (get_oauth_state_redis_eq w state)).
  rewrite Ha, Hget. unfold state_data.
  cbn [truthy_text json_loads truthy_json List.length Nat.eqb negb].
  unfold field.
  cbn [dict_get assoc default from_option id String.eqb Ascii.eqb Bool.eqb].
  rewrite !as_optional_str_str_or_null. reflexivity.
Qed.

Lemma scopes_store_oauth_state_durable (w : World) (state : string)
    (session_id cid csecret : option string) :
  _redis_available (outside w) = true ->
  available w = true ->
  scopes.store_oauth_state state session_id cid csecret w
  = (Ret tt, durable_write w (oauth_state_key state)
               (Document (state_data session_id cid csecret)) 600).
Proof.
  intros Hav Ha. unfold scopes.store_oauth_state.
  rewrite (bind_eq _ _ w w (Ret true)) by (unfold gets; by rewrite Hav).
  rewrite (bind_eq _ _ w
             (durable_write w (oauth_state_key state)
                (Document (state_data session_id cid csecret)) 600) (Ret true)); [done |].
  apply try_except_ret.
  rewrite (bind_eq _ _ _ _ _ (get_redis_store_eq w)).
  rewrite store_oauth_state_redis_eq. by rewrite Ha.
Qed.

Lemma popped_nothing (state : string) (w : World) :
  OAUTH_STATE_TO_SESSION_INFO_MAP w !! state = None ->
  OAUTH_STATE_TO_SESSION_ID_MAP w !! state = None ->
  (popped state w).1 = None.
Proof. intros Hi Hd. unfold popped. by rewrite Hi, Hd. Qed.

Lemma popped_info (state : string) (w : World) (info : OAuthStateInfo) :
  OAUTH_STATE_TO_SESSION_INFO_MAP w !! state = Some info ->
  (popped state w).1 = Some info.
Proof. intros Hi. unfold popped. by rewrite Hi. Qed.

Lemma info_map_asked state w :
  OAUTH_STATE_TO_SESSION_INFO_MAP (asked state w) = OAUTH_STATE_TO_SESSION_INFO_MAP w.
Proof.
  unfold asked. destruct (_redis_available _); [| done].
  destruct (available w); by destruct w.
Qed.

Lemma id_map_asked state w :
  OAUTH_STATE_TO_SESSION_ID_MAP (asked state w) = OAUTH_STATE_TO_SESSION_ID_MAP w.
Proof.
  unfold asked. destruct (_redis_available _); [| done].
  destruct (available w); by destruct w.
Qed.

Lemma info_map_durable_write w key v ttl :
  OAUTH_STATE_TO_SESSION_INFO_MAP (durable_write w key v ttl)
  = OAUTH_STATE_TO_SESSION_INFO_MAP w.
Proof. unfold durable_write. destruct (available w); by destruct w. Qed.

Lemma id_map_durable_write w key v ttl :
  OAUTH_STATE_TO_SESSION_ID_MAP (durable_write w key v ttl)
  = OAUTH_STATE_TO_SESSION_ID_MAP w.
Proof. unfold durable_write. destruct (available w); by destruct w. Qed.

Lemma outside_durable_write w key v ttl : outside (durable_write w key v ttl) = outside w.
Proof. unfold durable_write. destruct (available w); by destruct w. Qed.

(** X6.  The lifetime of a correlation token in the durable tier.  Stored
    while the durable tier answers, with no entry of the same name in the
    two in-memory maps, the token is resolved to the three values stored
    (absent ones come back as [None]) at any moment of the ten minutes that
    follow; from ten minutes on it resolves to [None]; and while the server
    cannot be reached it resolves to [None] as well, the in-memory maps
    having never seen it. *)
Theorem X6_durable_token_lifetime (w : World) (state : string)
    (session_id cid csecret : option string) :
  _redis_available (outside w) = true ->
  available w = true ->
  OAUTH_STATE_TO_SESSION_INFO_MAP w !! state = None ->
  OAUTH_STATE_TO_SESSION_ID_MAP w !! state = None ->
  let stored := (scopes.store_oauth_state state session_id cid csecret w).2 in
  (forall d : Z, 0 <= d < seconds 600 ->
     (scopes.get_oauth_state state (advance d stored)).1
     = Ret (Some (mk_state_info session_id cid csecret)))
  /\ (forall d : Z, seconds 600 <= d ->
        (scopes.get_oauth_state state (advance d stored)).1 = Ret None)
  /\ (scopes.get_oauth_state state (set_redis_up false stored)).1 = Ret None.
Proof.
  intros Hav Ha Hinfo Hid stored.
  assert (Hs : stored = durable_write w (oauth_state_key state)
                          (Document (state_data session_id cid csecret)) 600).
  { subst stored. by rewrite scopes_store_oauth_state_durable. }
  rewrite Hs. clear Hs stored.
  set (w1 := durable_write _ _ _ _).
  assert (Hi1 : OAUTH_STATE_TO_SESSION_INFO_MAP w1 !! state = None)
    by (subst w1; by rewrite info_map_durable_write).
  assert (Hd1 : OAUTH_STATE_TO_SESSION_ID_MAP w1 !! state = None)
    by (subst w1; by rewrite id_map_durable_write).
  assert (Hav1 : _redis_available (outside w1) = true)
    by (subst w1; by rewrite outside_durable_write).
  split_and!.
  - intros d Hd.
    rewrite (scopes_get_oauth_state_hit _ _ session_id cid csecret); [done | | ].
    + by destruct w1 as [[] ? ? ? ? ? ?].
    + subst w1. by apply durable_get_later_write.
  - intros d Hd.
    rewrite scopes_get_oauth_state_miss.
    + cbn [fst]. f_equal. apply popped_nothing.
      * rewrite info_map_asked. by destruct w1 as [[] ? ? ? ? ? ?].
      * rewrite id_map_asked. by destruct w1 as [[] ? ? ? ? ? ?].
    + intros _. subst w1. by apply durable_get_expired.
  - rewrite scopes_get_oauth_state_miss.
    + cbn [fst]. f_equal. apply popped_nothing.
      * rewrite info_map_asked. by destruct w1 as [[] ? ? ? ? ? ?].
      * rewrite id_map_asked. by destruct w1 as [[] ? ? ? ? ? ?].
    + intros _. unfold durable_get.
      replace (available (set_redis_up false w1)) with false; [done |].
      by destruct w1 as [[] ? ? ? ? ? ?].
Qed.

Lemma X6_durable_token_lifetime_witness :
  let stored := (scopes.store_oauth_state "state-1" (Some "s1") None (Some "secret-1")
                   (example_world true rejecting [])).2 in
  (scopes.get_oauth_state "state-1" (advance (seconds 599) stored)).1
  = Ret (Some (mk_state_info (Some "s1") None (Some "secret-1")))
  /\ (scopes.get_oauth_state "state-1" (advance (seconds 600) stored)).1 = Ret None
  /\ (scopes.get_oauth_state "state-1" (set_redis_up false stored)).1 = Ret None.
Proof.
  intros stored.
  destruct (X6_durable_token_lifetime (example_world true rejecting []) "state-1"
              (Some "s1") None (Some "secret-1")) as (H1 & H2 & H3); try reflexivity.
  split; [| split].
  - apply H1. unfold seconds. lia.
  - apply H2. lia.
  - exact H3.
Defined.

(** X7.  The in-memory tier has no lifetime and does not depend on the
    server.  A token stored while the durable tier does not answer, the
    store holding no entry of its name, is resolved to the three values
    stored however much later it is asked for, whether the server is then
    reachable or not. *)
Theorem X7_memory_token_has_no_lifetime (w : World) (state : string)
    (session_id cid csecret : option string) (d : Z) (up : bool) :
  available w = false ->
  redis_db w !! oauth_state_key state = None ->
  0 <= d ->
  let stored := (scopes.store_oauth_state state session_id cid csecret w).2 in
  redis_db stored = redis_db w
  /\ (scopes.get_oauth_state state (set_redis_up up (advance d stored))).1
     = Ret (Some (mk_state_info session_id cid csecret)).
Proof.
  intros Ha Hdb Hd stored.
  assert (Hs : stored = remembered state session_id cid csecret (tried w)).
  { subst stored. by rewrite store_oauth_state_unavailable. }
  rewrite Hs. clear Hs stored.
  set (w1 := remembered _ _ _ _ _).
  assert (Hdb1 : redis_db w1 = redis_db w).
  { subst w1. unfold remembered, tried.
    destruct (truthy session_id), (_redis_available (outside w)); by destruct w. }
  assert (Hi1 : OAUTH_STATE_TO_SESSION_INFO_MAP w1 !! state
                = Some (mk_state_info session_id cid csecret)).
  { subst w1. unfold remembered.
    destruct (truthy session_id);
      cbn [OAUTH_STATE_TO_SESSION_INFO_MAP set_id_map set_info_map];
      apply lookup_insert_eq. }
  split; [exact Hdb1 |].
  set (w2 := set_redis_up up (advance d w1)).
  rewrite scopes_get_oauth_state_miss.
  - cbn [fst]. f_equal. apply popped_info.
    rewrite info_map_asked. subst w2. by destruct w1 as [[] ? ? ? ? ? ?].
  - intros _. unfold durable_get. destruct (available w2); [| done].
    unfold db_get.
    replace (redis_db w2) with (redis_db w1) by (subst w2; by destruct w1 as [[] ? ? ? ? ? ?]).
    by rewrite Hdb1, Hdb.
Qed.

Lemma X7_memory_token_has_no_lifetime_witness :
  let stored := (scopes.store_oauth_state "state-1" (Some "s1") (Some "tenant-1") None
                   (example_world false rejecting [])).2 in
  (scopes.get_oauth_state "state-1"
     (set_redis_up true (advance (seconds 86400) stored))).1
  = Ret (Some (mk_state_info (Some "s1") (Some "tenant-1") None)).
Proof.
  intros stored.
  apply (X7_memory_token_has_no_lifetime (example_world false rejecting []) "state-1"
           (Some "s1") (Some "tenant-1") None (seconds 86400) true);
    [reflexivity | reflexivity | unfold seconds; lia].
Defined.

(** What [get_oauth_state] of scopes.py can answer. *)
Lemma scopes_get_oauth_state_cases (w : World) (state : string) :
  scopes.get_oauth_state state w = (IllTyped, asked state w)
  \/ (exists info : OAuthStateInfo,
         scopes.get_oauth_state state w = (Ret (Some info), asked state w)
         /\ _redis_available (outside w) = true /\ available w = true)
  \/ scopes.get_oauth_state state w
     = (Ret (popped state (asked state w)).1, (popped state (asked state w)).2).
Proof.
  unfold scopes.get_oauth_state, asked.
  rewrite (bind_eq _ _ w w (Ret (_redis_available (outside w)))) by reflexivity.
  destruct (_redis_available (outside w)) eqn:Hav.
  2: { right. right. rewrite (bind_eq _ _ w w (Ret None)) by reflexivity. apply pops_eq. }
  set (wa := if available w then _ else connected w).
  match goal with
  | |- context [bind (try_except ?body ?c ?h) _ w] =>
      assert (Htry : exists o : outcome (option OAuthStateInfo),
                try_except body c h w = (o, wa)
                /\ (o = IllTyped \/ o = Ret None
                    \/ (exists info, o = Ret (Some info)) /\ available w = true))
  end.
  { unfold try_except.
    rewrite (bind_eq _ _ _ _ _ (get_redis_store_eq w)).
    rewrite (bind_eq _ _ _ _ _ (get_oauth_state_redis_eq w state)). fold wa.
    destruct (match durable_get w (oauth_state_key state) with
              | Some t => if truthy_text t then json_loads t else None
              | None => None
              end) as [j |] eqn:Hdata; [| eexists; split; [reflexivity | by right; left]].
    assert (Ha : available w = true).
    { unfold durable_get in Hdata. by destruct (available w). }
    destruct (truthy_json j); [| eexists; split; [reflexivity | by right; left]].
    destruct j as [| b | n | s | items | items];
      try (eexists; split; [reflexivity | by right; left]).
    unfold field, dict_get, bind, ret, ill_typed.
    destruct (as_optional_str (default JNull (assoc "session_id" items))) as [sid |];
      [| eexists; split; [reflexivity | by left]].
    destruct (as_optional_str (default JNull (assoc "client_id" items))) as [cid |];
      [| eexists; split; [reflexivity | by left]].
    destruct (as_optional_str (default JNull (assoc "client_secret" items))) as [cs |];
      [| eexists; split; [reflexivity | by left]].
    eexists. split; [reflexivity |]. right. right. split; [by eexists | done]. }
  destruct Htry as (o & Htry & [-> | [-> | [[info ->] Ha]]]);
    rewrite (bind_eq _ _ _ _ _ Htry).
  - by left.
  - right. right. apply pops_eq.
  - right. left. by exists info.
Qed.

Lemma redis_db_popped state w : redis_db (popped state w).2 = redis_db w.
Proof.
  unfold popped. destruct (OAUTH_STATE_TO_SESSION_INFO_MAP w !! state); by destruct w.
Qed.

Lemma redis_db_asked (state : string) (w : World) :
  redis_db (asked state w)
  = if _redis_available (outside w) && available w
    then delete (oauth_state_key state) (redis_db w)
    else redis_db w.
Proof.
  unfold asked. destruct (_redis_available _); [| done].
  destruct (available w); by destruct w.
Qed.

Lemma available_holds_client (w : World) :
  holds_client w = true -> redis_up (outside w) = true -> available w = true.
Proof.
  unfold holds_client, available, usable, the_store. intros H ->.
  destruct (_redis_store w) as [s |]; [| done].
  cbn [default from_option id andb]. by rewrite H.
Qed.

Lemma durable_get_absent (w : World) (key : string) :
  redis_db w !! key = None -> durable_get w key = None.
Proof.
  intros H. unfold durable_get, db_get. rewrite H. by destruct (available w).
Qed.

(** X25.  Resolving a correlation token never raises, whatever the store
    holds under its key: a record that is not JSON, or JSON that is not an
    object, is consumed like any other and the in-memory maps are asked.
    A resolve that reaches the server, through a store object that holds
    its client, leaves no record under the key; a resolve never writes
    one; and while the server cannot be reached its records stay as they
    are.  An answer [None] leaves the token unknown to both maps, and once
    the server holds no record of it the answer is final: the next
    resolve answers [None], whatever time has passed and whether or not
    the server can be reached. *)
Theorem X25_resolving_never_raises (w : World) (state : string) :
  let r := scopes.get_oauth_state state w in
  let key := oauth_state_key state in
  (forall e : exn, r.1 <> Raise e)
  /\ (_redis_available (outside w) = true -> holds_client w = true ->
      redis_up (outside w) = true -> redis_db r.2 !! key = None)
  /\ (redis_db w !! key = None -> redis_db r.2 !! key = None)
  /\ (redis_up (outside w) = false -> redis_db r.2 = redis_db w)
  /\ (r.1 = Ret None ->
      OAUTH_STATE_TO_SESSION_INFO_MAP r.2 !! state = None
      /\ OAUTH_STATE_TO_SESSION_ID_MAP r.2 !! state = None
      /\ (redis_db r.2 !! key = None ->
          forall (d : Z) (up : bool),
            (scopes.get_oauth_state state (set_redis_up up (advance d r.2))).1
            = Ret None)).
Proof.
  cbv zeta.
  assert (Hdb : redis_db (scopes.get_oauth_state state w).2 = redis_db (asked state w)).
  { destruct (scopes_get_oauth_state_cases w state)
      as [H | [(info & H & _) | H]]; rewrite H; cbn [snd]; [done | done |].
    apply redis_db_popped. }
  assert (Hfinal : forall r2 : World,
    OAUTH_STATE_TO_SESSION_INFO_MAP r2 !! state = None ->
    OAUTH_STATE_TO_SESSION_ID_MAP r2 !! state = None ->
    redis_db r2 !! oauth_state_key state = None ->
    forall (d : Z) (up : bool),
      (scopes.get_oauth_state state (set_redis_up up (advance d r2))).1 = Ret None).
  { intros r2 Hi Hd Hkey d up.
    rewrite scopes_get_oauth_state_miss by (intros _; by apply durable_get_absent).
    cbn [fst]. f_equal. apply popped_nothing.
    - by rewrite info_map_asked.
    - by rewrite id_map_asked. }
  split_and!.
  - destruct (scopes_get_oauth_state_cases w state)
      as [H | [(info & H & _) | H]]; by rewrite H.
  - intros Hav Hc Hup. rewrite Hdb, redis_db_asked, Hav.
    rewrite (available_holds_client w Hc Hup). cbn [andb].
    apply lookup_delete_eq.
  - intros Hkey. rewrite Hdb, redis_db_asked.
    destruct (_ && _); [apply lookup_delete_eq | done].
  - intros Hup. rewrite Hdb, redis_db_asked.
    by rewrite (unavailable_down w Hup), andb_false_r.
  - destruct (scopes_get_oauth_state_cases w state)
      as [H | [(info & H & _) | H]]; rewrite H; cbn [fst snd]; try done.
    intros Hnone. injection Hnone as Hnone.
    set (wa := asked state w) in *.
    assert (Hmaps : OAUTH_STATE_TO_SESSION_INFO_MAP (popped state wa).2 !! state = None
                    /\ OAUTH_STATE_TO_SESSION_ID_MAP (popped state wa).2 !! state = None).
    { unfold popped in Hnone |- *.
      destruct (OAUTH_STATE_TO_SESSION_INFO_MAP wa !! state); [done |].
      cbn [snd OAUTH_STATE_TO_SESSION_INFO_MAP OAUTH_STATE_TO_SESSION_ID_MAP
           set_id_map set_info_map].
      by rewrite !lookup_delete_eq. }
    destruct Hmaps as [Hi Hd]. split_and!; try done.
    intros Hkey. by apply Hfinal.
Qed.

Lemma X25_resolving_never_raises_witness :
  let key := oauth_state_key "state-1" in
  let db : gmap string (text * Z) := {[ key := (Malformed "{", example_clock + seconds 60) ]} in
  let w := set_redis_db db (connected_world true rejecting []) in
  let r := scopes.get_oauth_state "state-1" w in
  let down := scopes.get_oauth_state "state-1" (set_redis_up false w) in
  r.1 = Ret None
  /\ redis_db r.2 !! key = None
  /\ (scopes.get_oauth_state "state-1" (set_redis_up false (advance (seconds 30) r.2))).1
     = Ret None
  /\ down.1 = Ret None
  /\ redis_db down.2 = db.
Proof.
  intros key db w r down.
  destruct (X25_resolving_never_raises w "state-1") as (_ & Hgone & _ & _ & Hfinal).
  destruct (X25_resolving_never_raises (set_redis_up false w) "state-1")
    as (_ & _ & _ & Hstays & _).
  pose proof (Hgone eq_refl eq_refl eq_refl) as Hkey.
  destruct (Hfinal eq_refl) as (_ & _ & H).
  split; [reflexivity |]. split; [exact Hkey |].
  split; [exact (H Hkey (seconds 30) false) |].
  split; [reflexivity | exact (Hstays eq_refl)].
Defined.

Lemma scopes_store_oauth_state_memory (w : World) (state : string)
    (session_id cid csecret : option string) :
  _redis_available (outside w) && available w = false ->
  scopes.store_oauth_state state session_id cid csecret w
  = (Ret tt, remembered state session_id cid csecret (tried w)).
Proof.
  intros H. destruct (available w) eqn:Ha; [| by apply store_oauth_state_unavailable].
  rewrite andb_true_r in H.
  unfold scopes.store_oauth_state, tried.
  rewrite (bind_eq _ _ w w (Ret (_redis_available (outside w)))) by reflexivity.
  rewrite H. rewrite (bind_eq _ _ w w (Ret false)) by reflexivity.
  unfold remembered. destruct session_id as [sid |]; [| reflexivity].
  destruct (truthy (Some sid)); reflexivity.
Qed.

Lemma outside_tried w : outside (tried w) = outside w.
Proof. unfold tried. destruct (_redis_available _); by destruct w. Qed.

Lemma outside_remembered state sid cid cs w :
  outside (remembered state sid cid cs w) = outside w.
Proof. unfold remembered. destruct (truthy sid); by destruct w. Qed.

Lemma available_remembered state sid cid cs w :
  available (remembered state sid cid cs w) = available w.
Proof. unfold remembered. destruct (truthy sid); by destruct w. Qed.

Lemma info_map_remembered state sid cid cs w :
  OAUTH_STATE_TO_SESSION_INFO_MAP (remembered state sid cid cs w) !! state
  = Some (mk_state_info sid cid cs).
Proof.
  unfold remembered.
  destruct (truthy sid); cbn [OAUTH_STATE_TO_SESSION_INFO_MAP set_id_map set_info_map];
    apply lookup_insert_eq.
Qed.

(** Whatever the tier, a token just stored is resolved to what was stored. *)
Lemma stored_token_resolves (w : World) (state : string)
    (session_id cid csecret : option string) :
  exists w' : World,
    scopes.store_oauth_state state session_id cid csecret w = (Ret tt, w')
    /\ (scopes.get_oauth_state state w').1
       = Ret (Some (mk_state_info session_id cid csecret)).
Proof.
  destruct (_redis_available (outside w) && available w) eqn:H.
  - apply andb_prop in H as [Hav Ha].
    eexists. split; [by apply scopes_store_oauth_state_durable |].
    rewrite (scopes_get_oauth_state_hit _ _ session_id cid csecret); [done | |].
    + by rewrite outside_durable_write.
    + by apply durable_get_write_eq.
  - eexists. split; [by apply scopes_store_oauth_state_memory |].
    set (w' := remembered _ _ _ _ _).
    rewrite scopes_get_oauth_state_miss.
    + cbn [fst]. f_equal. apply popped_info.
      rewrite info_map_asked. apply info_map_remembered.
    + intros Hav. unfold durable_get.
      replace (available w') with false; [done |].
      subst w'. rewrite available_remembered, available_tried.
      rewrite outside_remembered, outside_tried in Hav. rewrite Hav in H.
      by destruct (available w).
Qed.

(** *** How often a token of the in-memory tier is resolved *)

Lemma available_asked state w : available (asked state w) = available w.
Proof.
  unfold asked. destruct (_redis_available _); [| done].
  destruct (available w) eqn:Ha.
  - by rewrite available_set_redis_db, available_connected.
  - by rewrite available_connected.
Qed.

Lemma available_popped state w : available (popped state w).2 = available w.
Proof.
  unfold popped. destruct (OAUTH_STATE_TO_SESSION_INFO_MAP w !! state); by destruct w.
Qed.

Lemma get_oauth_state_memory (w : World) (state : string) :
  available w = false ->
  scopes.get_oauth_state state w
  = (Ret (popped state (asked state w)).1, (popped state (asked state w)).2).
Proof.
  intros Ha. apply scopes_get_oauth_state_miss. intros _.
  unfold durable_get. by rewrite Ha.
Qed.

Lemma id_map_remembered state sid cid cs w :
  OAUTH_STATE_TO_SESSION_ID_MAP (remembered state sid cid cs w) !! state
  = if truthy sid then Some (the_str sid)
    else OAUTH_STATE_TO_SESSION_ID_MAP w !! state.
Proof.
  unfold remembered. destruct (truthy sid).
  - cbn [OAUTH_STATE_TO_SESSION_ID_MAP set_id_map]. apply lookup_insert_eq.
  - by destruct w.
Qed.

Lemma id_map_tried w : OAUTH_STATE_TO_SESSION_ID_MAP (tried w) = OAUTH_STATE_TO_SESSION_ID_MAP w.
Proof. unfold tried. destruct (_redis_available _); by destruct w. Qed.

(** X27.  How often a token of the in-memory tier is resolved.  Stored
    while the durable tier does not answer, under a name new to both maps,
    a token is resolved to the three values stored the first time; the
    second time to the session alone when it was stored with a session
    identifier, and to [None] when it was stored without one; and to [None]
    from the third time on.  So the token is single-use exactly when no
    session identifier came with it, and is never answered more than
    twice. *)
Theorem X27_memory_token_at_most_twice (w : World) (state : string)
    (session_id cid csecret : option string) :
  available w = false ->
  OAUTH_STATE_TO_SESSION_INFO_MAP w !! state = None ->
  OAUTH_STATE_TO_SESSION_ID_MAP w !! state = None ->
  let stored := scopes.store_oauth_state state session_id cid csecret w in
  let first := scopes.get_oauth_state state stored.2 in
  let second := scopes.get_oauth_state state first.2 in
  let third := scopes.get_oauth_state state second.2 in
  first.1 = Ret (Some (mk_state_info session_id cid csecret))
  /\ second.1 = Ret (if truthy session_id
                     then Some (mk_state_info session_id None None)
                     else None)
  /\ third.1 = Ret None.
Proof.
  intros Ha Hinfo Hid. cbv zeta.
  rewrite (store_oauth_state_unavailable _ _ _ _ _ Ha). cbn [snd].
  set (w1 := remembered state session_id cid csecret (tried w)).
  assert (Ha1 : available w1 = false).
  { subst w1. by rewrite available_remembered, available_tried. }
  rewrite (get_oauth_state_memory _ _ Ha1). cbn [fst snd].
  set (wa1 := asked state w1).
  assert (Hi1 : OAUTH_STATE_TO_SESSION_INFO_MAP wa1 !! state
                = Some (mk_state_info session_id cid csecret)).
  { subst wa1. rewrite info_map_asked. apply info_map_remembered. }
  assert (Hd1 : OAUTH_STATE_TO_SESSION_ID_MAP wa1 !! state
                = if truthy session_id then Some (the_str session_id) else None).
  { subst wa1 w1. rewrite id_map_asked, id_map_remembered, id_map_tried.
    by rewrite Hid. }
  assert (Hpop1 : popped state wa1
                  = (Some (mk_state_info session_id cid csecret),
                     set_info_map (delete state (OAUTH_STATE_TO_SESSION_INFO_MAP wa1)) wa1)).
  { unfold popped. by rewrite Hi1. }
  rewrite Hpop1. cbn [fst snd]. split; [done |].
  set (w2 := set_info_map _ wa1).
  assert (Ha2 : available w2 = false).
  { subst w2. change (available (set_info_map ?m wa1)) with (available wa1).
    subst wa1. by rewrite available_asked. }
  rewrite (get_oauth_state_memory _ _ Ha2). cbn [fst snd].
  set (wa2 := asked state w2).
  assert (Hi2 : OAUTH_STATE_TO_SESSION_INFO_MAP wa2 !! state = None).
  { subst wa2 w2. rewrite info_map_asked.
    cbn [OAUTH_STATE_TO_SESSION_INFO_MAP set_info_map]. apply lookup_delete_eq. }
  assert (Hd2 : OAUTH_STATE_TO_SESSION_ID_MAP wa2 !! state
                = if truthy session_id then Some (the_str session_id) else None).
  { subst wa2 w2. rewrite id_map_asked. exact Hd1. }
  assert (Hpop2 : popped state wa2
                  = (if truthy session_id
                     then Some (mk_state_info session_id None None) else None,
                     set_id_map
                       (delete state
                          (OAUTH_STATE_TO_SESSION_ID_MAP
                             (set_info_map
                                (delete state (OAUTH_STATE_TO_SESSION_INFO_MAP wa2)) wa2)))
                       (set_info_map
                          (delete state (OAUTH_STATE_TO_SESSION_INFO_MAP wa2)) wa2))).
  { unfold popped. rewrite Hi2, Hd2.
    destruct session_id as [s |]; [| done]. cbn [the_str default from_option id].
    destruct (truthy (Some s)) eqn:Ht; cbv iota; [by rewrite Ht | done]. }
  rewrite Hpop2. cbn [fst snd]. split; [done |].
  set (w3 := set_id_map _ _).
  assert (Ha3 : available w3 = false).
  { subst w3. change (available (set_id_map ?m (set_info_map ?m' wa2)))
      with (available wa2). subst wa2. by rewrite available_asked. }
  rewrite (get_oauth_state_memory _ _ Ha3). cbn [fst]. f_equal.
  apply popped_nothing.
  - rewrite info_map_asked. subst w3.
    cbn [OAUTH_STATE_TO_SESSION_INFO_MAP set_id_map set_info_map].
    apply lookup_delete_eq.
  - rewrite id_map_asked. subst w3.
    cbn [OAUTH_STATE_TO_SESSION_ID_MAP set_id_map set_info_map].
    apply lookup_delete_eq.
Qed.

Lemma X27_memory_token_at_most_twice_witness :
  let w := example_world false rejecting [] in
  let stored := scopes.store_oauth_state "state-1" None (Some "tenant-1")
                  (Some "secret-1") w in
  let first := scopes.get_oauth_state "state-1" stored.2 in
  let second := scopes.get_oauth_state "state-1" first.2 in
  first.1 = Ret (Some (mk_state_info None (Some "tenant-1") (Some "secret-1")))
  /\ second.1 = Ret None.
Proof.
  intros w stored first second.
  destruct (X27_memory_token_at_most_twice w "state-1" None (Some "tenant-1")
              (Some "secret-1")) as (H1 & H2 & _); try reflexivity.
  split; [exact H1 | exact H2].
Defined.

(** ** What [get_credentials] does with the credentials found *)

Lemma saves_after_refresh (w : World) (l : loc) (c : Credentials)
    (email sid : option string) :
  heap w !! l = Some c ->
  ((if truthy email then save_credentials_to_file (the_str email) l else ret tt) ;;
   (if truthy sid then save_credentials_to_session (the_str sid) l else ret tt) ;;
   ret (Some l)) w
  = (Ret (Some l), persisted email sid l c w).
Proof.
  intros Hl. unfold persisted.
  set (w1 := if truthy email && truthy (client_id c) then _ else w).
  assert (Hfile :
    (if truthy email then save_credentials_to_file (the_str email) l else ret tt) w
    = (Ret tt, w1)).
  { subst w1. destruct (truthy email); [| done]. cbn [andb].
    destruct (truthy (client_id c)) eqn:Hc.
    - by apply save_credentials_to_file_eq.
    - by apply (save_credentials_to_file_skip _ _ _ c). }
  assert (Hl1 : heap w1 !! l = Some c).
  { subst w1. destruct (_ && _); [| done]. by rewrite heap_durable_write. }
  rewrite (bind_eq _ _ _ _ _ Hfile).
  destruct (truthy sid).
  - by rewrite (bind_eq _ _ _ _ _ (save_credentials_to_session_eq _ _ _ _ Hl1)).
  - reflexivity.
Qed.

Lemma heap_persisted email sid l c w : heap (persisted email sid l c w) = heap w.
Proof.
  unfold persisted.
  set (w1 := if truthy email && truthy (client_id c) then _ else w).
  assert (H1 : heap w1 = heap w).
  { subst w1. destruct (_ && _); [apply heap_durable_write | done]. }
  destruct (truthy sid); [| done].
  destruct (available w1); [by rewrite heap_durable_write |].
  rewrite <- H1. by destruct w1.
Qed.

Lemma outside_connected w : outside (connected w) = outside w.
Proof. by destruct w. Qed.

Lemma outside_persisted email sid l c w : outside (persisted email sid l c w) = outside w.
Proof.
  unfold persisted.
  set (w1 := if truthy email && truthy (client_id c) then _ else w).
  assert (H1 : outside w1 = outside w).
  { subst w1. destruct (_ && _); [apply outside_durable_write | done]. }
  destruct (truthy sid); [| done].
  destruct (available w1); [by rewrite outside_durable_write |].
  rewrite <- H1. by destruct w1.
Qed.

Lemma refresh_unable w l c :
  heap w !! l = Some c -> refreshable c = false ->
  refresh l w = (Raise RefreshError, w).
Proof. intros Hl Hr. unfold refresh. bind_step deref_eq. by rewrite Hr. Qed.

Lemma decide_outcomes (w : World) (l : loc) (c : Credentials)
    (user_google_email : option string) (required_scopes : list string)
    (client_secrets_path session_id : option string) :
  heap w !! l = Some c ->
  let p := get_credentials_decide l user_google_email required_scopes
             client_secrets_path session_id w in
  (p = (Raise TypeError, w) /\ scopes c = None /\ required_scopes <> [])
  \/ p = (Ret None, w)
  \/ (p = (Ret (Some l), w) /\ valid (clock (outside w)) c = true)
  \/ (exists (tok : string) (exp : option datetime) (rt : option string),
        token_endpoint (outside w) c = Refreshed tok exp rt
        /\ valid (clock (outside w)) c = false
        /\ truthy client_secrets_path = true
        /\ p = (Ret (Some l),
                persisted user_google_email session_id l (refreshed c tok exp rt)
                  (set_heap (<[l := refreshed c tok exp rt]> (heap w)) w))).
Proof.
  intros Hl p. subst p. unfold get_credentials_decide.
  bind_step deref_eq.
  assert (Hscope :
    (has_all_scopes (scopes c) required_scopes w = (Raise TypeError, w)
     /\ scopes c = None /\ required_scopes <> [])
    \/ exists b, has_all_scopes (scopes c) required_scopes w = (Ret b, w)).
  { unfold has_all_scopes. destruct required_scopes as [| r rs]; [right; by eexists |].
    destruct (scopes c); [right; by eexists | left; done]. }
  destruct Hscope as [(Hs & Hnone & Hreq) | [b Hs]].
  { left. by rewrite (bind_eq _ _ _ _ _ Hs). }
  rewrite (bind_eq _ _ _ _ _ Hs). right.
  destruct b; cbn [negb]; [| by left].
  unfold now. rewrite (bind_eq _ _ w w (Ret (clock (outside w)))) by reflexivity.
  destruct (valid (clock (outside w)) c) eqn:Hv; [right; left; done |].
  destruct (expired (clock (outside w)) c && truthy (refresh_token c)); [| by left].
  destruct (truthy client_secrets_path) eqn:Hcsp; cbn [negb]; [| by left].
  destruct (refreshable c) eqn:Hable.
  - destruct (token_endpoint (outside w) c) as [tok exp rt | e] eqn:He.
    + right. right. exists tok, exp, rt. split_and!; try done.
      unfold try_except.
      rewrite (bind_eq _ _ _ _ _ (refresh_ok _ _ _ _ _ _ Hl Hable He)).
      rewrite (saves_after_refresh _ _ (refreshed c tok exp rt)); [done |].
      cbn [heap set_heap].
      apply list_lookup_insert_eq. by apply lookup_lt_Some in Hl.
    + left. destruct (refresh_raises _ _ _ _ Hl He) as [e' He'].
      unfold try_except. rewrite (bind_eq _ _ _ _ _ He').
      by destruct e'.
  - left. unfold try_except.
    by rewrite (bind_eq _ _ _ _ _ (refresh_unable _ _ _ Hl Hable)).
Qed.

Lemma decide_no_scope_list (w : World) (l : loc) (c : Credentials)
    (email : option string) (required : list string) (csp sid : option string) :
  heap w !! l = Some c -> scopes c = None -> required <> [] ->
  get_credentials_decide l email required csp sid w = (Raise TypeError, w).
Proof.
  intros Hl Hnone Hreq. unfold get_credentials_decide.
  bind_step deref_eq. rewrite Hnone.
  by destruct required.
Qed.

(** X10.  The outcomes of the second half of [get_credentials], for every
    credential found whose expiry is [None] or a naive datetime (what
    [utcnow], a refresh and a saved [isoformat] give), every argument, and
    a store object that builds no client during the saves.  There are
    four, and no other: [TypeError], exactly when the credential has no
    scope list and a scope is required; [None], with nothing changed; the
    object found, untouched, when it is valid; and the object found,
    refreshed in place and saved, when it was not valid and the token
    endpoint answered.  No exception of the refresh escapes, and a failed
    refresh leaves no trace. *)
Theorem X10_outcomes_of_the_decision (w : World) (l : loc) (c : Credentials)
    (user_google_email : option string) (required_scopes : list string)
    (client_secrets_path session_id : option string) :
  heap w !! l = Some c ->
  settled w = true ->
  let p := get_credentials_decide l user_google_email required_scopes
             client_secrets_path session_id w in
  ((p = (Raise TypeError, w) /\ scopes c = None /\ required_scopes <> [])
   \/ p = (Ret None, w)
   \/ (p = (Ret (Some l), w) /\ valid (clock (outside w)) c = true)
   \/ (exists (tok : string) (exp : option datetime) (rt : option string),
         token_endpoint (outside w) c = Refreshed tok exp rt
         /\ valid (clock (outside w)) c = false
         /\ truthy client_secrets_path = true
         /\ p = (Ret (Some l),
                 persisted user_google_email session_id l (refreshed c tok exp rt)
                   (set_heap (<[l := refreshed c tok exp rt]> (heap w)) w))))
  /\ (scopes c = None -> required_scopes <> [] -> p = (Raise TypeError, w)).
Proof.
  intros Hl _ p. split.
  - by apply decide_outcomes.
  - intros Hnone Hreq. by apply decide_no_scope_list with c.
Qed.

Lemma X10_outcomes_of_the_decision_witness :
  let w := connected_world true refreshing [expired_credentials] in
  (exists w' : World,
     get_credentials_decide 0%nat (Some "a@example.com") ["openid"]
       (Some "client_secret.json") None w = (Ret (Some 0%nat), w')
     /\ heap w' !! 0%nat
        = Some (refreshed expired_credentials "ya29.new"
                  (Some (mk_datetime 2024 1 1 1 0 0 0)) (Some "1//refresh")))
  /\ (let bare := mk_credentials (Some "ya29.token") None None None None None None in
      get_credentials_decide 0%nat None ["openid"] None None
        (connected_world true refreshing [bare])
      = (Raise TypeError, connected_world true refreshing [bare])).
Proof.
  intros w. split.
  - destruct (X10_outcomes_of_the_decision w 0%nat expired_credentials
                (Some "a@example.com") ["openid"] (Some "client_secret.json") None
                eq_refl eq_refl)
      as [[(H & _) | [H | [(H & _) | (tok & exp & rt & He & _ & _ & H)]]] _];
      try (vm_compute in H; discriminate H).
    injection He as <- <- <-.
    eexists. split; [exact H |]. by rewrite heap_persisted.
  - intros bare.
    destruct (X10_outcomes_of_the_decision (connected_world true refreshing [bare])
                0%nat bare None ["openid"] None None eq_refl eq_refl) as [_ H].
    by apply H.
Defined.

Lemma decide_refreshed w l c g email required csp sid tok exp rt :
  heap w !! l = Some c -> scopes c = Some g -> all_in g required = true ->
  expired (clock (outside w)) c = true -> truthy (refresh_token c) = true ->
  truthy csp = true -> refreshable c = true ->
  token_endpoint (outside w) c = Refreshed tok exp rt ->
  get_credentials_decide l email required csp sid w
  = (Ret (Some l),
     persisted email sid l (refreshed c tok exp rt)
       (set_heap (<[l := refreshed c tok exp rt]> (heap w)) w)).
Proof.
  intros Hl Hg Hall He Hrt Hcsp Hable Hok.
  rewrite (decide_refresh _ _ _ _ _ _ _ _ Hl Hg Hall He Hrt Hcsp).
  unfold try_except.
  rewrite (bind_eq _ _ _ _ _ (refresh_ok _ _ _ _ _ _ Hl Hable Hok)).
  rewrite (saves_after_refresh _ _ (refreshed c tok exp rt)); [done |].
  cbn [heap set_heap]. apply list_lookup_insert_eq. by apply lookup_lt_Some in Hl.
Qed.

Lemma available_set_heap h w : available (set_heap h w) = available w.
Proof. by destruct w. Qed.

(** X11.  A successful refresh is saved in both namespaces.  When the
    credential found has expired, has what a refresh needs and the token
    endpoint answers, and the durable tier answers too, then with the
    e-mail address known, a client identifier in the credential and a
    session, the object found is updated in place and handed back, and its
    new attributes stand under the identity-scoped key of its client
    identifier and under the session-scoped key; the in-memory cache is not
    written.  A load for that user and tenant hands back the refreshed
    credential. *)
Theorem X11_refreshed_credential_is_saved (w : World) (l : loc) (c : Credentials)
    (g required_scopes : list string) (user_google_email session_id : string)
    (client_secrets_path : option string)
    (tok : string) (exp : option datetime) (rt : option string) :
  heap w !! l = Some c ->
  scopes c = Some g ->
  required_scopes ⊆ g ->
  expired (clock (outside w)) c = true ->
  truthy (refresh_token c) = true ->
  refreshable c = true ->
  truthy client_secrets_path = true ->
  token_endpoint (outside w) c = Refreshed tok exp rt ->
  available w = true ->
  user_google_email <> "" ->
  session_id <> "" ->
  truthy (client_id c) = true ->
  let c' := refreshed c tok exp rt in
  let doc := Document (creds_data_of c') in
  exists w' : World,
    get_credentials_decide l (Some user_google_email) required_scopes client_secrets_path
      (Some session_id) w = (Ret (Some l), w')
    /\ heap w' !! l = Some c'
    /\ durable_get w' (user_creds_key (the_str (client_id c)) user_google_email) = Some doc
    /\ durable_get w' (session_creds_key session_id) = Some doc
    /\ _SESSION_CREDENTIALS_CACHE w' = _SESSION_CREDENTIALS_CACHE w
    /\ (expiry_ok c' ->
        observe (load_credentials_from_file user_google_email (client_id c) w')
        = Ret (Some c')).
Proof.
  intros Hl Hg Hsub He Hrt Hable Hcsp Hok Ha Hemail Hsid Hcid c' doc.
  apply all_in_subseteq in Hsub.
  rewrite (decide_refreshed _ _ _ _ _ _ _ _ _ _ _ Hl Hg Hsub He Hrt Hcsp Hable Hok).
  fold c'.
  set (w1 := set_heap (<[l := c']> (heap w)) w).
  assert (Ha1 : available w1 = true) by (subst w1; by rewrite available_set_heap).
  assert (Hl1 : heap w1 !! l = Some c').
  { subst w1. cbn [heap set_heap]. apply list_lookup_insert_eq.
    by apply lookup_lt_Some in Hl. }
  set (ukey := user_creds_key (the_str (client_id c)) user_google_email).
  set (skey := session_creds_key session_id).
  assert (Hp : persisted (Some user_google_email) (Some session_id) l c' w1
               = durable_write (durable_write w1 ukey doc 604800) skey doc 1800).
  { unfold persisted. rewrite !truthy_Some by done.
    change (client_id c') with (client_id c). rewrite Hcid. cbn [andb].
    rewrite available_durable_write, Ha1. reflexivity. }
  rewrite Hp. eexists. split; [reflexivity |].
  assert (Hu : durable_get (durable_write (durable_write w1 ukey doc 604800) skey doc 1800)
                 ukey = Some doc).
  { rewrite durable_get_write_ne.
    - by apply durable_get_write_eq.
    - subst skey ukey. apply session_key_not_user_key. }
  split_and!.
  - by rewrite !heap_durable_write.
  - exact Hu.
  - apply durable_get_write_eq; [| done]. by rewrite available_durable_write.
  - rewrite !cache_durable_write. subst w1. by destruct w.
  - intros Hexp.
    rewrite load_credentials_from_file_eq by done. cbv zeta. fold ukey.
    rewrite Hu. subst doc. cbn [truthy_text].
    rewrite decoded_creds_data by done.
    apply observe_Some. cbn [snd heap set_heap].
    rewrite heap_durable_read, !heap_durable_write. by apply list_lookup_middle.
Qed.

Lemma X11_refreshed_credential_is_saved_witness :
  let w := example_world true refreshing [expired_credentials] in
  let c' := refreshed expired_credentials "ya29.new"
              (Some (mk_datetime 2024 1 1 1 0 0 0)) (Some "1//refresh") in
  exists w' : World,
    get_credentials_decide 0%nat (Some "a@example.com") ["openid"]
      (Some "client_secret.json") (Some "s1") w = (Ret (Some 0%nat), w')
    /\ heap w' !! 0%nat = Some c'
    /\ observe (load_credentials_from_file "a@example.com" (Some "tenant-1") w')
       = Ret (Some c').
Proof.
  intros w c'.
  destruct (X11_refreshed_credential_is_saved w 0%nat expired_credentials
              ["openid"] ["openid"] "a@example.com" "s1" (Some "client_secret.json")
              "ya29.new" (Some (mk_datetime 2024 1 1 1 0 0 0)) (Some "1//refresh"))
    as (w' & H1 & H2 & _ & _ & _ & H6); try reflexivity; try done.
  exists w'. split; [exact H1 |]. split; [exact H2 |].
  apply H6. intros e He. injection He as <-. reflexivity.
Defined.

(** ** Where [get_credentials] looks *)

Lemma lookup_session_hit w email dir sid pcid l w1 :
  MCP_SINGLE_USER_MODE (outside w) <> Some "1" ->
  sid <> "" ->
  load_credentials_from_session sid w = (Ret (Some l), w1) ->
  get_credentials_lookup email dir (Some sid) pcid w = (Ret (Some l, email), w1).
Proof.
  intros Hmode Hsid Hload. unfold get_credentials_lookup.
  rewrite (bind_eq _ _ w w (Ret (MCP_SINGLE_USER_MODE (outside w)))) by reflexivity.
  rewrite bool_decide_eq_false_2 by done.
  rewrite truthy_Some by done. cbn [the_str default from_option id].
  by rewrite (bind_eq _ _ _ _ _ Hload).
Qed.

Lemma decide_valid w l c g email required csp sid :
  heap w !! l = Some c -> scopes c = Some g -> all_in g required = true ->
  valid (clock (outside w)) c = true ->
  get_credentials_decide l email required csp sid w = (Ret (Some l), w).
Proof.
  intros Hl Hg Hall Hv. unfold get_credentials_decide.
  bind_step deref_eq. rewrite Hg.
  rewrite (bind_eq _ _ _ _ _ (has_all_scopes_some g required w)).
  rewrite Hall. cbv beta iota delta [negb].
  unfold now. rewrite (bind_eq _ _ w w (Ret (clock (outside w)))) by reflexivity.
  by rewrite Hv.
Qed.

Lemma load_after_session_save w sid l c :
  heap w !! l = Some c ->
  expiry_ok c ->
  exists (l' : loc) (w2 : World),
    load_credentials_from_session sid (save_credentials_to_session sid l w).2
    = (Ret (Some l'), w2)
    /\ heap w2 !! l' = Some c
    /\ outside w2 = outside w.
Proof.
  intros Hl Hok.
  rewrite (save_credentials_to_session_eq _ _ _ _ Hl). cbn [snd].
  rewrite load_credentials_from_session_eq. cbv zeta.
  destruct (available w) eqn:Ha.
  - rewrite durable_get_write_eq by done. cbn [truthy_text].
    rewrite decoded_creds_data by done.
    eexists _, _. split; [reflexivity |]. split.
    + cbn [heap set_heap]. by apply list_lookup_middle.
    + cbn [outside set_heap]. by rewrite outside_durable_read, outside_durable_write.
  - set (w1 := set_session_cache _ _).
    assert (Ha1 : available w1 = false).
    { subst w1. change (available (set_session_cache ?m (connected w)))
        with (available (connected w)). by rewrite available_connected. }
    unfold durable_get. rewrite Ha1.
    rewrite cache_durable_read.
    assert (Hc : _SESSION_CREDENTIALS_CACHE w1 !! sid = Some l).
    { subst w1. cbn [_SESSION_CREDENTIALS_CACHE set_session_cache].
      apply lookup_insert_eq. }
    rewrite Hc. eexists _, _. split; [reflexivity |]. split.
    + rewrite heap_durable_read. subst w1. by destruct w.
    + rewrite outside_durable_read. subst w1. by destruct w.
Qed.

Lemma saved_session_is_found (w : World) (session_id : string)
    (l : loc) (c : Credentials) (g required_scopes : list string) :
  MCP_SINGLE_USER_MODE (outside w) <> Some "1" ->
  session_id <> "" ->
  heap w !! l = Some c ->
  expiry_ok c ->
  valid (clock (outside w)) c = true ->
  scopes c = Some g ->
  required_scopes ⊆ g ->
  let saved := (save_credentials_to_session session_id l w).2 in
  forall (user_google_email client_secrets_path provided_client_id
            provided_client_secret : option string) (credentials_base_dir : string),
    observe (get_credentials user_google_email required_scopes client_secrets_path
               credentials_base_dir (Some session_id) provided_client_id
               provided_client_secret saved)
    = Ret (Some c).
Proof.
  intros Hmode Hsid Hl Hok Hv Hg Hsub saved email csp pcid psecret dir.
  apply all_in_subseteq in Hsub.
  destruct (load_after_session_save w session_id l c Hl Hok)
    as (l' & w2 & Hload & Hl' & Hout).
  fold saved in Hload.
  assert (Hmode' : MCP_SINGLE_USER_MODE (outside saved) <> Some "1").
  { subst saved. rewrite (save_credentials_to_session_eq _ _ _ _ Hl). cbn [snd].
    destruct (available w); [by rewrite outside_durable_write | by destruct w]. }
  rewrite (get_credentials_found _ _ _ _ _ _ _ _ _ _ _
             (lookup_session_hit _ email dir _ pcid _ _ Hmode' Hsid Hload)).
  rewrite (decide_valid _ _ _ _ _ _ _ _ Hl' Hg Hsub) by (by rewrite Hout).
  by apply observe_Some.
Qed.

(** X12.  The session tier does not look at the tenant.  Outside
    single-user mode, once a valid credential has been saved for a session,
    [get_credentials] with that session hands it back whatever e-mail
    address, client identifier and client secret the call names, the
    client identifier of another tenant included: when the session
    answers, the identity-scoped key is never consulted. *)
Theorem X12_session_tier_ignores_the_tenant (w : World) (session_id : string)
    (l : loc) (c : Credentials) (g required_scopes : list string) :
  MCP_SINGLE_USER_MODE (outside w) <> Some "1" ->
  session_id <> "" ->
  heap w !! l = Some c ->
  expiry_ok c ->
  valid (clock (outside w)) c = true ->
  scopes c = Some g ->
  required_scopes ⊆ g ->
  let saved := (save_credentials_to_session session_id l w).2 in
  forall (user_google_email client_secrets_path provided_client_id
            provided_client_secret : option string) (credentials_base_dir : string),
    observe (get_credentials user_google_email required_scopes client_secrets_path
               credentials_base_dir (Some session_id) provided_client_id
               provided_client_secret saved)
    = Ret (Some c).
Proof.
  intros Hmode Hsid Hl Hok Hv Hg Hsub saved email csp pcid psecret dir.
  by apply (saved_session_is_found w session_id l c g).
Qed.

Lemma X12_session_tier_ignores_the_tenant_witness :
  let saved := (save_credentials_to_session "s1" 0%nat
                  (example_world true rejecting [example_credentials])).2 in
  client_id example_credentials = Some "tenant-1"
  /\ observe (get_credentials (Some "b@example.com") ["openid"] None "credentials"
                (Some "s1") (Some "tenant-2") (Some "secret-2") saved)
     = Ret (Some example_credentials).
Proof.
  intros saved. split; [reflexivity |].
  apply (X12_session_tier_ignores_the_tenant
           (example_world true rejecting [example_credentials]) "s1" 0%nat
           example_credentials
           ["openid"; "https://www.googleapis.com/auth/drive.readonly"] ["openid"]);
    try reflexivity; try done.
  - intros e He. injection He as <-. reflexivity.
  - apply all_in_subseteq. reflexivity.
Defined.

Lemma durable_read_nothing w key ttl :
  durable_get w key = None -> durable_read w key ttl = connected w.
Proof.
  unfold durable_get, durable_read, touch. destruct (available w); [| done].
  intros ->. by destruct w.
Qed.

Lemma durable_get_connected w key : durable_get (connected w) key = durable_get w key.
Proof. unfold durable_get. rewrite available_connected. by destruct w. Qed.

Lemma durable_get_available w key v : durable_get w key = Some v -> available w = true.
Proof. unfold durable_get. by destruct (available w). Qed.

Lemma load_session_stored w sid c :
  durable_get w (session_creds_key sid) = Some (Document (creds_data_of c)) ->
  expiry_ok c ->
  load_credentials_from_session sid w
  = (Ret (Some (List.length (heap w))),
     set_heap (heap w ++ [c]) (durable_read w (session_creds_key sid) 1800)).
Proof.
  intros Hget Hok. rewrite load_credentials_from_session_eq. cbv zeta.
  rewrite Hget. cbn [truthy_text]. rewrite decoded_creds_data by done.
  by rewrite heap_durable_read.
Qed.

Lemma load_file_stored w email cid c :
  cid <> "" ->
  durable_get w (user_creds_key cid email) = Some (Document (creds_data_of c)) ->
  expiry_ok c ->
  load_credentials_from_file email (Some cid) w
  = (Ret (Some (List.length (heap w))),
     set_heap (heap w ++ [c]) (durable_read w (user_creds_key cid email) 604800)).
Proof.
  intros Hcid Hget Hok.
  rewrite load_credentials_from_file_eq by by apply truthy_Some. cbv zeta.
  cbn [the_str default from_option id].
  rewrite Hget. cbn [truthy_text]. rewrite decoded_creds_data by done.
  by rewrite heap_durable_read.
Qed.

(** X13.  Credentials loaded by identity join the session.  Outside
    single-user mode, when the session has nothing and the identity-scoped
    key of the user and tenant named holds a credential, [get_credentials]
    finds it there and writes it under the session-scoped key as well; from
    then on the session alone finds it, whatever e-mail address and client
    identifier are named, if any. *)
Theorem X13_loaded_credentials_join_the_session (w : World)
    (user_google_email cid session_id credentials_base_dir : string) (c : Credentials) :
  MCP_SINGLE_USER_MODE (outside w) <> Some "1" ->
  user_google_email <> "" ->
  cid <> "" ->
  session_id <> "" ->
  durable_get w (session_creds_key session_id) = None ->
  _SESSION_CREDENTIALS_CACHE w !! session_id = None ->
  durable_get w (user_creds_key cid user_google_email)
  = Some (Document (creds_data_of c)) ->
  expiry_ok c ->
  exists (l : loc) (w1 : World),
    get_credentials_lookup (Some user_google_email) credentials_base_dir
      (Some session_id) (Some cid) w = (Ret (Some l, Some user_google_email), w1)
    /\ heap w1 !! l = Some c
    /\ durable_get w1 (session_creds_key session_id) = Some (Document (creds_data_of c))
    /\ forall email' pcid' : option string,
         exists (l2 : loc) (w2 : World),
           get_credentials_lookup email' credentials_base_dir (Some session_id) pcid' w1
           = (Ret (Some l2, email'), w2)
           /\ heap w2 !! l2 = Some c.
Proof.
  intros Hmode Hemail Hcid Hsid Hnone Hcache Hget Hok.
  pose proof (durable_get_available _ _ _ Hget) as Ha.
  set (doc := Document (creds_data_of c)) in *.
  set (skey := session_creds_key session_id) in *.
  set (ukey := user_creds_key cid user_google_email) in *.
  set (l := List.length (heap w)).
  set (wb := set_heap (heap w ++ [c]) (durable_read (connected w) ukey 604800)).
  set (w1 := durable_write wb skey doc 1800).
  assert (Hsession : load_credentials_from_session session_id w = (Ret None, connected w)).
  { rewrite load_credentials_from_session_eq. cbv zeta. fold skey.
    rewrite Hnone, (durable_read_nothing _ _ _ Hnone), cache_connected.
    by rewrite Hcache. }
  assert (Hfile : load_credentials_from_file user_google_email (Some cid) (connected w)
                  = (Ret (Some l), wb)).
  { rewrite (load_file_stored _ _ _ c) by (rewrite ?durable_get_connected; done).
    subst l wb. by replace (heap (connected w)) with (heap w) by (by destruct w). }
  assert (Hlb : heap wb !! l = Some c).
  { subst wb l. cbn [heap set_heap]. by apply list_lookup_middle. }
  assert (Hab : available wb = true).
  { subst wb. rewrite available_set_heap, available_durable_read.
    by rewrite available_connected. }
  assert (Hsave : save_credentials_to_session session_id l wb = (Ret tt, w1)).
  { rewrite (save_credentials_to_session_eq _ _ _ _ Hlb). by rewrite Hab. }
  assert (Hget1 : durable_get w1 skey = Some doc).
  { subst w1. by apply durable_get_write_eq. }
  exists l, w1. split_and!.
  - unfold get_credentials_lookup.
    rewrite (bind_eq _ _ w w (Ret (MCP_SINGLE_USER_MODE (outside w)))) by reflexivity.
    rewrite bool_decide_eq_false_2 by done.
    rewrite !truthy_Some by done. cbn [the_str default from_option id andb].
    rewrite (bind_eq _ _ _ _ _ Hsession).
    rewrite (bind_eq _ _ (connected w) w1 (Ret (Some l))); [done |].
    rewrite (bind_eq _ _ _ _ _ Hfile).
    by rewrite (bind_eq _ _ _ _ _ Hsave).
  - subst w1. by rewrite heap_durable_write.
  - exact Hget1.
  - intros email' pcid'.
    pose proof (load_session_stored w1 session_id c Hget1 Hok) as Hload.
    eexists _, _. split.
    + apply lookup_session_hit; [| done | exact Hload].
      subst w1. rewrite outside_durable_write. subst wb.
      cbn [outside set_heap]. by rewrite outside_durable_read, outside_connected.
    + cbn [heap set_heap]. by apply list_lookup_middle.
Qed.

Lemma X13_loaded_credentials_join_the_session_witness :
  let w := (save_credentials_to_file "a@example.com" 0%nat
              (example_world true rejecting [example_credentials])).2 in
  exists (l : loc) (w1 : World),
    get_credentials_lookup (Some "a@example.com") "credentials" (Some "s1")
      (Some "tenant-1") w = (Ret (Some l, Some "a@example.com"), w1)
    /\ heap w1 !! l = Some example_credentials
    /\ exists (l2 : loc) (w2 : World),
         get_credentials_lookup None "credentials" (Some "s1") None w1
         = (Ret (Some l2, None), w2)
         /\ heap w2 !! l2 = Some example_credentials.
Proof.
  intros w.
  destruct (X13_loaded_credentials_join_the_session w "a@example.com" "tenant-1" "s1"
              "credentials" example_credentials)
    as (l & w1 & H1 & H2 & _ & H4); try reflexivity; try done.
  - intros e He. injection He as <-. reflexivity.
  - exists l, w1. split; [exact H1 |]. split; [exact H2 |]. apply (H4 None None).
Defined.

(** ** Single-user mode *)

Lemma Credentials_from_cases (j : json) (exp : option datetime) (w : World) :
  Credentials_from j exp w = (Raise AttributeError, w)
  \/ Credentials_from j exp w = (IllTyped, w)
  \/ exists c : Credentials,
       Credentials_from j exp w
       = (Ret (List.length (heap w)), set_heap (heap w ++ [c]) w)
       /\ expiry c = exp.
Proof.
  destruct j as [| b | n | s | items | items]; try (left; reflexivity).
  unfold Credentials_from, field, scopes_field, alloc, bind, ret, ill_typed, dict_get.
  repeat match goal with
         | |- context [as_optional_str ?x] =>
             destruct (as_optional_str x); [| right; left; reflexivity]
         end.
  destruct (default JNull (assoc "scopes" items)) as [| b | n | s | l | l];
    try (right; left; reflexivity).
  - right. right. eexists. split; reflexivity.
  - destruct (as_str_list l); [| right; left; reflexivity].
    right. right. eexists. split; reflexivity.
Qed.

Lemma Credentials_from_not_object (j : json) (exp : option datetime) (w : World) :
  is_object j = false -> Credentials_from j exp w = (Raise AttributeError, w).
Proof. by destruct j. Qed.

Lemma Credentials_from_creds_data (c : Credentials) (w : World) :
  Credentials_from (creds_data_of c) None w
  = (Ret (List.length (heap w)), set_heap (heap w ++ [without_expiry c]) w).
Proof.
  destruct c as [tok rt uri cid csec sc exp].
  unfold creds_data_of, Credentials_from, field, scopes_field, alloc, bind, ret.
  cbn [token refresh_token token_uri client_id client_secret scopes expiry
       dict_get assoc default from_option id String.eqb Ascii.eqb Bool.eqb].
  rewrite !as_optional_str_str_or_null.
  destruct sc as [l |]; [| reflexivity]. cbv beta iota.
  by rewrite as_str_list_fmap.
Qed.

Lemma scan_credentials_cons_json (name : string) (j : json)
    (rest : list (string * option text)) (w : World) :
  endswith name ".json" = true ->
  scan_credentials ((name, Some (Document j)) :: rest) w
  = match Credentials_from j None w with
    | (Ret l, w') => (Ret (Some l), w')
    | (Raise e, w') => (Raise e, w')
    | (IllTyped, w') => (IllTyped, w')
    end.
Proof.
  intros Hn. cbn [scan_credentials]. rewrite Hn.
  unfold try_except, bind, loads, json_loads. unfold ret.
  destruct (Credentials_from_cases j None w) as [H | [H | (c & H & _)]];
    rewrite H; reflexivity.
Qed.

Lemma scan_credentials_cases (files : list (string * option text)) (w : World) :
  scan_credentials files w = (Ret None, w)
  \/ scan_credentials files w = (Raise AttributeError, w)
  \/ scan_credentials files w = (IllTyped, w)
  \/ exists c : Credentials,
       scan_credentials files w
       = (Ret (Some (List.length (heap w))), set_heap (heap w ++ [c]) w)
       /\ expiry c = None.
Proof.
  induction files as [| [name content] rest IH]; [by left |].
  destruct (endswith name ".json") eqn:Hn.
  - destruct content as [[j | s] |].
    + rewrite scan_credentials_cons_json by done.
      destruct (Credentials_from_cases j None w) as [H | [H | (c & H & Hc)]];
        rewrite H; [right; left | right; right; left | right; right; right; exists c];
        done.
    + cbn [scan_credentials]. rewrite Hn. exact IH.
    + cbn [scan_credentials]. rewrite Hn. exact IH.
  - cbn [scan_credentials]. rewrite Hn. exact IH.
Qed.

Lemma scan_credentials_skip (entry : string * option text)
    (rest : list (string * option text)) (w : World) :
  skipped entry = true ->
  scan_credentials (entry :: rest) w = scan_credentials rest w.
Proof.
  destruct entry as [name content]. unfold skipped. cbn [fst snd scan_credentials].
  destruct (endswith name ".json"); [| done]. cbn [negb orb].
  destruct content as [[j | s] |]; [done | reflexivity | reflexivity].
Qed.

(** X14.  The scan of the credentials directory.  Entries whose name does
    not end in [.json], that cannot be read or whose text is not JSON are
    passed over; the first other entry decides alone, whatever follows it:
    if it holds the attributes a save writes, the credential is built from
    them without its expiry; if it holds JSON that is not an object, the
    scan raises [AttributeError] instead of going on to the next file. *)
Theorem X14_scan_of_the_directory (bad rest : list (string * option text))
    (name : string) (w : World) :
  forallb skipped bad = true ->
  endswith name ".json" = true ->
  scan_credentials (bad ++ rest) w = scan_credentials rest w
  /\ (forall c : Credentials,
        scan_credentials (bad ++ (name, Some (Document (creds_data_of c))) :: rest) w
        = (Ret (Some (List.length (heap w))),
           set_heap (heap w ++ [without_expiry c]) w))
  /\ (forall j : json,
        is_object j = false ->
        scan_credentials (bad ++ (name, Some (Document j)) :: rest) w
        = (Raise AttributeError, w)).
Proof.
  intros Hbad Hn.
  assert (Hskip : forall tail, scan_credentials (bad ++ tail) w = scan_credentials tail w).
  { intros tail. induction bad as [| entry bad IH]; [done |].
    cbn [forallb] in Hbad. apply andb_prop in Hbad as [He Hbad].
    rewrite <- app_comm_cons, scan_credentials_skip by done. by apply IH. }
  split_and!.
  - apply Hskip.
  - intros c. rewrite Hskip, scan_credentials_cons_json by done.
    by rewrite Credentials_from_creds_data.
  - intros j Hj. rewrite Hskip, scan_credentials_cons_json by done.
    by rewrite Credentials_from_not_object.
Qed.

Lemma X14_scan_of_the_directory_witness :
  let bad := [("notes.txt", Some (Document (creds_data_of dead_credentials)));
              ("locked.json", None);
              ("broken.json", Some (Malformed "{"))] in
  let w := example_world false rejecting [] in
  scan_credentials
    (bad ++ [("a@example.com.json", Some (Document (creds_data_of example_credentials)));
             ("b@example.com.json", Some (Document (creds_data_of dead_credentials)))]) w
  = (Ret (Some 0%nat), set_heap [without_expiry example_credentials] w)
  /\ scan_credentials
       (bad ++ [("list.json", Some (Document (JArr [])));
                ("a@example.com.json",
                 Some (Document (creds_data_of example_credentials)))]) w
     = (Raise AttributeError, w).
Proof.
  intros bad w. split.
  - destruct (X14_scan_of_the_directory bad
                [("b@example.com.json", Some (Document (creds_data_of dead_credentials)))]
                "a@example.com.json" w) as (_ & H & _); [reflexivity | reflexivity |].
    exact (H example_credentials).
  - destruct (X14_scan_of_the_directory bad
                [("a@example.com.json",
                  Some (Document (creds_data_of example_credentials)))]
                "list.json" w) as (_ & _ & H); [reflexivity | reflexivity |].
    exact (H (JArr []) eq_refl).
Defined.

Lemma find_any_credentials_cases (dir : string) (w : World) :
  _find_any_credentials dir w = (Ret None, w)
  \/ _find_any_credentials dir w = (Raise AttributeError, w)
  \/ _find_any_credentials dir w = (IllTyped, w)
  \/ exists c : Credentials,
       _find_any_credentials dir w
       = (Ret (Some (List.length (heap w))), set_heap (heap w ++ [c]) w)
       /\ expiry c = None.
Proof.
  unfold _find_any_credentials.
  rewrite (bind_eq _ _ w w (Ret (listdir (outside w) dir))) by reflexivity.
  destruct (listdir (outside w) dir) as [files |]; [| by left].
  apply scan_credentials_cases.
Qed.

Lemma get_user_info_returns (l : loc) (w : World) :
  exists o : option string, get_user_info l w = (Ret o, w).
Proof.
  unfold get_user_info, deref, now, gets, bind, ret.
  destruct (negb (valid _ _)); by eexists.
Qed.

Lemma lookup_single_user_fails w email dir sid pcid (r : outcome (option loc)) :
  MCP_SINGLE_USER_MODE (outside w) = Some "1" ->
  _find_any_credentials dir w = (r, w) ->
  (forall l, r <> Ret (Some l)) ->
  get_credentials_lookup email dir sid pcid w
  = (match r with
     | Ret _ => Ret (None, email)
     | Raise e => Raise e
     | IllTyped => IllTyped
     end, w).
Proof.
  intros Hmode Hfind Hr. unfold get_credentials_lookup.
  rewrite (bind_eq _ _ w w (Ret (MCP_SINGLE_USER_MODE (outside w)))) by reflexivity.
  rewrite Hmode, bool_decide_eq_true_2 by done.
  rewrite (bind_eq _ _ _ _ _ Hfind).
  destruct r as [[l |] | e |]; try done. by destruct (Hr l).
Qed.

Lemma lookup_single_user_finds w email dir sid pcid l w1 :
  MCP_SINGLE_USER_MODE (outside w) = Some "1" ->
  _find_any_credentials dir w = (Ret (Some l), w1) ->
  exists email' : option string,
    get_credentials_lookup email dir sid pcid w = (Ret (Some l, email'), w1).
Proof.
  intros Hmode Hfind. unfold get_credentials_lookup.
  rewrite (bind_eq _ _ w w (Ret (MCP_SINGLE_USER_MODE (outside w)))) by reflexivity.
  rewrite Hmode, bool_decide_eq_true_2 by done.
  rewrite (bind_eq _ _ _ _ _ Hfind).
  rewrite (bind_eq _ _ w1 w1 (Ret (heap w1 !!! l))) by reflexivity.
  unfold now. rewrite (bind_eq _ _ w1 w1 (Ret (clock (outside w1)))) by reflexivity.
  destruct (negb (truthy email) && valid _ _); [| by eexists].
  destruct (get_user_info_returns l w1) as [o Ho].
  rewrite (bind_eq _ _ w1 w1 (Ret o)) by (by apply try_except_ret).
  destruct o; by eexists.
Qed.

(** A credential without expiry is never refreshed: the decision looks at
    the scopes and the token only. *)
Lemma decide_no_expiry w l c email required csp sid :
  heap w !! l = Some c -> expiry c = None ->
  get_credentials_decide l email required csp sid w
  = (match has_all_scopes (scopes c) required w with
     | (Ret true, _) => if is_None (token c) then Ret None else Ret (Some l)
     | (Ret false, _) => Ret None
     | (Raise e, _) => Raise e
     | (IllTyped, _) => IllTyped
     end, w).
Proof.
  intros Hl He. unfold get_credentials_decide. bind_step deref_eq.
  assert (Hs : exists r, has_all_scopes (scopes c) required w = (r, w)).
  { unfold has_all_scopes. destruct required; [by eexists |].
    destruct (scopes c); by eexists. }
  destruct Hs as [r Hs]. rewrite (bind_eq _ _ _ _ _ Hs), Hs.
  destruct r as [[|] | e |]; try reflexivity. cbn [negb].
  unfold now. rewrite (bind_eq _ _ w w (Ret (clock (outside w)))) by reflexivity.
  unfold valid, expired. rewrite He.
  destruct (token c); reflexivity.
Qed.

(** X15.  Single-user mode.  With [MCP_SINGLE_USER_MODE=1] and an e-mail
    address given, so that [get_user_info] is not called,
    [get_credentials] depends on the required scopes and the directory
    only: which address it is, the client secrets path, the session and
    the client identifier and secret make no difference to the answer or
    to what is left behind.  The store, its connection and the session
    cache are not touched.  The credential handed back was read without
    its expiry, so it has a token and is never refreshed: the token
    endpoint plays no part. *)
Theorem X15_single_user_mode (w : World) (user_google_email : string)
    (required_scopes : list string) (client_secrets_path : option string)
    (credentials_base_dir : string)
    (session_id provided_client_id provided_client_secret : option string) :
  MCP_SINGLE_USER_MODE (outside w) = Some "1" ->
  user_google_email <> "" ->
  let p := get_credentials (Some user_google_email) required_scopes client_secrets_path
             credentials_base_dir session_id provided_client_id
             provided_client_secret w in
  (forall (email' : string) (csp' sid' pcid' psecret' : option string),
     email' <> "" ->
     get_credentials (Some email') required_scopes csp' credentials_base_dir sid' pcid'
       psecret' w = p)
  /\ redis_db p.2 = redis_db w
  /\ _redis_store p.2 = _redis_store w
  /\ _SESSION_CREDENTIALS_CACHE p.2 = _SESSION_CREDENTIALS_CACHE w
  /\ outside p.2 = outside w
  /\ forall l : loc,
       p.1 = Ret (Some l) ->
       exists c : Credentials,
         heap p.2 !! l = Some c /\ expiry c = None /\ is_Some (token c)
         /\ heap w !! l = None.
Proof.
  intros Hmode _ p.
  assert (Hfail : forall (r : outcome (option loc)),
    _find_any_credentials credentials_base_dir w = (r, w) ->
    (forall l, r <> Ret (Some l)) ->
    forall email csp sid pcid psecret,
      get_credentials email required_scopes csp credentials_base_dir sid pcid psecret w
      = (match r with
         | Ret _ => Ret None
         | Raise e => Raise e
         | IllTyped => IllTyped
         end, w)).
  { intros r Hfind Hr email csp sid pcid psecret. unfold get_credentials.
    rewrite (bind_eq _ _ _ _ _
               (lookup_single_user_fails _ email _ sid pcid _ Hmode Hfind Hr)).
    by destruct r. }
  destruct (find_any_credentials_cases credentials_base_dir w)
    as [Hfind | [Hfind | [Hfind | (c & Hfind & Hexp)]]].
  1-3: subst p; rewrite (Hfail _ Hfind) by done; split_and!; try done;
       intros email' csp' sid' pcid' psecret' _; by rewrite (Hfail _ Hfind).
  set (l := List.length (heap w)) in *.
  set (w1 := set_heap (heap w ++ [c]) w) in *.
  assert (Hl : heap w1 !! l = Some c).
  { subst w1 l. cbn [heap set_heap]. by apply list_lookup_middle. }
  assert (Hall : forall email csp sid pcid psecret,
    get_credentials email required_scopes csp credentials_base_dir sid pcid psecret w
    = (match has_all_scopes (scopes c) required_scopes w1 with
       | (Ret true, _) => if is_None (token c) then Ret None else Ret (Some l)
       | (Ret false, _) => Ret None
       | (Raise e, _) => Raise e
       | (IllTyped, _) => IllTyped
       end, w1)).
  { intros email csp sid pcid psecret.
    destruct (lookup_single_user_finds _ email _ sid pcid _ _ Hmode Hfind)
      as [email' Hlookup].
    rewrite (get_credentials_found _ _ _ _ _ _ _ _ _ _ _ Hlookup).
    by apply decide_no_expiry. }
  subst p. rewrite Hall. cbn [fst snd].
  split_and!; [by intros email' csp' sid' pcid' psecret' _; rewrite Hall | ..];
    try (subst w1; by destruct w).
  intros l' Hl'.
  destruct (has_all_scopes (scopes c) required_scopes w1) as [[[|] | e |] w'];
    try discriminate Hl'.
  destruct (token c) as [tok |] eqn:Htok; [| discriminate Hl'].
  cbn [is_None] in Hl'. injection Hl' as <-.
  exists c. split_and!; try done.
  subst l. by apply lookup_ge_None_2.
Qed.

Lemma X15_single_user_mode_witness :
  let w := set_outside
             (mk_outside example_clock true true (Some "1")
                (fun _ => Some [("a@example.com.json",
                                 Some (Document (creds_data_of expired_credentials)))])
                refreshing (fun _ => None))
             (example_world true refreshing []) in
  let p := get_credentials (Some "a@example.com") ["openid"] (Some "client_secret.json")
             "credentials" (Some "s1") (Some "tenant-1") (Some "secret-1") w in
  get_credentials (Some "b@example.com") ["openid"] None "credentials" None None None w = p
  /\ p.1 = Ret (Some 0%nat)
  /\ redis_db p.2 = redis_db w.
Proof.
  intros w p.
  assert (Ha : "a@example.com" <> "") by discriminate.
  assert (Hb : "b@example.com" <> "") by discriminate.
  destruct (X15_single_user_mode w "a@example.com" ["openid"]
              (Some "client_secret.json") "credentials" (Some "s1") (Some "tenant-1")
              (Some "secret-1") eq_refl Ha) as (H & Hdb & _).
  split; [exact (H "b@example.com" None None None None Hb) |].
  split; [reflexivity | exact Hdb].
Defined.

(** ** Expired credentials in single-user mode *)

Lemma scan_credentials_skips (bad tail : list (string * option text)) (w : World) :
  forallb skipped bad = true ->
  scan_credentials (bad ++ tail) w = scan_credentials tail w.
Proof.
  induction bad as [| entry bad IH]; [done |].
  cbn [forallb]. intros [He Hbad]%andb_prop.
  rewrite <- app_comm_cons, scan_credentials_skip by done. by apply IH.
Qed.

(** In single-user mode the first credentials file of the directory
    decides, and the credential is handed back as the scan built it, that
    is without its expiry: neither the expiry it was saved with nor its
    refresh token plays a part. *)
Lemma single_user_returns_stored (w : World) (user_google_email : string)
    (required_scopes : list string) (client_secrets_path : option string)
    (credentials_base_dir : string)
    (session_id provided_client_id provided_client_secret : option string)
    (bad rest : list (string * option text)) (name : string)
    (c : Credentials) (g : list string) :
  MCP_SINGLE_USER_MODE (outside w) = Some "1" ->
  user_google_email <> "" ->
  listdir (outside w) credentials_base_dir
  = Some (bad ++ (name, Some (Document (creds_data_of c))) :: rest)%list ->
  forallb skipped bad = true ->
  endswith name ".json" = true ->
  is_Some (token c) ->
  scopes c = Some g ->
  required_scopes ⊆ g ->
  get_credentials (Some user_google_email) required_scopes client_secrets_path
    credentials_base_dir session_id provided_client_id provided_client_secret w
  = (Ret (Some (List.length (heap w))), set_heap (heap w ++ [without_expiry c]) w).
Proof.
  intros Hmode Hemail Hdir Hbad Hname [tok Htok] Hg Hsub.
  set (l := List.length (heap w)).
  set (w1 := set_heap (heap w ++ [without_expiry c]) w).
  assert (Hfind : _find_any_credentials credentials_base_dir w = (Ret (Some l), w1)).
  { unfold _find_any_credentials.
    rewrite (bind_eq _ _ w w (Ret (listdir (outside w) credentials_base_dir)))
      by reflexivity.
    rewrite Hdir, scan_credentials_skips, scan_credentials_cons_json by done.
    by rewrite Credentials_from_creds_data. }
  destruct (lookup_single_user_finds _ (Some user_google_email) _ session_id
              provided_client_id _ _ Hmode Hfind) as [email' Hlookup].
  rewrite (get_credentials_found _ _ _ _ _ _ _ _ _ _ _ Hlookup).
  assert (Hl : heap w1 !! l = Some (without_expiry c)).
  { subst w1 l. cbn [heap set_heap]. by apply list_lookup_middle. }
  rewrite (decide_no_expiry _ _ _ _ _ _ _ Hl eq_refl).
  cbn [without_expiry scopes token]. rewrite Hg, Htok.
  rewrite has_all_scopes_some.
  apply all_in_subseteq in Hsub. by rewrite Hsub.
Qed.

(** C3 fails in single-user mode.  A credential that expired the day
    before and has no refresh token is saved to a file of the credentials
    directory with its expiry.  With [MCP_SINGLE_USER_MODE=1],
    [get_credentials] hands it back: [_find_any_credentials] builds the
    object without the expiry, so [credentials.valid] holds.  The same
    credential saved under the identity-scoped key is refused outside
    single-user mode, where the expiry is read back. *)
Theorem C3_expired_credential_returned :
  let stored := creds_data_of dead_credentials in
  let w := single_user_world dead_credentials in
  let answer :=
    get_credentials (Some "a@example.com") ["openid"] (Some "client_secret.json")
      "credentials" (Some "s1") (Some "tenant-1") (Some "secret-1") w in
  let w0 := example_world true rejecting [dead_credentials] in
  let saved := save_credentials_to_file "a@example.com" 0%nat w0 in
  let refused :=
    get_credentials (Some "a@example.com") ["openid"] (Some "client_secret.json")
      "credentials" None (Some "tenant-1") (Some "secret-1") saved.2 in
  expiry dead_credentials = Some (mk_datetime 2023 12 31 0 0 0 0)
  /\ to_micros (mk_datetime 2023 12 31 0 0 0 0) < clock (outside w)
  /\ refresh_token dead_credentials = None
  /\ dict_get stored "expiry" = Some (JStr "2023-12-31T00:00:00")
  /\ listdir (outside w) "credentials"
     = Some [("a@example.com.json", Some (Document stored))]
  /\ answer.1 = Ret (Some 0%nat)
  /\ heap answer.2 !! 0%nat = Some (without_expiry dead_credentials)
  /\ durable_get saved.2 (user_creds_key "tenant-1" "a@example.com")
     = Some (Document stored)
  /\ refused.1 = Ret None.
Proof. vm_compute. repeat split; reflexivity. Qed.

(** ** Entries this program did not write *)

Lemma decoded_not_object (j : json) (w : World) :
  is_object j = false -> decoded (Document j) w = (Raise AttributeError, w).
Proof. by destruct j. Qed.

Lemma durable_get_read (w : World) (key : string) (ttl : Z) (v : text) :
  durable_get w key = Some v -> truthy_text v = true -> 0 < ttl ->
  durable_get (durable_read w key ttl) key = Some v.
Proof.
  intros Hget Hv Httl.
  pose proof (durable_get_available _ _ _ Hget) as Ha.
  unfold durable_get in *. rewrite available_durable_read, Ha in *.
  unfold durable_read, touch. rewrite Ha, Hget, Hv.
  replace (clock (outside (set_redis_db _ (connected w)))) with (clock (outside w))
    by (by destruct w).
  cbn [redis_db set_redis_db]. apply db_get_insert_eq. by apply seconds_pos.
Qed.

(** X16.  A stored text that is JSON but not an object.  Both loads raise
    [AttributeError]: the handler of the decoding catches [JSONDecodeError]
    and [KeyError] only.  The read has renewed the entry, so the next load
    raises again; for a session the in-memory cache is not consulted; and
    [get_credentials], which has no handler around its loads, raises too. *)
Theorem X16_stored_value_not_an_object (w : World)
    (user_google_email cid session_id : string) (j : json) :
  is_object j = false ->
  cid <> "" ->
  (durable_get w (user_creds_key cid user_google_email) = Some (Document j) ->
   let p := load_credentials_from_file user_google_email (Some cid) w in
   p.1 = Raise AttributeError
   /\ (load_credentials_from_file user_google_email (Some cid) p.2).1
      = Raise AttributeError
   /\ forall (required_scopes : list string) (client_secrets_path : option string)
        (credentials_base_dir : string) (provided_client_secret : option string),
        MCP_SINGLE_USER_MODE (outside w) <> Some "1" ->
        user_google_email <> "" ->
        (get_credentials (Some user_google_email) required_scopes client_secrets_path
           credentials_base_dir None (Some cid) provided_client_secret w).1
        = Raise AttributeError)
  /\ (durable_get w (session_creds_key session_id) = Some (Document j) ->
      (load_credentials_from_session session_id w).1 = Raise AttributeError).
Proof.
  intros Hj Hcid. split.
  - intros Hget.
    assert (Hload : forall w0,
      durable_get w0 (user_creds_key cid user_google_email) = Some (Document j) ->
      load_credentials_from_file user_google_email (Some cid) w0
      = (Raise AttributeError,
         durable_read w0 (user_creds_key cid user_google_email) 604800)).
    { intros w0 H0. rewrite load_credentials_from_file_eq by by apply truthy_Some.
      cbv zeta. cbn [the_str default from_option id]. rewrite H0. cbn [truthy_text].
      by apply decoded_not_object. }
    cbv zeta. rewrite (Hload w Hget). cbn [fst snd]. split_and!.
    + done.
    + rewrite Hload; [done |]. by apply durable_get_read.
    + intros required csp dir psecret Hmode Hemail.
      assert (Hlookup :
        get_credentials_lookup (Some user_google_email) dir None (Some cid) w
        = (Raise AttributeError,
           durable_read w (user_creds_key cid user_google_email) 604800)).
      { unfold get_credentials_lookup.
        rewrite (bind_eq _ _ w w (Ret (MCP_SINGLE_USER_MODE (outside w))))
          by reflexivity.
        rewrite bool_decide_eq_false_2 by done.
        change (truthy None) with false. cbv iota.
        rewrite (bind_eq _ _ w w (Ret None)) by reflexivity.
        rewrite !truthy_Some by done. cbn [andb the_str default from_option id].
        rewrite (bind_eq _ _ w
                   (durable_read w (user_creds_key cid user_google_email) 604800)
                   (Raise AttributeError)); [done |].
        by rewrite (bind_eq _ _ _ _ _ (Hload w Hget)). }
      unfold get_credentials. by rewrite (bind_eq _ _ _ _ _ Hlookup).
  - intros Hget. rewrite load_credentials_from_session_eq. cbv zeta.
    rewrite Hget. cbn [truthy_text]. by rewrite decoded_not_object.
Qed.

Lemma X16_stored_value_not_an_object_witness :
  let w := set_redis_db
             {[ user_creds_key "tenant-1" "a@example.com" :=
                  (Document (JArr [JStr "ya29.token"]), example_clock + seconds 60) ]}
             (example_world true rejecting []) in
  (load_credentials_from_file "a@example.com" (Some "tenant-1") w).1
  = Raise AttributeError
  /\ (get_credentials (Some "a@example.com") [] None "credentials" None
        (Some "tenant-1") None w).1 = Raise AttributeError.
Proof.
  intros w.
  destruct (X16_stored_value_not_an_object w "a@example.com" "tenant-1" "s1"
              (JArr [JStr "ya29.token"]) eq_refl) as [H _]; [done |].
  destruct (H eq_refl) as (H1 & _ & H3).
  split; [exact H1 |]. by apply H3.
Defined.

Lemma decoded_with_expiry (c : Credentials) (expiry_value : json) (w : World) :
  is_string expiry_value = false ->
  decoded (Document (creds_data_with_expiry c expiry_value)) w
  = (Ret (Some (List.length (heap w))), set_heap (heap w ++ [without_expiry c]) w).
Proof.
  intros Hv. destruct c as [tok rt uri cid csec sc exp].
  unfold decoded, loads, json_loads, creds_data_with_expiry, try_except,
    parse_expiry, Credentials_from, field, scopes_field, alloc, bind, ret.
  cbn [token refresh_token token_uri client_id client_secret scopes expiry
       dict_get assoc default from_option id String.eqb Ascii.eqb Bool.eqb].
  rewrite !as_optional_str_str_or_null.
  assert (Hexp : forall w',
    (if truthy_json expiry_value
     then match expiry_value with
          | JStr s => ret (fromisoformat s)
          | _ => ret None
          end
     else ret None) w' = (Ret None, w')).
  { intros w'. destruct expiry_value; try done; by destruct (truthy_json _). }
  unfold ret in *. rewrite Hexp.
  destruct sc as [l |]; [| reflexivity]. cbv beta iota.
  by rewrite as_str_list_fmap.
Qed.

(** X17.  An expiry that is not a string.  When the stored object carries,
    in the place of the expiry, a JSON value that is not a string (a
    number, a list, [null], ...), the load builds the credential without
    expiry: [fromisoformat] is not called, or its [TypeError] is caught.
    Such a credential never expires, so [get_credentials] hands it back
    at any later clock reading at which the entry is still there, as long
    as it has a token and the scopes required, without ever refreshing
    it. *)
Theorem X17_expiry_not_a_string (w : World) (user_google_email cid : string)
    (c : Credentials) (expiry_value : json) (tok : string) (g required_scopes : list string)
    (client_secrets_path provided_client_secret : option string)
    (credentials_base_dir : string) :
  is_string expiry_value = false ->
  MCP_SINGLE_USER_MODE (outside w) <> Some "1" ->
  user_google_email <> "" ->
  cid <> "" ->
  durable_get w (user_creds_key cid user_google_email)
  = Some (Document (creds_data_with_expiry c expiry_value)) ->
  token c = Some tok ->
  scopes c = Some g ->
  required_scopes ⊆ g ->
  observe (load_credentials_from_file user_google_email (Some cid) w)
  = Ret (Some (without_expiry c))
  /\ (forall now : Z, valid now (without_expiry c) = true)
  /\ observe (get_credentials (Some user_google_email) required_scopes
                client_secrets_path credentials_base_dir None (Some cid)
                provided_client_secret w)
     = Ret (Some (without_expiry c)).
Proof.
  intros Hv Hmode Hemail Hcid Hget Htok Hg Hsub.
  apply all_in_subseteq in Hsub.
  set (key := user_creds_key cid user_google_email) in *.
  set (l := List.length (heap w)).
  set (w1 := set_heap (heap w ++ [without_expiry c]) (durable_read w key 604800)).
  assert (Hload : load_credentials_from_file user_google_email (Some cid) w
                  = (Ret (Some l), w1)).
  { rewrite load_credentials_from_file_eq by by apply truthy_Some.
    cbv zeta. cbn [the_str default from_option id]. fold key. rewrite Hget.
    cbn [truthy_text]. rewrite decoded_with_expiry by done.
    by rewrite heap_durable_read. }
  assert (Hl : heap w1 !! l = Some (without_expiry c)).
  { subst w1 l. cbn [heap set_heap]. by apply list_lookup_middle. }
  assert (Hvalid : forall now : Z, valid now (without_expiry c) = true).
  { intros now. unfold valid, expired. cbn. by rewrite Htok. }
  split_and!.
  - rewrite Hload. by apply observe_Some.
  - exact Hvalid.
  - assert (Hlookup :
      get_credentials_lookup (Some user_google_email) credentials_base_dir None
        (Some cid) w = (Ret (Some l, Some user_google_email), w1)).
    { unfold get_credentials_lookup.
      rewrite (bind_eq _ _ w w (Ret (MCP_SINGLE_USER_MODE (outside w)))) by reflexivity.
      rewrite bool_decide_eq_false_2 by done.
      change (truthy None) with false. cbv iota.
        rewrite (bind_eq _ _ w w (Ret None)) by reflexivity.
      rewrite !truthy_Some by done. cbn [andb the_str default from_option id].
      rewrite (bind_eq _ _ w w1 (Ret (Some l))); [done |].
      by rewrite (bind_eq _ _ _ _ _ Hload). }
    rewrite (get_credentials_found _ _ _ _ _ _ _ _ _ _ _ Hlookup).
    rewrite (decide_valid _ _ (without_expiry c) g) by done.
    by apply observe_Some.
Qed.

Lemma X17_expiry_not_a_string_witness :
  let w := set_redis_db
             {[ user_creds_key "tenant-1" "a@example.com" :=
                  (Document (creds_data_with_expiry expired_credentials (JNum 1704067200)),
                   example_clock + seconds 60) ]}
             (example_world true rejecting []) in
  observe (get_credentials (Some "a@example.com") ["openid"] None "credentials" None
             (Some "tenant-1") None w)
  = Ret (Some (without_expiry expired_credentials)).
Proof.
  intros w.
  apply (X17_expiry_not_a_string w "a@example.com" "tenant-1" expired_credentials
           (JNum 1704067200) "ya29.old" ["openid"] ["openid"] None None "credentials");
    try reflexivity; try done.
Defined.

(** ** The handshake *)

Lemma pbind_eq {A B} (m : P A) (k : A -> P B) (p p' : Process) (r : result A) :
  m p = (r, p') ->
  pbind m k p =
  match r with
  | Ok a => k a p'
  | Err e => (Err e, p')
  | Stuck => (Stuck, p')
  end.
Proof. intros H. unfold pbind. rewrite H. by destruct r. Qed.

Lemma load_client_secrets_from_env_eq (cid csecret redirect_uri : option string)
    (p : Process) :
  load_client_secrets_from_env cid csecret redirect_uri p
  = (Ok (env_config_of cid csecret redirect_uri p), p).
Proof.
  unfold load_client_secrets_from_env, env_config_of, getenv, pbind, pgets, pret.
  by destruct (truthy _ && truthy _).
Qed.

Lemma env_config_of_redirect (cid csecret r r' : option string) (p : Process) :
  is_None (env_config_of cid csecret r p) = is_None (env_config_of cid csecret r' p).
Proof. unfold env_config_of. by destruct (truthy _ && truthy _). Qed.

Lemma env_config_of_given (cid csecret redirect_uri : option string) (p : Process)
    (a b : string) :
  or_else cid (environ p !! "GOOGLE_OAUTH_CLIENT_ID") = Some a -> a <> "" ->
  or_else csecret (environ p !! "GOOGLE_OAUTH_CLIENT_SECRET") = Some b -> b <> "" ->
  env_config_of cid csecret redirect_uri p
  = Some (JObj [("web", web_config a b
                          (or_else redirect_uri
                             (environ p !! "GOOGLE_OAUTH_REDIRECT_URI")))]).
Proof.
  intros Ha Hane Hb Hbne. unfold env_config_of. rewrite Ha, Hb.
  by rewrite !truthy_Some by done.
Qed.

Lemma load_client_secrets_env (path : string) (cid csecret redirect_uri : option string)
    (p : Process) (a b : string) :
  or_else cid (environ p !! "GOOGLE_OAUTH_CLIENT_ID") = Some a -> a <> "" ->
  or_else csecret (environ p !! "GOOGLE_OAUTH_CLIENT_SECRET") = Some b -> b <> "" ->
  load_client_secrets path cid csecret redirect_uri p
  = (Ok (web_config a b (or_else redirect_uri (environ p !! "GOOGLE_OAUTH_REDIRECT_URI"))),
     p).
Proof.
  intros Ha Hane Hb Hbne. unfold load_client_secrets.
  rewrite (pbind_eq _ _ _ _ _ (load_client_secrets_from_env_eq _ _ _ _)).
  by rewrite (env_config_of_given _ _ _ _ a b).
Qed.

Lemma or_else_given (a : string) (o : option string) :
  a <> "" -> or_else (Some a) o = Some a.
Proof. intros Ha. unfold or_else. by rewrite truthy_Some. Qed.

Lemma or_else_absent (o o' : option string) : truthy o = false -> or_else o o' = o'.
Proof. intros Ho. unfold or_else. by rewrite Ho. Qed.

Lemma load_client_secrets_frame (path : string) (cid csecret redirect_uri : option string)
    (p : Process) :
  (load_client_secrets path cid csecret redirect_uri p).2 = p.
Proof.
  unfold load_client_secrets.
  rewrite (pbind_eq _ _ _ _ _ (load_client_secrets_from_env_eq _ _ _ _)).
  destruct (env_config_of _ _ _ _) as [config |].
  - unfold json_item. destruct config; try done. by destruct (assoc _ _).
  - unfold json_load_file, json_in, json_item, pbind, pgets, pret, praise.
    destruct (file_at _ _) as [| | [j | s]]; try done. cbn [json_loads].
    destruct j as [| b | n | s | items | items]; try done.
    + by repeat destruct (contains _ _).
    + by repeat destruct (existsb _ _).
    + by repeat destruct (assoc _ _).
Qed.

(** X18.  Where the client secrets come from.  [load_client_secrets]
    changes nothing, and resolves the client identifier and the client
    secret one by one: a non-empty argument first, then the environment
    variable; an empty argument counts as absent, so the two may come from
    different places.  When both are found the file is not looked at.
    Otherwise the file decides: with a [web] entry that entry is the
    answer, whatever else the file holds, and a missing file raises
    [FileNotFoundError]. *)
Theorem X18_client_secrets_precedence (p : Process) (client_secrets_path : string)
    (cid csecret redirect_uri : option string) :
  let answer := load_client_secrets client_secrets_path cid csecret redirect_uri p in
  let redirect := or_else redirect_uri (environ p !! "GOOGLE_OAUTH_REDIRECT_URI") in
  answer.2 = p
  /\ (forall a b : string,
        cid = Some a -> a <> "" -> csecret = Some b -> b <> "" ->
        answer.1 = Ok (web_config a b redirect))
  /\ (forall a b : string,
        truthy cid = false -> truthy csecret = false ->
        environ p !! "GOOGLE_OAUTH_CLIENT_ID" = Some a -> a <> "" ->
        environ p !! "GOOGLE_OAUTH_CLIENT_SECRET" = Some b -> b <> "" ->
        answer.1 = Ok (web_config a b redirect))
  /\ (forall a b : string,
        cid = Some a -> a <> "" -> truthy csecret = false ->
        environ p !! "GOOGLE_OAUTH_CLIENT_SECRET" = Some b -> b <> "" ->
        answer.1 = Ok (web_config a b redirect))
  /\ (env_config_of cid csecret redirect_uri p = None ->
      (forall (items : list (string * json)) (v : json),
          file_at (runtime p) client_secrets_path = Readable (Document (JObj items)) ->
          assoc "web" items = Some v ->
          answer.1 = Ok v)
      /\ (file_at (runtime p) client_secrets_path = Missing ->
          exists text, answer.1 = Err (FileNotFoundError text))).
Proof.
  intros answer redirect. subst answer redirect. split_and!.
  - apply load_client_secrets_frame.
  - intros a b -> Ha -> Hb.
    by rewrite (load_client_secrets_env _ _ _ _ _ a b) by by rewrite ?or_else_given.
  - intros a b Hcid Hcs Hea Ha Heb Hb.
    by rewrite (load_client_secrets_env _ _ _ _ _ a b) by by rewrite ?or_else_absent.
  - intros a b -> Ha Hcs Heb Hb.
    by rewrite (load_client_secrets_env _ _ _ _ _ a b)
      by by rewrite ?or_else_given, ?or_else_absent.
  - intros Hnone.
    assert (Hfile : forall r p',
      (client_config <- json_load_file client_secrets_path ;;
       has_web <- json_in "web" client_config ;;
       if has_web then json_item client_config "web"
       else
         has_installed <- json_in "installed" client_config ;;
         if has_installed then json_item client_config "installed"
         else praise (Builtin ValueError))%flow p = (r, p') ->
      load_client_secrets client_secrets_path cid csecret redirect_uri p = (r, p')).
    { intros r p' H. unfold load_client_secrets.
      rewrite (pbind_eq _ _ _ _ _ (load_client_secrets_from_env_eq _ _ _ _)).
      by rewrite Hnone. }
    split.
    + intros items v Hf Hv. erewrite Hfile; [reflexivity |].
      unfold json_load_file, json_in, json_item, pbind, pgets, pret.
      rewrite Hf. cbn [json_loads]. by rewrite Hv.
    + intros Hf. eexists. erewrite Hfile; [reflexivity |].
      unfold json_load_file, pbind, pgets, praise. by rewrite Hf.
Qed.

Lemma X18_client_secrets_precedence_witness :
  let p := mk_process (example_world true rejecting [])
             {[ "GOOGLE_OAUTH_CLIENT_SECRET" := "secret-env" ]} 0
             (example_runtime (ExchangeRaises ValueError)) in
  (load_client_secrets "/srv/app/client_secret.json" (Some "tenant-1") (Some "") None p).1
  = Ok (web_config "tenant-1" "secret-env" None).
Proof.
  intros p.
  destruct (X18_client_secrets_precedence p "/srv/app/client_secret.json"
              (Some "tenant-1") (Some "") None) as (_ & _ & _ & H & _).
  by apply H.
Defined.

Lemma create_oauth_flow_cases (scopes : list string) (redirect_uri : string)
    (state cid csecret : option string) (p : Process) :
  (exists flow : Flow,
      create_oauth_flow scopes redirect_uri state cid csecret p = (Ok flow, p)
      /\ flow_scopes flow = scopes
      /\ flow_redirect_uri flow = redirect_uri
      /\ flow_state flow = state)
  \/ (exists e : error,
         create_oauth_flow scopes redirect_uri state cid csecret p = (Err e, p)
         /\ ((exists text, e = FileNotFoundError text)
             <-> env_config_of cid csecret (Some redirect_uri) p = None
                 /\ file_at (runtime p) (CONFIG_CLIENT_SECRETS_PATH (runtime p))
                    = Missing)).
Proof.
  unfold create_oauth_flow.
  rewrite (pbind_eq _ _ _ _ _ (load_client_secrets_from_env_eq _ _ _ _)).
  destruct (env_config_of _ _ _ _) as [config |].
  - unfold from_client_config, pbind, pgets, pret, praise.
    destruct (client_config_refused _ _) as [e |].
    + right. eexists. split; [reflexivity |]. split; [by intros [? ?] | by intros [? _]].
    + left. by eexists.
  - unfold path_exists, from_client_secrets_file, json_load_file, from_client_config,
      pbind, pgets, pret, praise.
    destruct (file_at _ _) as [| | [j | s]] eqn:Hf; cbn [negb json_loads];
      cbv beta iota zeta; rewrite ?Hf; cbn [json_loads]; cbv beta iota zeta.
    + right. eexists. split; [reflexivity |]. split; [done | by eexists].
    + right. eexists. split; [reflexivity |]. split; [by intros [? ?] | by intros [_ ?]].
    + destruct (client_config_refused _ _) as [e |].
      * right. eexists. split; [reflexivity |].
        split; [by intros [? ?] | by intros [_ ?]].
      * left. by eexists.
    + right. eexists. split; [reflexivity |]. split; [by intros [? ?] | by intros [_ ?]].
Qed.

Lemma check_client_secrets_eq (cid csecret : option string) (p : Process) :
  check_client_secrets cid csecret p
  = (Ok (if is_None (env_config_of cid csecret None p)
            && match file_at (runtime p) (CONFIG_CLIENT_SECRETS_PATH (runtime p)) with
               | Missing => true
               | _ => false
               end
         then Some ("OAuth client credentials not found. Please provide client_id and client_secret parameters, set GOOGLE_OAUTH_CLIENT_ID and GOOGLE_OAUTH_CLIENT_SECRET environment variables, or provide a client secrets file at "
                    ++ CONFIG_CLIENT_SECRETS_PATH (runtime p) ++ ".")
         else None), p).
Proof.
  unfold check_client_secrets.
  rewrite (pbind_eq _ _ _ _ _ (load_client_secrets_from_env_eq _ _ _ _)).
  unfold path_exists, pbind, pgets, pret.
  destruct (env_config_of _ _ _ _); [done |].
  cbn [is_None andb]. cbv beta iota zeta.
  by destruct (file_at _ _).
Qed.

(** X19.  [check_client_secrets] and [create_oauth_flow] agree.  Neither
    changes anything; the check answers an error message exactly when
    [create_oauth_flow], with the same client identifier and secret and
    whatever scopes, redirect URI and state, raises [FileNotFoundError];
    and a flow that is built carries the scopes, the redirect URI and the
    state it was asked for. *)
Theorem X19_check_agrees_with_create (p : Process) (scopes : list string)
    (redirect_uri : string) (state cid csecret : option string) :
  let checked := check_client_secrets cid csecret p in
  let created := create_oauth_flow scopes redirect_uri state cid csecret p in
  checked.2 = p
  /\ created.2 = p
  /\ ((exists message, checked.1 = Ok (Some message))
      <-> (exists text, created.1 = Err (FileNotFoundError text)))
  /\ (checked.1 = Ok None \/ exists message, checked.1 = Ok (Some message))
  /\ (forall flow : Flow,
        created.1 = Ok flow ->
        flow_scopes flow = scopes /\ flow_redirect_uri flow = redirect_uri
        /\ flow_state flow = state).
Proof.
  cbv zeta. rewrite check_client_secrets_eq. cbn [fst snd].
  rewrite (env_config_of_redirect cid csecret None (Some redirect_uri)).
  destruct (create_oauth_flow_cases scopes redirect_uri state cid csecret p)
    as [(flow & Hc & Hs & Hr & Hst) | (e & Hc & Hfnf)]; rewrite Hc; cbn [fst snd].
  - split_and!; try done.
    + split; [| by intros [? ?]].
      intros [message Hm]. exfalso.
      unfold create_oauth_flow in Hc.
      rewrite (pbind_eq _ _ _ _ _ (load_client_secrets_from_env_eq _ _ _ _)) in Hc.
      destruct (env_config_of cid csecret (Some redirect_uri) p); [done |].
      unfold path_exists, pbind, pgets, praise in Hc.
      by destruct (file_at _ _).
    + destruct (_ && _); [right; by eexists | by left].
    + by intros ? [= <-].
  - split_and!; try done.
    + split.
      * intros [message Hm]. 
        destruct (env_config_of cid csecret (Some redirect_uri) p) eqn:He; [done |].
        destruct (file_at _ _) eqn:Hf; try done.
        destruct (proj2 Hfnf) as [text ->]; [done | by eexists].
      * intros [text [= ->]].
        destruct (proj1 Hfnf) as [He Hf]; [by eexists |].
        rewrite He, Hf. by eexists.
    + destruct (_ && _); [right; by eexists | by left].
Qed.

Lemma X19_check_agrees_with_create_witness :
  let p := example_process (example_world true rejecting []) (ExchangeRaises ValueError) in
  exists text : string,
    (create_oauth_flow ["openid"] "https://app.example/cb" None None None p).1
    = Err (FileNotFoundError text).
Proof.
  intros p.
  destruct (X19_check_agrees_with_create p ["openid"] "https://app.example/cb"
              None None None) as (_ & _ & [H _] & _).
  apply H. eexists. reflexivity.
Defined.

(** *** Starting the handshake *)

(** X20.  [start_auth_flow], for every process and all arguments.  It
    either answers the message built around the authorization URL of a
    flow that carries the token drawn as its state, all the scopes and the
    redirect URI given, or raises [Exception]: no other exception comes
    out.  Either way one token has been drawn and stored before the flow
    was built, so that it resolves, right after the call, to the session
    and the client identifier and secret given, even when the call has
    failed.  Plain HTTP is allowed in the environment only when the
    variable was not set and the redirect URI names localhost. *)
Theorem X20_start_auth_flow (p : Process) (mcp_session_id user_google_email : option string)
    (service_name redirect_uri : string) (cid csecret : option string) :
  let r := start_auth_flow mcp_session_id user_google_email service_name redirect_uri
             cid csecret p in
  ((exists flow : Flow,
       r.1 = Ok (auth_message mcp_session_id user_google_email service_name
                   (authorization_url (runtime p) flow))
       /\ flow_state flow = Some (drawn_token p)
       /\ flow_scopes flow = SCOPES (runtime p)
       /\ flow_redirect_uri flow = redirect_uri)
   \/ (exists text : string, r.1 = Err (Exception text)))
  /\ (scopes.get_oauth_state (drawn_token p) (world r.2)).1
     = Ret (Some (mk_state_info mcp_session_id cid csecret))
  /\ environ r.2 = insecure_transport false redirect_uri p
  /\ urandom_calls r.2 = S (urandom_calls p)
  /\ runtime r.2 = runtime p.
Proof.
  cbv zeta.
  destruct (stored_token_resolves (world p) (drawn_token p) mcp_session_id cid csecret)
    as (w' & Hstore & Hresolve).
  set (p3 := mk_process w' (insecure_transport false redirect_uri p)
               (S (urandom_calls p)) (runtime p)).
  assert (Hrun :
    start_auth_flow mcp_session_id user_google_email service_name redirect_uri
      cid csecret p
    = ptry
        (flow <- create_oauth_flow (SCOPES (runtime p)) redirect_uri
                   (Some (drawn_token p)) cid csecret ;;
         auth_url <- pgets (fun p => authorization_url (runtime p) flow) ;;
         pret (auth_message mcp_session_id user_google_email service_name auth_url))%flow
        (fun e =>
           Some
             (rt <- pgets runtime ;;
              match e with
              | FileNotFoundError _ =>
                  praise (Exception
                            ("OAuth client credentials not found: " ++ str_of rt e
                             ++ ". Please either:" ++ nl
                             ++ "1. Set environment variables: GOOGLE_OAUTH_CLIENT_ID and GOOGLE_OAUTH_CLIENT_SECRET"
                             ++ nl ++ "2. Ensure '" ++ CONFIG_CLIENT_SECRETS_PATH rt
                             ++ "' file exists"))
              | _ =>
                  praise (Exception
                            ("Could not initiate authentication for "
                             ++ user_display_name service_name user_google_email
                             ++ " due to an unexpected error: " ++ str_of rt e))
              end)%flow) p3).
  { subst p3. destruct p as [w env n rt].
    unfold insecure_transport, drawn_token in *.
    cbn [world environ urandom_calls runtime orb] in *.
    unfold start_auth_flow, ptry, getenv, urandom_hex, lift.
    unfold pbind at 1 2 3 4 5 6 7 8. unfold pgets, pmodify, pret.
    cbn [world environ urandom_calls runtime set_environ set_urandom_calls].
    destruct (is_None (env !! "OAUTHLIB_INSECURE_TRANSPORT")
              && (contains "localhost" redirect_uri
                  || contains "127.0.0.1" redirect_uri));
      cbn [world environ urandom_calls runtime set_environ set_urandom_calls];
      rewrite Hstore; reflexivity. }
  rewrite Hrun. clear Hrun. unfold ptry.
  replace (runtime p) with (runtime p3) by reflexivity.
  destruct (create_oauth_flow_cases (SCOPES (runtime p3)) redirect_uri
              (Some (drawn_token p)) cid csecret p3)
    as [(flow & Hc & Hs & Hr & Hst) | (e & Hc & _)];
    rewrite (pbind_eq _ _ _ _ _ Hc).
  - unfold pbind, pgets, pret. cbn [fst snd]. split_and!; try done.
    left. by exists flow.
  - unfold pbind, pgets, praise. cbn [fst snd].
    destruct e; cbn [fst snd]; split_and!; try done; right; by eexists.
Qed.

(** *** The callback *)

Lemma lift_eq {A} (m : M A) (p : Process) (a : A) (w' : World) :
  m (world p) = (Ret a, w') -> lift m p = (Ok a, set_world w' p).
Proof. intros H. unfold lift. by rewrite H. Qed.

Lemma handle_auth_callback_eq (requested_scopes : list string)
    (authorization_response redirect_uri credentials_base_dir : string)
    (session_id client_secrets_path cid csecret : option string) (p : Process) :
  handle_auth_callback requested_scopes authorization_response redirect_uri
    credentials_base_dir session_id client_secrets_path cid csecret p
  = (flow <- create_oauth_flow requested_scopes redirect_uri None cid csecret ;;
     exchange <- pgets (fun p =>
                   fetch_token (runtime p) (environ p) flow authorization_response) ;;
     match exchange with
     | ExchangeRaises e => praise (Builtin e)
     | Exchanged c =>
         credentials <- lift (alloc c) ;;
         user_info <- lift (get_user_info credentials) ;;
         match user_info with
         | None => praise (Builtin ValueError)
         | Some user_google_email =>
             lift (save_credentials_to_file user_google_email credentials) ;;
             (if truthy session_id
              then lift (save_credentials_to_session (the_str session_id) credentials)
              else pret tt) ;;
             pret (user_google_email, credentials)
         end
     end)%flow (set_environ (insecure_transport true redirect_uri p) p).
Proof.
  unfold handle_auth_callback, getenv, insecure_transport.
  unfold pbind at 1 2. unfold pgets, pmodify, pret. cbn [orb andb].
  rewrite andb_true_r.
  destruct (is_None (environ p !! "OAUTHLIB_INSECURE_TRANSPORT")); [reflexivity |].
  by destruct p.
Qed.

Lemma get_user_info_eq (l : loc) (c : Credentials) (w : World) :
  heap w !! l = Some c ->
  get_user_info l w
  = (Ret (if valid (clock (outside w)) c then userinfo_email (outside w) c else None), w).
Proof.
  intros Hl. unfold get_user_info. bind_step deref_eq.
  unfold now. rewrite (bind_eq _ _ w w (Ret (clock (outside w)))) by reflexivity.
  by destruct (valid _ _).
Qed.

Lemma save_credentials_to_file_returns (w : World) (email : string) (l : loc)
    (c : Credentials) :
  heap w !! l = Some c ->
  exists w' : World,
    save_credentials_to_file email l w = (Ret tt, w')
    /\ heap w' = heap w
    /\ outside w' = outside w
    /\ _SESSION_CREDENTIALS_CACHE w' = _SESSION_CREDENTIALS_CACHE w
    /\ (available w = true -> truthy (client_id c) = true ->
        durable_get w' (user_creds_key (the_str (client_id c)) email)
        = Some (Document (creds_data_of c))).
Proof.
  intros Hl. destruct (truthy (client_id c)) eqn:Hc.
  - eexists. split; [by apply save_credentials_to_file_eq |].
    rewrite heap_durable_write, outside_durable_write, cache_durable_write.
    split_and!; try done. intros Ha _. by apply durable_get_write_eq.
  - exists w. split; [by apply (save_credentials_to_file_skip _ _ _ c) |]. done.
Qed.

(** X21.  A callback that succeeds.  When a flow can be built, the token
    exchange yields a credential that is valid and the user information
    gives an e-mail address, [handle_auth_callback] answers that address
    and a new object holding the credential.  With a session, the
    credential is from then on what [get_credentials] finds for that
    session, in either tier and whatever identity is named; and with the
    durable tier answering and a client identifier in the credential, it
    stands under the identity-scoped key of that client identifier and the
    address. *)
Theorem X21_callback_success (p : Process) (requested_scopes : list string)
    (authorization_response redirect_uri credentials_base_dir session_id : string)
    (client_secrets_path cid csecret : option string)
    (flow : Flow) (c : Credentials) (email : string) (g required_scopes : list string) :
  let p1 := set_environ (insecure_transport true redirect_uri p) p in
  (create_oauth_flow requested_scopes redirect_uri None cid csecret p1).1 = Ok flow ->
  fetch_token (runtime p) (environ p1) flow authorization_response = Exchanged c ->
  valid (clock (outside (world p))) c = true ->
  userinfo_email (outside (world p)) c = Some email ->
  MCP_SINGLE_USER_MODE (outside (world p)) <> Some "1" ->
  session_id <> "" ->
  expiry_ok c ->
  scopes c = Some g ->
  required_scopes ⊆ g ->
  exists (l : loc) (p2 : Process),
    handle_auth_callback requested_scopes authorization_response redirect_uri
      credentials_base_dir (Some session_id) client_secrets_path cid csecret p
    = (Ok (email, l), p2)
    /\ heap (world p) !! l = None
    /\ heap (world p2) !! l = Some c
    /\ (forall (email' csp' pcid' psecret' : option string) (dir' : string),
          observe (get_credentials email' required_scopes csp' dir' (Some session_id)
                     pcid' psecret' (world p2))
          = Ret (Some c))
    /\ (available (world p) = true -> truthy (client_id c) = true ->
        durable_get (world p2) (user_creds_key (the_str (client_id c)) email)
        = Some (Document (creds_data_of c))).
Proof.
  intros p1 Hflow Hfetch Hv Hemail Hmode Hsid Hok Hg Hsub.
  set (w := world p) in *.
  set (l := List.length (heap w)).
  set (w1 := set_heap (heap w ++ [c]) w).
  assert (Hl1 : heap w1 !! l = Some c).
  { subst w1 l. cbn [heap set_heap]. by apply list_lookup_middle. }
  destruct (save_credentials_to_file_returns w1 email l c Hl1)
    as (wf & Hfile & Hhf & Hof & Hcf & Hdf).
  assert (Hlf : heap wf !! l = Some c) by by rewrite Hhf.
  set (ws := (save_credentials_to_session session_id l wf).2).
  assert (Hsession : save_credentials_to_session session_id l wf = (Ret tt, ws)).
  { subst ws. by rewrite (save_credentials_to_session_eq _ _ _ _ Hlf). }
  assert (Hcreate : create_oauth_flow requested_scopes redirect_uri None cid csecret p1
                    = (Ok flow, p1)).
  { destruct (create_oauth_flow_cases requested_scopes redirect_uri None cid csecret p1)
      as [(flow' & Hc & _) | (e & Hc & _)]; rewrite Hc in Hflow |- *;
      cbn [fst] in Hflow; by simplify_eq. }
  exists l, (set_world ws p1). split_and!.
  - rewrite handle_auth_callback_eq. fold p1.
    rewrite (pbind_eq _ _ _ _ _ Hcreate).
    unfold pbind at 1. unfold pgets at 1.
    replace (runtime p1) with (runtime p) by reflexivity. rewrite Hfetch.
    assert (Halloc : lift (alloc c) p1 = (Ok l, set_world w1 p1)) by reflexivity.
    rewrite (pbind_eq _ _ _ _ _ Halloc).
    assert (Hinfo : lift (get_user_info l) (set_world w1 p1)
                    = (Ok (Some email), set_world w1 p1)).
    { unfold lift. cbn [world set_world].
      rewrite (get_user_info_eq _ _ _ Hl1).
      replace (outside w1) with (outside w) by reflexivity.
      rewrite Hv, Hemail. by destruct p. }
    rewrite (pbind_eq _ _ _ _ _ Hinfo).
    assert (Hsf : lift (save_credentials_to_file email l) (set_world w1 p1)
                  = (Ok tt, set_world wf p1)).
    { unfold lift. cbn [world set_world]. by rewrite Hfile. }
    rewrite (pbind_eq _ _ _ _ _ Hsf).
    rewrite truthy_Some by done. cbn [the_str default from_option id].
    assert (Hss : lift (save_credentials_to_session session_id l) (set_world wf p1)
                  = (Ok tt, set_world ws p1)).
    { unfold lift. cbn [world set_world]. by rewrite Hsession. }
    by rewrite (pbind_eq _ _ _ _ _ Hss).
  - subst l. by apply lookup_ge_None_2.
  - cbn [world set_world]. subst ws.
    rewrite (save_credentials_to_session_eq _ _ _ _ Hlf). cbn [snd].
    destruct (available wf); [by rewrite heap_durable_write |].
    rewrite <- Hlf. by destruct wf.
  - intros email' csp' pcid' psecret' dir'. cbn [world set_world]. subst ws.
    apply (saved_session_is_found wf session_id l c g); try done.
    + by rewrite Hof.
    + by rewrite Hof.
  - intros Ha Hc. cbn [world set_world]. subst ws.
    rewrite (save_credentials_to_session_eq _ _ _ _ Hlf). cbn [snd].
    assert (Haf : available wf = true).
    { unfold available, the_store in *.
      pose proof (durable_get_available _ _ _ (Hdf Ha Hc)) as H. exact H. }
    rewrite Haf. rewrite durable_get_write_ne by apply session_key_not_user_key.
    by apply Hdf.
Qed.

Lemma X21_callback_success_witness :
  let p := example_process (example_world true rejecting [])
             (Exchanged example_credentials) in
  let p0 := set_world
              (set_outside
                 (mk_outside example_clock true true None (fun _ => None) rejecting
                    (fun _ => Some "a@example.com"))
                 (world p))
              (set_environ {[ "GOOGLE_OAUTH_CLIENT_ID" := "tenant-1";
                              "GOOGLE_OAUTH_CLIENT_SECRET" := "secret-1" ]} p) in
  exists (l : loc) (p2 : Process),
    handle_auth_callback ["openid"] "https://app.example/cb?code=4/abc&state=00"
      "https://app.example/cb" "credentials" (Some "s1") None None None p0
    = (Ok ("a@example.com", l), p2)
    /\ observe (get_credentials None ["openid"] None "credentials" (Some "s1") None None
                  (world p2))
       = Ret (Some example_credentials).
Proof.
  intros p p0.
  destruct (X21_callback_success p0 ["openid"]
              "https://app.example/cb?code=4/abc&state=00" "https://app.example/cb"
              "credentials" "s1" None None None
              (mk_flow
                 (JObj [("web", web_config "tenant-1" "secret-1"
                                  (Some "https://app.example/cb"))])
                 ["openid"] "https://app.example/cb" None)
              example_credentials "a@example.com"
              ["openid"; "https://www.googleapis.com/auth/drive.readonly"] ["openid"])
    as (l & p2 & H1 & _ & _ & H4 & _); try reflexivity; try done.
  - intros e He. injection He as <-. reflexivity.
  - apply all_in_subseteq. reflexivity.
  - exists l, p2. split; [exact H1 | apply H4].
Defined.

Lemma insecure_transport_always (redirect_uri : string) (p : Process) :
  is_Some (insecure_transport true redirect_uri p !! "OAUTHLIB_INSECURE_TRANSPORT").
Proof.
  unfold insecure_transport. cbn [orb]. rewrite andb_true_r.
  destruct (environ p !! "OAUTHLIB_INSECURE_TRANSPORT") as [v |] eqn:He; cbn [is_None].
  - by rewrite He.
  - by rewrite lookup_insert_eq.
Qed.

Lemma create_oauth_flow_never_Exception (requested_scopes : list string)
    (redirect_uri : string) (state cid csecret : option string) (p : Process)
    (text : string) :
  (create_oauth_flow requested_scopes redirect_uri state cid csecret p).1
  <> Err (Exception text).
Proof.
  unfold create_oauth_flow.
  rewrite (pbind_eq _ _ _ _ _ (load_client_secrets_from_env_eq _ _ _ _)).
  unfold from_client_config, from_client_secrets_file, json_load_file,
    from_client_config, path_exists, pbind, pgets, pret, praise.
  destruct (env_config_of _ _ _ _).
  - by destruct (client_config_refused _ _).
  - destruct (file_at _ _) as [| | [j | s]] eqn:Hf; cbn [negb json_loads];
      cbv beta iota zeta; rewrite ?Hf; cbn [json_loads]; cbv beta iota zeta; try done.
    by destruct (client_config_refused _ _).
Qed.

Lemma handle_auth_callback_no_flow (requested_scopes : list string)
    (authorization_response redirect_uri credentials_base_dir : string)
    (session_id client_secrets_path cid csecret : option string) (p : Process)
    (e : error) :
  let p1 := set_environ (insecure_transport true redirect_uri p) p in
  create_oauth_flow requested_scopes redirect_uri None cid csecret p1 = (Err e, p1) ->
  handle_auth_callback requested_scopes authorization_response redirect_uri
    credentials_base_dir session_id client_secrets_path cid csecret p = (Err e, p1).
Proof.
  intros p1 Hc. rewrite handle_auth_callback_eq. fold p1.
  by rewrite (pbind_eq _ _ _ _ _ Hc).
Qed.

Lemma handle_auth_callback_no_token (requested_scopes : list string)
    (authorization_response redirect_uri credentials_base_dir : string)
    (session_id client_secrets_path cid csecret : option string) (p : Process)
    (flow : Flow) (e : exn) :
  let p1 := set_environ (insecure_transport true redirect_uri p) p in
  create_oauth_flow requested_scopes redirect_uri None cid csecret p1 = (Ok flow, p1) ->
  fetch_token (runtime p) (environ p1) flow authorization_response = ExchangeRaises e ->
  handle_auth_callback requested_scopes authorization_response redirect_uri
    credentials_base_dir session_id client_secrets_path cid csecret p
  = (Err (Builtin e), p1).
Proof.
  intros p1 Hc Hf. rewrite handle_auth_callback_eq. fold p1.
  rewrite (pbind_eq _ _ _ _ _ Hc).
  unfold pbind at 1. unfold pgets at 1.
  replace (runtime p1) with (runtime p) by reflexivity. by rewrite Hf.
Qed.

Lemma handle_auth_callback_token (requested_scopes : list string)
    (authorization_response redirect_uri credentials_base_dir : string)
    (session_id client_secrets_path cid csecret : option string) (p : Process)
    (flow : Flow) (c : Credentials) :
  let p1 := set_environ (insecure_transport true redirect_uri p) p in
  let w1 := set_heap (heap (world p) ++ [c]) (world p) in
  let l := List.length (heap (world p)) in
  create_oauth_flow requested_scopes redirect_uri None cid csecret p1 = (Ok flow, p1) ->
  fetch_token (runtime p) (environ p1) flow authorization_response = Exchanged c ->
  handle_auth_callback requested_scopes authorization_response redirect_uri
    credentials_base_dir session_id client_secrets_path cid csecret p
  = match (if valid (clock (outside (world p))) c
           then userinfo_email (outside (world p)) c else None) with
    | None => (Err (Builtin ValueError), set_world w1 p1)
    | Some email =>
        let wf := (save_credentials_to_file email l w1).2 in
        (Ok (email, l),
         set_world (if truthy session_id
                    then (save_credentials_to_session (the_str session_id) l wf).2
                    else wf) p1)
    end.
Proof.
  intros p1 w1 l Hc Hf. rewrite handle_auth_callback_eq. fold p1.
  rewrite (pbind_eq _ _ _ _ _ Hc).
  unfold pbind at 1. unfold pgets at 1.
  replace (runtime p1) with (runtime p) by reflexivity. rewrite Hf.
  assert (Hl1 : heap w1 !! l = Some c).
  { subst w1 l. cbn [heap set_heap]. by apply list_lookup_middle. }
  assert (Halloc : lift (alloc c) p1 = (Ok l, set_world w1 p1)) by reflexivity.
  rewrite (pbind_eq _ _ _ _ _ Halloc).
  assert (Hinfo : lift (get_user_info l) (set_world w1 p1)
                  = (Ok (if valid (clock (outside (world p))) c
                         then userinfo_email (outside (world p)) c else None),
                     set_world w1 p1)).
  { unfold lift. cbn [world set_world].
    rewrite (get_user_info_eq _ _ _ Hl1).
    replace (outside w1) with (outside (world p)) by reflexivity. by destruct p. }
  rewrite (pbind_eq _ _ _ _ _ Hinfo).
  destruct (if valid _ _ then _ else _) as [email |]; [| done].
  destruct (save_credentials_to_file_returns w1 email l c Hl1)
    as (wf & Hfile & Hhf & _).
  assert (Hlf : heap wf !! l = Some c) by by rewrite Hhf.
  assert (Hsf : lift (save_credentials_to_file email l) (set_world w1 p1)
                = (Ok tt, set_world wf p1)).
  { unfold lift. cbn [world set_world]. by rewrite Hfile. }
  rewrite (pbind_eq _ _ _ _ _ Hsf). cbv zeta. rewrite Hfile. cbn [snd].
  destruct (truthy session_id); [| done].
  assert (Hss : lift (save_credentials_to_session (the_str session_id) l)
                  (set_world wf p1)
                = (Ok tt, set_world (save_credentials_to_session (the_str session_id)
                                       l wf).2 p1)).
  { unfold lift. cbn [world set_world].
    by rewrite (save_credentials_to_session_eq _ _ _ _ Hlf). }
  by rewrite (pbind_eq _ _ _ _ _ Hss).
Qed.

(** X22.  A callback that fails.  [handle_auth_callback] allows plain HTTP
    in the environment in every case, whatever the redirect URI; it never
    raises [Exception], only what it caught; and when it does not answer,
    nothing has been saved: the store, the connection to it and the
    session cache are as they were.  In particular, when the exchange
    succeeds but the credential is not valid or the user information has
    no e-mail address, it raises [ValueError] and the credential obtained is
    dropped. *)
Theorem X22_callback_failures (p : Process) (requested_scopes : list string)
    (authorization_response redirect_uri credentials_base_dir : string)
    (session_id client_secrets_path cid csecret : option string) :
  let p1 := set_environ (insecure_transport true redirect_uri p) p in
  let r := handle_auth_callback requested_scopes authorization_response redirect_uri
             credentials_base_dir session_id client_secrets_path cid csecret p in
  environ r.2 = insecure_transport true redirect_uri p
  /\ is_Some (environ r.2 !! "OAUTHLIB_INSECURE_TRANSPORT")
  /\ runtime r.2 = runtime p
  /\ (forall text : string, r.1 <> Err (Exception text))
  /\ ((forall a, r.1 <> Ok a) ->
      redis_db (world r.2) = redis_db (world p)
      /\ _redis_store (world r.2) = _redis_store (world p)
      /\ _SESSION_CREDENTIALS_CACHE (world r.2) = _SESSION_CREDENTIALS_CACHE (world p))
  /\ (forall (flow : Flow) (c : Credentials),
        (create_oauth_flow requested_scopes redirect_uri None cid csecret p1).1 = Ok flow ->
        fetch_token (runtime p) (environ p1) flow authorization_response = Exchanged c ->
        valid (clock (outside (world p))) c = false
        \/ userinfo_email (outside (world p)) c = None ->
        r.1 = Err (Builtin ValueError)).
Proof.
  intros p1 r.
  assert (Henv : is_Some (insecure_transport true redirect_uri p
                            !! "OAUTHLIB_INSECURE_TRANSPORT"))
    by apply insecure_transport_always.
  destruct (create_oauth_flow_cases requested_scopes redirect_uri None cid csecret p1)
    as [(flow & Hc & _) | (e & Hc & _)].
  2: { pose proof (create_oauth_flow_never_Exception requested_scopes redirect_uri
                     None cid csecret p1) as Hne.
       rewrite Hc in Hne. cbn [fst] in Hne.
       subst r. rewrite (handle_auth_callback_no_flow _ _ _ _ _ _ _ _ _ _ Hc).
       fold p1. cbn [fst snd]. split_and!; try done.
       - intros text [= ->]. by apply (Hne text).
       - intros flow c Hflow. by rewrite Hc in Hflow. }
  destruct (fetch_token (runtime p) (environ p1) flow authorization_response)
    as [c | e] eqn:Hf.
  2: { subst r. rewrite (handle_auth_callback_no_token _ _ _ _ _ _ _ _ _ _ _ Hc Hf).
       fold p1. cbn [fst snd]. split_and!; try done.
       intros flow' c' Hflow Hfetch. rewrite Hc in Hflow. cbn [fst] in Hflow.
       injection Hflow as <-. by rewrite Hf in Hfetch. }
  subst r. rewrite (handle_auth_callback_token _ _ _ _ _ _ _ _ _ _ _ Hc Hf). fold p1.
  destruct (if valid _ _ then _ else _) as [email |] eqn:Hinfo; cbn [fst snd].
  - split_and!; try done.
    + intros Hno. by destruct (Hno (email, List.length (heap (world p)))).
    + intros flow' c' Hflow Hfetch Hbad. exfalso.
      rewrite Hc in Hflow. cbn [fst] in Hflow. injection Hflow as <-.
      rewrite Hf in Hfetch. injection Hfetch as <-.
      destruct Hbad as [Hv | Hu]; [by rewrite Hv in Hinfo |].
      rewrite Hu in Hinfo. by destruct (valid _ _).
  - split_and!; done.
Qed.


Lemma X22_callback_failures_witness :
  let p := set_environ {[ "GOOGLE_OAUTH_CLIENT_ID" := "tenant-1";
                          "GOOGLE_OAUTH_CLIENT_SECRET" := "secret-1" ]}
             (example_process (example_world true rejecting [])
                (Exchanged example_credentials)) in
  let r := handle_auth_callback ["openid"] "https://app.example/cb?code=4/abc&state=00"
             "https://app.example/cb" "credentials" (Some "s1") None None None p in
  r.1 = Err (Builtin ValueError) /\ redis_db (world r.2) = ∅.
Proof.
  intros p r.
  destruct (X22_callback_failures p ["openid"]
              "https://app.example/cb?code=4/abc&state=00" "https://app.example/cb"
              "credentials" (Some "s1") None None None)
    as (_ & _ & _ & _ & Hsaved & Hvalue).
  assert (Hr : r.1 = Err (Builtin ValueError)).
  { eapply Hvalue; [reflexivity | reflexivity | right; reflexivity]. }
  split; [exact Hr |].
  apply Hsaved. intros a. fold r. by rewrite Hr.
Defined.
(** ** Isolation between users and between namespaces *)

Lemma append_inj_r (s t1 t2 : string) : s ++ t1 = s ++ t2 -> t1 = t2.
Proof.
  induction s as [| x s IH]; [done |].
  change (String x (s ++ t1) = String x (s ++ t2) -> t1 = t2).
  intros [= H]. by apply IH.
Qed.

Lemma user_creds_key_inj_email (T email1 email2 : string) :
  user_creds_key T email1 = user_creds_key T email2 -> email1 = email2.
Proof.
  unfold user_creds_key. intros H.
  by do 3 apply append_inj_r in H.
Qed.

Lemma connected_durable_write w k v ttl :
  connected (durable_write w k v ttl)
  = set_redis_db (redis_db (durable_write w k v ttl)) (connected w).
Proof. unfold durable_write. world_cases w; destruct up; reflexivity. Qed.

Lemma load_after_write_ne (w : World) (k : string) (v : text) (ttl : Z)
    (email : string) (cid : option string) :
  k <> user_creds_key (the_str cid) email ->
  observe (load_credentials_from_file email cid (durable_write w k v ttl))
  = observe (load_credentials_from_file email cid w).
Proof.
  intros Hk. destruct (truthy cid) eqn:Hc.
  - rewrite !(observe_load _ _ _ _ Hc eq_refl).
    rewrite durable_get_write_ne by done.
    destruct (durable_get w _) as [t |]; [| done].
    destruct (truthy_text t); [| done].
    rewrite connected_durable_write. apply observe_decoded_db.
  - by rewrite !load_credentials_from_file_none.
Qed.

(** X23.  Isolation between the users of one tenant.  For one client
    identifier and two different e-mail addresses, what a load for the
    second hands back does not depend on what the store holds under the key
    of the first, and is not changed by a save for the first. *)
Theorem X23_user_isolation (w : World) (T email1 email2 : string) :
  email1 <> email2 ->
  (forall db' : gmap string (text * Z),
      (forall k, k <> user_creds_key T email1 -> db' !! k = redis_db w !! k) ->
      observe (load_credentials_from_file email2 (Some T) (set_redis_db db' w))
      = observe (load_credentials_from_file email2 (Some T) w))
  /\ (forall (l : loc) (c : Credentials),
        heap w !! l = Some c -> client_id c = Some T ->
        observe (load_credentials_from_file email2 (Some T)
                   (save_credentials_to_file email1 l w).2)
        = observe (load_credentials_from_file email2 (Some T) w)).
Proof.
  intros Hne.
  assert (Hkey : user_creds_key T email1 <> user_creds_key T email2).
  { intros H. by apply user_creds_key_inj_email in H. }
  split.
  - intros db' Hdb.
    destruct (truthy (Some T)) eqn:HT.
    + rewrite !(observe_load _ _ _ _ HT eq_refl). cbn [the_str default from_option id].
      assert (Hget : durable_get (set_redis_db db' w) (user_creds_key T email2)
                     = durable_get w (user_creds_key T email2)).
      { unfold durable_get. rewrite available_set_redis_db.
        destruct (available w); [| done]. apply db_get_ext. apply Hdb. congruence. }
      rewrite Hget.
      destruct (durable_get w _) as [t |]; [| done].
      destruct (truthy_text t); [| done].
      assert (Hc : connected (set_redis_db db' w) = set_redis_db db' (connected w))
        by by destruct w.
      rewrite Hc. apply observe_decoded_db.
    + by rewrite !load_credentials_from_file_none.
  - intros l c Hl Hc.
    destruct (truthy (client_id c)) eqn:H1.
    + rewrite (save_credentials_to_file_eq _ _ _ _ Hl H1). cbn [snd].
      rewrite Hc. cbn [the_str default from_option id].
      by apply load_after_write_ne.
    + by rewrite (save_credentials_to_file_skip _ _ _ _ Hl H1).
Qed.

Lemma X23_user_isolation_witness :
  let w := example_world true rejecting [example_credentials] in
  observe (load_credentials_from_file "b@example.com" (Some "tenant-1")
             (save_credentials_to_file "a@example.com" 0%nat w).2)
  = Ret None.
Proof.
  intros w.
  destruct (X23_user_isolation w "tenant-1" "a@example.com" "b@example.com")
    as [_ H]; [done |].
  rewrite (H 0%nat example_credentials eq_refl eq_refl). reflexivity.
Defined.

Lemma key_prefixes_differ (a b : string) (x y : ascii) (s t : string) :
  x <> y -> String x s ++ a <> String y t ++ b.
Proof. intros Hxy [= H _]. by apply Hxy. Qed.

Lemma oauth_key_not_session_key state sid :
  oauth_state_key state <> session_creds_key sid.
Proof. by apply key_prefixes_differ. Qed.

Lemma oauth_key_not_user_key state cid email :
  oauth_state_key state <> user_creds_key cid email.
Proof. by apply key_prefixes_differ. Qed.

(** X24.  The three namespaces of the store never meet.  Whatever the
    token, the session identifier, the client identifier and the e-mail
    address, their keys are different; so, with the durable tier
    answering, saving credentials for a session or storing a correlation
    token leaves every identity-scoped entry readable as before, and
    saving credentials by identity or storing a token leaves every
    session-scoped entry readable as before. *)
Theorem X24_namespaces_never_meet (w : World) (state session_id cid user_email : string)
    (l : loc) (c : Credentials) (o_session o_cid o_secret : option string) :
  heap w !! l = Some c ->
  (oauth_state_key state <> session_creds_key session_id
   /\ oauth_state_key state <> user_creds_key cid user_email
   /\ session_creds_key session_id <> user_creds_key cid user_email)
  /\ (forall (sid : string),
        durable_get (save_credentials_to_session sid l w).2
          (user_creds_key cid user_email)
        = durable_get w (user_creds_key cid user_email))
  /\ (forall (token : string),
        durable_get (scopes.store_oauth_state token o_session o_cid o_secret w).2
          (user_creds_key cid user_email)
        = durable_get w (user_creds_key cid user_email)
        /\ durable_get (scopes.store_oauth_state token o_session o_cid o_secret w).2
             (session_creds_key session_id)
           = durable_get w (session_creds_key session_id))
  /\ (forall (email : string),
        durable_get (save_credentials_to_file email l w).2 (session_creds_key session_id)
        = durable_get w (session_creds_key session_id)).
Proof.
  intros Hl. split_and!.
  - apply oauth_key_not_session_key.
  - apply oauth_key_not_user_key.
  - apply session_key_not_user_key.
  - intros sid. rewrite (save_credentials_to_session_eq _ _ _ _ Hl). cbn [snd].
    destruct (available w) eqn:Ha.
    + apply durable_get_write_ne, session_key_not_user_key.
    + unfold durable_get.
      change (available (set_session_cache ?m (connected w))) with (available (connected w)).
      by rewrite available_connected, Ha.
  - intros token.
    destruct (_redis_available (outside w) && available w) eqn:H.
    + apply andb_prop in H as [Hav Ha].
      rewrite scopes_store_oauth_state_durable by done. cbn [snd].
      split; apply durable_get_write_ne;
        [apply oauth_key_not_user_key | apply oauth_key_not_session_key].
    + rewrite scopes_store_oauth_state_memory by done. cbn [snd].
      assert (Hg : forall key,
        durable_get (remembered token o_session o_cid o_secret (tried w)) key
        = durable_get w key).
      { intros key. unfold durable_get.
        rewrite available_remembered, available_tried.
        destruct (available w); [| done].
        unfold remembered, tried.
        destruct (truthy o_session), (_redis_available (outside w)); by destruct w. }
      by rewrite !Hg.
  - intros email. destruct (truthy (client_id c)) eqn:Hc.
    + rewrite (save_credentials_to_file_eq _ _ _ _ Hl Hc). cbn [snd].
      apply durable_get_write_ne. intros H. symmetry in H.
      by apply session_key_not_user_key in H.
    + by rewrite (save_credentials_to_file_skip _ _ _ _ Hl Hc).
Qed.

Lemma X24_namespaces_never_meet_witness :
  let w := (save_credentials_to_file "a@example.com" 0%nat
              (example_world true rejecting [example_credentials])).2 in
  durable_get (save_credentials_to_session "x:a@example.com" 0%nat w).2
    (user_creds_key "tenant-1" "a@example.com")
  = Some (Document (creds_data_of example_credentials)).
Proof.
  intros w.
  destruct (X24_namespaces_never_meet w "state-1" "s1" "tenant-1" "a@example.com"
              0%nat example_credentials None None None eq_refl) as (_ & H & _).
  rewrite H. reflexivity.
Defined.

(** ** What escapes [get_credentials] *)

Lemma grows_refl w : grows w w.
Proof. split; auto. Qed.

Lemma grows_trans w1 w2 w3 : grows w1 w2 -> grows w2 w3 -> grows w1 w3.
Proof.
  intros [H1 C1] [H2 C2]. split; [auto |].
  intros sid l H. destruct (C2 sid l H) as [H' | H']; [| by right].
  destruct (C1 sid l H') as [H'' | H'']; [by left | right; auto].
Qed.

Lemma cache_ok_grows w w' : cache_ok w -> grows w w' -> cache_ok w'.
Proof.
  intros Hok [Hh Hc] sid l H. destruct (Hc sid l H) as [H' | H']; [| done].
  apply Hh. by apply (Hok sid).
Qed.

Lemma grows_same w w' :
  heap w' = heap w -> _SESSION_CREDENTIALS_CACHE w' = _SESSION_CREDENTIALS_CACHE w ->
  grows w w'.
Proof. intros Hh Hc. split; intros; rewrite ?Hh, ?Hc in *; auto. Qed.

Lemma grows_alloc w c : grows w (set_heap (heap w ++ [c]) w).
Proof.
  split.
  - intros l [x Hx]. exists x. cbn [heap set_heap]. by apply lookup_app_l_Some.
  - intros sid l H. by left.
Qed.

Lemma grows_update w l c : grows w (set_heap (<[l := c]> (heap w)) w).
Proof.
  split.
  - intros i Hi. cbn [heap set_heap]. apply lookup_lt_is_Some.
    rewrite length_insert. by apply lookup_lt_is_Some.
  - intros sid i H. by left.
Qed.

Lemma grows_durable_read w key ttl : grows w (durable_read w key ttl).
Proof. apply grows_same; [apply heap_durable_read | apply cache_durable_read]. Qed.

Lemma grows_durable_write w key v ttl : grows w (durable_write w key v ttl).
Proof. apply grows_same; [apply heap_durable_write | apply cache_durable_write]. Qed.

Lemma grows_save_session w sid l c :
  heap w !! l = Some c -> grows w (save_credentials_to_session sid l w).2.
Proof.
  intros Hl. rewrite (save_credentials_to_session_eq _ _ _ _ Hl). cbn [snd].
  destruct (available w); [apply grows_durable_write |].
  split.
  - intros i Hi. by destruct w.
  - intros sid' i. cbn [_SESSION_CREDENTIALS_CACHE set_session_cache].
    rewrite cache_connected.
    destruct (decide (sid = sid')) as [<- | Hne].
    + rewrite lookup_insert_eq. intros [= <-]. right.
      replace (heap (set_session_cache _ (connected w))) with (heap w)
        by (by destruct w).
      by eexists.
    + rewrite lookup_insert_ne by done. by left.
Qed.

Lemma save_session_returns w sid l c :
  heap w !! l = Some c ->
  save_credentials_to_session sid l w = (Ret tt, (save_credentials_to_session sid l w).2).
Proof. intros Hl. by rewrite (save_credentials_to_session_eq _ _ _ _ Hl). Qed.

Lemma grows_save_file w email l c :
  heap w !! l = Some c -> grows w (save_credentials_to_file email l w).2.
Proof.
  intros Hl.
  destruct (save_credentials_to_file_returns w email l c Hl) as (w' & H & Hh & _ & Hc & _).
  rewrite H. cbn [snd]. by apply grows_same.
Qed.

Lemma grows_persisted email sid l c w :
  heap w !! l = Some c -> grows w (persisted email sid l c w).
Proof.
  intros Hl. unfold persisted.
  set (w1 := if truthy email && truthy (client_id c) then _ else w).
  assert (G1 : grows w w1).
  { subst w1. destruct (_ && _); [apply grows_durable_write | apply grows_refl]. }
  assert (Hl1 : heap w1 !! l = Some c).
  { subst w1. destruct (_ && _); [by rewrite heap_durable_write | done]. }
  destruct (truthy sid); [| done].
  apply (grows_trans _ w1); [done |].
  pose proof (grows_save_session w1 (the_str sid) l c Hl1) as G.
  by rewrite (save_credentials_to_session_eq _ _ _ _ Hl1) in G.
Qed.

Lemma decoded_cases (t : text) (w : World) :
  decoded t w = (Ret None, w)
  \/ decoded t w = (Raise AttributeError, w)
  \/ decoded t w = (IllTyped, w)
  \/ exists c : Credentials,
       decoded t w = (Ret (Some (List.length (heap w))), set_heap (heap w ++ [c]) w).
Proof.
  destruct t as [j | s]; [| by left].
  unfold decoded, try_except, loads, json_loads.
  rewrite (bind_eq _ _ w w (Ret j)) by reflexivity.
  unfold parse_expiry.
  destruct (dict_get j "expiry") as [v |] eqn:Hv.
  2: { right. left. by rewrite (bind_eq _ _ w w (Raise AttributeError)). }
  assert (Hexp : exists exp : option datetime,
    (if truthy_json v
     then match v with JStr s => ret (fromisoformat s) | _ => ret None end
     else ret None) w = (Ret exp, w)).
  { destruct (truthy_json v); [| by eexists]. destruct v; by eexists. }
  destruct Hexp as [exp Hexp]. rewrite (bind_eq _ _ _ _ _ Hexp).
  destruct (Credentials_from_cases j exp w) as [H | [H | (c & H & _)]];
    rewrite (bind_eq _ _ _ _ _ H).
  - by right; left.
  - by right; right; left.
  - right. right. right. by exists c.
Qed.

Lemma decoded_safe (t : text) (w : World) :
  cache_ok w ->
  grows w (decoded t w).2 /\ found_ok (decoded t w).1 (decoded t w).2.
Proof.
  intros Hok.
  destruct (decoded_cases t w) as [H | [H | [H | (c & H)]]]; rewrite H; cbn [fst snd];
    try (split; [apply grows_refl | done]).
  split; [apply grows_alloc |]. cbn [found_ok heap set_heap].
  exists c. by apply list_lookup_middle.
Qed.

Lemma load_file_safe (email : string) (cid : option string) (w : World) :
  cache_ok w ->
  let r := load_credentials_from_file email cid w in
  grows w r.2 /\ found_ok r.1 r.2.
Proof.
  intros Hok r. subst r.
  destruct (truthy cid) eqn:Hc.
  2: { rewrite load_credentials_from_file_none by done. split; [apply grows_refl | done]. }
  rewrite load_credentials_from_file_eq by done. cbv zeta.
  set (w' := durable_read _ _ _).
  assert (G : grows w w') by apply grows_durable_read.
  assert (Hok' : cache_ok w') by by apply (cache_ok_grows w).
  destruct (durable_get w _) as [t |]; [| done].
  destruct (truthy_text t); [| done].
  destruct (decoded_safe t w' Hok') as [G' F]. split; [| done].
  by apply (grows_trans _ w').
Qed.

Lemma load_session_safe (sid : string) (w : World) :
  cache_ok w ->
  let r := load_credentials_from_session sid w in
  grows w r.2 /\ found_ok r.1 r.2.
Proof.
  intros Hok r. subst r.
  rewrite load_credentials_from_session_eq. cbv zeta.
  set (w' := durable_read _ _ _).
  assert (G : grows w w') by apply grows_durable_read.
  assert (Hok' : cache_ok w') by by apply (cache_ok_grows w).
  assert (Hcached : grows w w'
                    /\ found_ok (Ret (_SESSION_CREDENTIALS_CACHE w' !! sid)) w').
  { split; [done |]. cbn [found_ok].
    destruct (_SESSION_CREDENTIALS_CACHE w' !! sid) as [l |] eqn:Hl; [| done].
    by apply (Hok' sid). }
  destruct (durable_get w _) as [t |]; [| done].
  destruct (truthy_text t); [| done].
  destruct (decoded_cases t w') as [H | [H | [H | (c & H)]]]; rewrite H; cbn [fst snd].
  - done.
  - done.
  - done.
  - split; [apply (grows_trans _ w'); [done | apply grows_alloc] |].
    cbn [found_ok heap set_heap]. exists c. by apply list_lookup_middle.
Qed.

Lemma lookup_safe (email : option string) (dir : string) (sid pcid : option string)
    (w : World) :
  cache_ok w ->
  let r := get_credentials_lookup email dir sid pcid w in
  grows w r.2
  /\ match r.1 with
     | Ret (Some l, _) => is_Some (heap r.2 !! l)
     | Ret (None, _) => True
     | Raise e => e = AttributeError
     | IllTyped => True
     end.
Proof.
  intros Hok r. subst r.
  destruct (decide (MCP_SINGLE_USER_MODE (outside w) = Some "1")) as [Hmode | Hmode].
  - destruct (find_any_credentials_cases dir w) as [H | [H | [H | (c & H & _)]]].
    1-3: rewrite (lookup_single_user_fails _ _ _ _ _ _ Hmode H) by done;
         split; [apply grows_refl | done].
    destruct (lookup_single_user_finds _ email _ sid pcid _ _ Hmode H) as [email' ->].
    cbn [fst snd]. split; [apply grows_alloc |].
    cbn [heap set_heap]. exists c. by apply list_lookup_middle.
  - unfold get_credentials_lookup.
    rewrite (bind_eq _ _ w w (Ret (MCP_SINGLE_USER_MODE (outside w)))) by reflexivity.
    rewrite bool_decide_eq_false_2 by done.
    assert (Hs : exists o w1,
      (if truthy sid then load_credentials_from_session (the_str sid) else ret None) w
      = (o, w1) /\ grows w w1 /\ found_ok o w1).
    { destruct (truthy sid).
      - destruct (load_session_safe (the_str sid) w Hok) as [G F].
        eexists _, _. split; [apply surjective_pairing | done].
      - eexists _, _. split; [reflexivity |]. split; [apply grows_refl | done]. }
    destruct Hs as (o & w1 & Hs & G1 & F1). rewrite (bind_eq _ _ _ _ _ Hs).
    assert (Hok1 : cache_ok w1) by by apply (cache_ok_grows w).
    destruct o as [[l |] | e |]; cbn [found_ok] in F1.
    + unfold ret at 1. rewrite (bind_eq _ _ w1 w1 (Ret (Some l))) by reflexivity.
      cbn [fst snd]. done.
    + destruct (truthy email && truthy pcid).
      2: { unfold ret at 1. rewrite (bind_eq _ _ w1 w1 (Ret None)) by reflexivity.
           cbn [fst snd]. done. }
      destruct (load_file_safe (the_str email) pcid w1 Hok1) as [G2 F2].
      destruct (load_credentials_from_file (the_str email) pcid w1)
        as [[[l |] | e |] w2] eqn:Hf; cbn [fst snd found_ok] in G2, F2.
      * destruct F2 as [c Hl].
        assert (Hsave : exists w3,
          (if truthy sid then save_credentials_to_session (the_str sid) l else ret tt) w2
          = (Ret tt, w3) /\ grows w2 w3).
        { destruct (truthy sid).
          - eexists. split; [by apply (save_session_returns _ _ _ c) |].
            by apply (grows_save_session _ _ _ c).
          - eexists. split; [reflexivity | apply grows_refl]. }
        destruct Hsave as (w3 & Hsave & G3).
        rewrite (bind_eq _ _ w1 w3 (Ret (Some l))).
        -- cbn [fst snd]. split.
           ++ apply (grows_trans _ w1); [done |]. by apply (grows_trans _ w2).
           ++ apply G3. by eexists.
        -- rewrite (bind_eq _ _ _ _ _ Hf). by rewrite (bind_eq _ _ _ _ _ Hsave).
      * rewrite (bind_eq _ _ w1 w2 (Ret None)) by by rewrite (bind_eq _ _ _ _ _ Hf).
        cbn [fst snd]. split; [by apply (grows_trans _ w1) | done].
      * rewrite (bind_eq _ _ w1 w2 (Raise e)) by by rewrite (bind_eq _ _ _ _ _ Hf).
        cbn [fst snd]. split; [by apply (grows_trans _ w1) | done].
      * rewrite (bind_eq _ _ w1 w2 IllTyped) by by rewrite (bind_eq _ _ _ _ _ Hf).
        cbn [fst snd]. split; [by apply (grows_trans _ w1) | done].
    + done.
    + done.
Qed.

(** X26.  What [get_credentials] absorbs.  Starting from a process whose
    session cache holds addresses of objects, for all arguments and
    whatever the store, the directory and the token endpoint hold or
    answer: no [RedisError] of the store, no [JSONDecodeError] or
    [KeyError] of the decoding and no [RefreshError] or [TransportError] of
    the refresh or of the user-info request leaves the call; each is
    turned into an answer.  A credential handed back is an object of the
    heap, and the cache still holds addresses of objects afterwards. *)
Theorem X26_what_get_credentials_absorbs (w : World)
    (user_google_email : option string) (required_scopes : list string)
    (client_secrets_path : option string) (credentials_base_dir : string)
    (session_id provided_client_id provided_client_secret : option string) :
  cache_ok w ->
  let r := get_credentials user_google_email required_scopes client_secrets_path
             credentials_base_dir session_id provided_client_id
             provided_client_secret w in
  r.1 <> Raise RedisError
  /\ r.1 <> Raise JSONDecodeError
  /\ r.1 <> Raise KeyError
  /\ r.1 <> Raise RefreshError
  /\ r.1 <> Raise TransportError
  /\ (forall l : loc, r.1 = Ret (Some l) -> is_Some (heap r.2 !! l))
  /\ cache_ok r.2.
Proof.
  intros Hok r. subst r.
  destruct (lookup_safe user_google_email credentials_base_dir session_id
              provided_client_id w Hok) as [G F].
  unfold get_credentials.
  destruct (get_credentials_lookup user_google_email credentials_base_dir session_id
              provided_client_id w) as [[[[l |] email'] | e |] w1] eqn:Hlookup;
    cbn [fst snd] in G, F;
    rewrite (bind_eq _ _ _ _ _ Hlookup).
  - destruct F as [c Hl].
    assert (Hok1 : cache_ok w1) by by apply (cache_ok_grows w).
    destruct (decide_outcomes w1 l c email' required_scopes client_secrets_path
                session_id Hl)
      as [(H & _) | [H | [(H & _) | (tok & exp & rt & _ & _ & _ & H)]]];
      rewrite H; cbn [fst snd].
    + split_and!; done.
    + split_and!; done.
    + split_and!; try done. intros l' [= <-]. by eexists.
    + set (c' := refreshed c tok exp rt) in *.
      set (w2 := set_heap (<[l := c']> (heap w1)) w1).
      assert (Hl2 : heap w2 !! l = Some c').
      { subst w2. cbn [heap set_heap]. apply list_lookup_insert_eq.
        by apply lookup_lt_Some in Hl. }
      assert (G2 : grows w1 (persisted email' session_id l c' w2)).
      { apply (grows_trans _ w2); [apply grows_update | by apply grows_persisted]. }
      split_and!; try done; [| by apply (cache_ok_grows w1)].
      intros l' [= <-]. rewrite heap_persisted. by eexists.
  - cbn [fst snd]. split_and!; try done. by apply (cache_ok_grows w).
  - cbn [fst snd]. subst e. split_and!; try done. by apply (cache_ok_grows w).
  - cbn [fst snd]. split_and!; try done. by apply (cache_ok_grows w).
Qed.

Lemma X26_what_get_credentials_absorbs_witness :
  let w := cached_world (failing TransportError) expired_credentials in
  let r := get_credentials None ["openid"] (Some "client_secret.json") "credentials"
             (Some "s1") None None w in
  r.1 = Ret None /\ r.1 <> Raise TransportError /\ cache_ok r.2.
Proof.
  intros w r.
  assert (Hok : cache_ok w).
  { intros sid l H. unfold w, cached_world in H.
    cbn [_SESSION_CREDENTIALS_CACHE set_session_cache] in H.
    apply lookup_singleton_Some in H as [_ <-]. by eexists. }
  destruct (X26_what_get_credentials_absorbs w None ["openid"]
              (Some "client_secret.json") "credentials" (Some "s1") None None Hok)
    as (_ & _ & _ & _ & Ht & _ & H).
  split; [reflexivity |]. split; [exact Ht | exact H].
Defined.
